(** * Interview bot: the per-answer evaluation pipeline

    A shallow embedding of the five engines of the interview backend
    (answer evaluation, adaptive difficulty, anti-cheat monitoring,
    skill-gap detection, feedback tiers), of the ranked lists of the
    feedback report and of the chat endpoint that drives the engines,
    and the properties proved about them.

    Conventions of the embedding.

    - JavaScript numbers are IEEE-754 binary64 values.  Quantities that the
      program only ever uses as integers (counts, difficulty levels, the
      rounded scores, the suspicion score, millisecond clock readings) are
      modelled by [Z]; every computation that leaves the integers (a
      division, a product with a decimal weight) is carried out on Rocq's
      primitive binary64 floats, exactly as the program does, and brought
      back to [Z] where the program calls [Math.round].  The weights 0.35,
      0.2, 0.7 ... are not binary fractions, so the rounding of a weighted
      sum is decided by the binary64 value and not by the decimal one.
    - Strings are byte strings; whitespace, letter case, digits and word
      characters are the ASCII ones.
    - [Date.now()] is an argument of the operation that reads it; the ISO
      time stamps and the free-text [detail] of log entries are not
      modelled.
    - An object used as a dictionary is an association list in insertion
      order, which is the order [Object.entries] enumerates. *)

From Stdlib Require Import ZArith List String Ascii Bool Lia Floats.
Import ListNotations.

#[local] Set Warnings "-inexact-float".
#[local] Open Scope string_scope.
#[local] Open Scope list_scope.
#[local] Open Scope Z_scope.

(* ------------------------------------------------------------------ *)
(** ** JavaScript numbers, strings and arrays *)

Module JS.

(** An integer as a binary64 number (exact below 2^53). *)
Definition Z2F (z : Z) : float :=
  if z <? 0 then (- of_uint63 (Uint63.of_Z (- z)))%float
  else of_uint63 (Uint63.of_Z z).

(** [Math.round] on a finite number, as an integer: the nearest integer,
    a tie going to the larger one ([Math.round(2.5) = 3],
    [Math.round(-2.5) = -2]).  The value of the float [m * 2^e] is taken
    exactly.  On NaN and the infinities, where [Math.round] returns its
    argument, this function returns 0; [Math_round] below covers them. *)
Definition Math_round_Z (x : float) : Z :=
  match Prim2SF x with
  | S754_finite s m e =>
      let num := if s then Z.neg m else Z.pos m in
      if 0 <=? e then num * 2 ^ e
      else (2 * num + 2 ^ (- e)) / 2 ^ (1 - e)
  | _ => 0
  end.

(** [Math.round] as a number. *)
Definition Math_round (x : float) : float :=
  match Prim2SF x with
  | S754_finite _ _ e =>
      if 0 <=? e then x
      else
        let r := Math_round_Z x in
        if (r =? 0) && (x <? 0)%float then (- 0)%float else Z2F r
  | _ => x
  end.

(** [Math.round(x * 10) / 10], the program's rounding to one decimal. *)
Definition round1 (x : float) : float := (Math_round (x * 10) / 10)%float.

(** [Math.min] and [Math.max] of two numbers (NaN if either is NaN; of
    the two zeros the second argument is returned). *)
Definition Math_min (x y : float) : float :=
  match Prim2SF x, Prim2SF y with
  | S754_nan, _ => x
  | _, S754_nan => y
  | _, _ => if (x <? y)%float then x else y
  end.

Definition Math_max (x y : float) : float :=
  match Prim2SF x, Prim2SF y with
  | S754_nan, _ => x
  | _, S754_nan => y
  | _, _ => if (y <? x)%float then x else y
  end.

(** [a >= b] on numbers. *)
Definition geb (a b : float) : bool := (b <=? a)%float.
Definition gtb (a b : float) : bool := (b <? a)%float.

(** Sum of an array of integers: [arr.reduce((a, b) => a + b, 0)]. *)
Definition sumZ (l : list Z) : Z := fold_left Z.add l 0.

(** Sum of an array of numbers, added left to right from 0. *)
Definition sumF (l : list float) : float := fold_left PrimFloat.add l 0%float.

Definition len {A} (l : list A) : Z := Z.of_nat (List.length l).

(** [arr.slice(start)]: a negative start counts from the end. *)
Definition slice_from {A} (start : Z) (l : list A) : list A :=
  let n := len l in
  let k := if start <? 0 then Z.max (n + start) 0 else Z.min start n in
  skipn (Z.to_nat k) l.

(** [arr.slice(0, -1)]: all but the last element. *)
Definition slice_init {A} (l : list A) : list A := removelast l.

(** *** Characters *)

Definition code (c : ascii) : N := N_of_ascii c.

Definition isSpace (c : ascii) : bool :=
  let n := code c in ((n =? 32) || ((9 <=? n) && (n <=? 13)))%N.

Definition isDigit (c : ascii) : bool :=
  let n := code c in ((48 <=? n) && (n <=? 57))%N.

Definition isUpper (c : ascii) : bool :=
  let n := code c in ((65 <=? n) && (n <=? 90))%N.

Definition isLower (c : ascii) : bool :=
  let n := code c in ((97 <=? n) && (n <=? 122))%N.

(** The class [\w] of regular expressions. *)
Definition isWordChar (c : ascii) : bool :=
  isUpper c || isLower c || isDigit c || (code c =? 95)%N.

Definition lowerChar (c : ascii) : ascii :=
  if isUpper c then ascii_of_N (code c + 32) else c.

(** *** Strings *)

Fixpoint toLowerCase (s : string) : string :=
  match s with
  | EmptyString => EmptyString
  | String c r => String (lowerChar c) (toLowerCase r)
  end.

(** [s.includes(sub)]. *)
Fixpoint includes (sub s : string) : bool :=
  prefix sub s ||
  match s with
  | EmptyString => false
  | String _ r => includes sub r
  end.

Fixpoint existsChar (p : ascii -> bool) (s : string) : bool :=
  match s with
  | EmptyString => false
  | String c r => p c || existsChar p r
  end.

Fixpoint trimStart (s : string) : string :=
  match s with
  | EmptyString => EmptyString
  | String c r => if isSpace c then trimStart r else s
  end.

Fixpoint rev_string (s acc : string) : string :=
  match s with
  | EmptyString => acc
  | String c r => rev_string r (String c acc)
  end.

Definition trim (s : string) : string :=
  rev_string (trimStart (rev_string (trimStart s) "")) "".

(** [s.split(/[sep]+/)] for a character class [sep]: the pieces between
    maximal runs of separators.  A separator at either end leaves an empty
    piece there, and the empty string splits into one empty piece.  [cur]
    is the piece being read, reversed. *)
Fixpoint split_runs (sep : ascii -> bool) (s : string) (cur : string)
    (inSep : bool) : list string :=
  match s with
  | EmptyString => [rev_string cur ""]
  | String c r =>
      if sep c then
        if inSep then split_runs sep r cur true
        else rev_string cur "" :: split_runs sep r "" true
      else split_runs sep r (String c cur) false
  end.

Definition split (sep : ascii -> bool) (s : string) : list string :=
  split_runs sep s "" false.

Definition nonEmpty (s : string) : bool :=
  match s with EmptyString => false | _ => true end.

Definition optWord (c : option ascii) : bool :=
  match c with Some a => isWordChar a | None => false end.

(** The assertion [\b] between two neighbouring positions. *)
Definition wordBoundary (before after : option ascii) : bool :=
  xorb (optWord before) (optWord after).

Definition lastChar (s : string) : option ascii :=
  get 0 (rev_string s "").

(** [new RegExp("\\b" + w + "\\b").test(s)] for a literal word [w]:
    some occurrence of [w] in [s] has a word boundary on both sides.
    [prev] is the character before the current position. *)
Fixpoint wordSearch (w : string) (prev : option ascii) (s : string) : bool :=
  (prefix w s
   && wordBoundary prev (get 0 s)
   && wordBoundary (match w with
                    | EmptyString => prev
                    | _ => lastChar w
                    end) (get (String.length w) s))
  || match s with
     | EmptyString => false
     | String c r => wordSearch w (Some c) r
     end.

Definition testWord (w s : string) : bool := wordSearch w None s.

(** [[...new Set(l)]]: the first occurrence of every element, in order. *)
Fixpoint dedupeFrom (seen l : list string) : list string :=
  match l with
  | [] => []
  | x :: r =>
      if existsb (String.eqb x) seen then dedupeFrom seen r
      else x :: dedupeFrom (x :: seen) r
  end.

Definition dedupe (l : list string) : list string := dedupeFrom [] l.

(** Own string-keyed property of an object literal. *)
Fixpoint lookup {A} (k : string) (o : list (string * A)) : option A :=
  match o with
  | [] => None
  | (k', v) :: r => if String.eqb k k' then Some v else lookup k r
  end.

Definition strIn (k : string) (l : list string) : bool :=
  existsb (String.eqb k) l.

(** The one-character string holding a double quote. *)
Definition dq : string := String (ascii_of_N 34) EmptyString.

End JS.

Import JS.

(* ------------------------------------------------------------------ *)
(** ** Evaluation engine (module [evaluation]) *)

Module Evaluation.

Definition TECHNICAL_KEYWORDS : list (string * list string) :=
  [ ("javascript",
     ["closure"; "prototype"; "async"; "await"; "promise"; "callback";
      "event loop"; "hoisting"; "scope"; "this"; "arrow function";
      "destructuring"; "spread"; "rest"; "module"; "import"; "export";
      "class"; "inheritance"; "dom"; "api"; "fetch"; "json"; "typescript"]);
    ("react",
     ["component"; "state"; "props"; "hook"; "useEffect"; "useState";
      "virtual dom"; "jsx"; "render"; "lifecycle"; "context"; "redux";
      "memo"; "ref"; "key"; "fragment"; "portal"; "suspense"; "lazy"]);
    ("python",
     ["decorator"; "generator"; "list comprehension"; "lambda"; "class";
      "inheritance"; "exception"; "module"; "package"; "pip";
      "virtual environment"; "dict"; "tuple"; "set"; "async"; "await";
      "type hint"]);
    ("database",
     ["sql"; "nosql"; "index"; "query"; "join"; "normalization";
      "transaction"; "acid"; "schema"; "migration"; "orm"; "primary key";
      "foreign key"; "aggregate"; "stored procedure"]);
    ("system_design",
     ["scalability"; "load balancer"; "caching"; "microservice";
      "api gateway"; "database sharding"; "replication"; "cdn";
      "message queue"; "rate limiting"; "circuit breaker"; "consistency";
      "availability"; "partition tolerance"]);
    ("general",
     ["algorithm"; "data structure"; "complexity"; "testing"; "debugging";
      "version control"; "git"; "ci/cd"; "agile"; "scrum"; "code review";
      "documentation"; "deployment"; "monitoring"; "security"]);
    ("behavioral",
     ["team"; "leadership"; "conflict"; "challenge"; "deadline";
      "communication"; "feedback"; "collaboration"; "priority"; "decision";
      "mistake"; "learn"; "improve"; "initiative"; "mentor"]) ].

Definition HEDGING_PHRASES : list string :=
  ["i think"; "maybe"; "probably"; "i guess"; "not sure"; "i believe";
   "kind of"; "sort of"; "um"; "uh"; "like"; "you know"; "basically";
   "i don't know"; "i'm not certain"; "it might be"; "perhaps";
   "i suppose"; "something like"; "more or less"].

Definition FILLER_WORDS : list string :=
  ["um"; "uh"; "like"; "you know"; "basically"; "actually"; "literally";
   "honestly"; "right"; "so yeah"].

Definition STAR_KEYWORDS : list (string * list string) :=
  [ ("situation",
     ["situation"; "context"; "background"; "working on"; "project";
      "task"; "assigned"]);
    ("task",
     ["task"; "responsible"; "goal"; "objective"; "needed to"; "had to";
      "required"]);
    ("action",
     ["action"; "implemented"; "developed"; "created"; "built"; "designed";
      "led"; "initiated"; "proposed"; "solved"]);
    ("result",
     ["result"; "outcome"; "achieved"; "improved"; "reduced"; "increased";
      "delivered"; "successfully"; "impact"; "metrics"]) ].

Definition topicIndicators : list (string * list string) :=
  [ ("javascript",
     ["javascript"; "js"; "node"; "typescript"; "es6"; "ecmascript"]);
    ("react",
     ["react"; "component"; "hook"; "jsx"; "redux"; "next.js"; "frontend"]);
    ("python", ["python"; "django"; "flask"; "pip"; "pandas"; "numpy"]);
    ("database",
     ["database"; "sql"; "nosql"; "mongo"; "postgres"; "mysql"; "query";
      "data model"]);
    ("system_design",
     ["system design"; "architecture"; "scalab"; "microservice";
      "distributed"; "design a"]);
    ("behavioral",
     ["tell me about"; "describe a time"; "how do you handle"; "experience";
      "challenge"; "team"; "conflict"; "why do you"; "what are your";
      "strength"; "weakness"]) ].

(** [question] is already in lower case. *)
Definition detectRelevantTopics (question : string) : list string :=
  let topics :=
    map fst
      (filter (fun ti => existsb (fun ind => includes ind question) (snd ti))
         topicIndicators) in
  match topics with
  | [] => ["general"]
  | _ => topics
  end.

(** Every keyword of the table, topic after topic. *)
Definition allKeywords : list string := flat_map snd TECHNICAL_KEYWORDS.

Definition keywordsOf (topic : string) : list string :=
  match lookup topic TECHNICAL_KEYWORDS with
  | Some kws => kws
  | None => []
  end.

Record KeywordAnalysis := {
  kw_score : Z;
  matchedKeywords : list string;
  totalRelevant : Z;
  matchCount : Z;
  topics : list string
}.

Definition relevantKeywordsOf (relevantTopics : list string) : list string :=
  dedupe
    (flat_map keywordsOf relevantTopics
     ++ (if strIn "general" relevantTopics then []
         else keywordsOf "general")
     ++ (if strIn "behavioral" relevantTopics then []
         else keywordsOf "behavioral")).

Definition coverageScoreOf (matched total : Z) : Z :=
  let coverageRatio :=
    if 0 <? total then (Z2F matched / Z2F (Z.min total 8))%float
    else 0%float in
  Z.min 10 (Math_round_Z (coverageRatio * 10)).

Definition evaluateKeywordCoverage (answer question : string)
    : KeywordAnalysis :=
  let lowerAnswer := toLowerCase answer in
  let lowerQuestion := toLowerCase question in
  let relevantTopics := detectRelevantTopics lowerQuestion in
  let relevantKeywords := relevantKeywordsOf relevantTopics in
  let matched := filter (fun kw => includes kw lowerAnswer) relevantKeywords in
  {| kw_score := coverageScoreOf (len matched) (len relevantKeywords);
     matchedKeywords := matched;
     totalRelevant := len relevantKeywords;
     matchCount := len matched;
     topics := relevantTopics |}.

Record StarCoverage := {
  star_score : Z;
  components : list (string * bool);
  coveredCount : Z;
  totalComponents : Z
}.

Definition evaluateSTARMethod (answer : string) : StarCoverage :=
  let lowerAnswer := toLowerCase answer in
  let comps :=
    map (fun ck => (fst ck, existsb (fun kw => includes kw lowerAnswer) (snd ck)))
      STAR_KEYWORDS in
  let covered := len (filter snd comps) in
  {| star_score := Math_round_Z (Z2F covered / 4 * 10);
     components := comps;
     coveredCount := covered;
     totalComponents := 4 |}.

Record Completeness := {
  c_score : Z;
  wordCount : Z;
  sentenceCount : Z;
  lengthScore : Z;
  structureScore : Z;
  specificityScore : Z;
  starCoverage : StarCoverage;
  hasExamples : bool;
  hasNumbers : bool
}.

Definition isSentenceEnd (c : ascii) : bool :=
  let n := code c in ((n =? 46) || (n =? 33) || (n =? 63))%N.

Definition lengthScoreOf (wordCount : Z) : Z :=
  if wordCount <? 10 then 2
  else if wordCount <? 20 then 4
  else if wordCount <? 30 then 6
  else if wordCount <=? 120 then 9
  else if wordCount <=? 200 then 8
  else 6.

Definition structureScoreOf (sentenceCount : Z) : Z :=
  if 3 <=? sentenceCount then 10
  else if 2 <=? sentenceCount then 7
  else 4.

Definition specificityScoreOf (hasNumbers hasExamples hasSpecifics : bool) : Z :=
  Z.min 10
    (4 + (if hasNumbers then 2 else 0) + (if hasExamples then 2 else 0)
       + (if hasSpecifics then 2 else 0)).

Definition overallScoreOf (lengthScore structureScore specificityScore star : Z)
    : Z :=
  Math_round_Z
    (Z2F lengthScore * 0.3 + Z2F structureScore * 0.25
     + Z2F specificityScore * 0.25 + Z2F star * 0.2).

Definition evaluateCompleteness (answer : string) : Completeness :=
  let words := filter nonEmpty (split isSpace (trim answer)) in
  let wordCount := len words in
  let sentences :=
    filter (fun s => nonEmpty (trim s)) (split isSentenceEnd answer) in
  let sentenceCount := len sentences in
  let lengthScore := lengthScoreOf wordCount in
  let structureScore := structureScoreOf sentenceCount in
  let hasNumbers := existsChar isDigit answer in
  let lower := toLowerCase answer in
  let hasExamples :=
    existsb (fun p => includes p lower)
      ["for example"; "for instance"; "such as"; "like when"; "one time"] in
  let hasSpecifics :=
    existsb (fun p => includes p lower)
      ["specifically"; "in particular"; "the key"; "the main"; "because";
       "the reason"] in
  let specificityScore :=
    specificityScoreOf hasNumbers hasExamples hasSpecifics in
  let star := evaluateSTARMethod answer in
  let overallScore :=
    overallScoreOf lengthScore structureScore specificityScore
      (star_score star) in
  {| c_score := Z.min 10 overallScore;
     wordCount := wordCount;
     sentenceCount := sentenceCount;
     lengthScore := lengthScore;
     structureScore := structureScore;
     specificityScore := specificityScore;
     starCoverage := star;
     hasExamples := hasExamples;
     hasNumbers := hasNumbers |}.

Record Confidence := {
  conf_score : Z;
  hedgingPhrases : list string;
  fillerWords : list string;
  assertiveLanguage : list string;
  hedgingDensity : float;
  fillerDensity : float
}.

Definition assertiveIndicators : list string :=
  ["i am"; "i have"; "i did"; "i will"; "i can"; "i know"; "definitely";
   "certainly"; "absolutely"; "clearly"; "my experience"; "i successfully";
   "i led"; "i built"; "i designed"].

Definition confidenceScoreOf (hedgingCount fillerCount assertiveCount : Z) : Z :=
  let s0 := 7%float in
  let s1 := (s0 - Math_min 4 (Z2F hedgingCount * 1.5))%float in
  let s2 := (s1 - Math_min 2 (Z2F fillerCount * 0.5))%float in
  let s3 := (s2 + Math_min 3 (Z2F assertiveCount * 1))%float in
  Z.max 1 (Z.min 10 (Math_round_Z s3)).

Definition evaluateConfidence (answer : string) : Confidence :=
  let lowerAnswer := toLowerCase answer in
  let words := split isSpace lowerAnswer in
  let wordCount := len words in
  let hedgingMatches :=
    filter (fun phrase => includes phrase lowerAnswer) HEDGING_PHRASES in
  let hedgingCount := len hedgingMatches in
  let fillerMatches :=
    filter (fun filler => testWord filler lowerAnswer) FILLER_WORDS in
  let fillerCount := len fillerMatches in
  let density (count : Z) : float :=
    if 0 <? wordCount then (Z2F count / Z2F wordCount * 100)%float
    else 0%float in
  let assertiveMatches :=
    filter (fun phrase => includes phrase lowerAnswer) assertiveIndicators in
  {| conf_score :=
       confidenceScoreOf hedgingCount fillerCount (len assertiveMatches);
     hedgingPhrases := hedgingMatches;
     fillerWords := fillerMatches;
     assertiveLanguage := assertiveMatches;
     hedgingDensity := round1 (density hedgingCount);
     fillerDensity := round1 (density fillerCount) |}.

Inductive Rating := excellent | good | average | needs_improvement.

Definition getDimensionRating (score : Z) : Rating :=
  if 8 <=? score then excellent
  else if 6 <=? score then good
  else if 4 <=? score then average
  else needs_improvement.

Definition pushIf (c : bool) (s : string) : list string :=
  if c then [s] else [].

Definition identifyStrengths (keywords : KeywordAnalysis)
    (completeness : Completeness) (confidence : Confidence) (aiScore : Z)
    : list string :=
  pushIf (7 <=? aiScore) "Strong technical understanding"
  ++ pushIf (7 <=? kw_score keywords) "Good use of technical terminology"
  ++ pushIf (7 <=? c_score completeness) "Well-structured and detailed response"
  ++ pushIf (hasExamples completeness) "Provided concrete examples"
  ++ pushIf (hasNumbers completeness) "Used quantifiable data points"
  ++ pushIf (7 <=? conf_score confidence) "Confident and assertive communication"
  ++ pushIf (3 <=? coveredCount (starCoverage completeness))
       "Good STAR method structure"
  ++ pushIf (2 <=? len (assertiveLanguage confidence))
       "Assertive language patterns".

Definition identifyWeaknesses (keywords : KeywordAnalysis)
    (completeness : Completeness) (confidence : Confidence) (aiScore : Z)
    : list string :=
  pushIf (aiScore <? 5) "Answer lacks technical accuracy"
  ++ pushIf (kw_score keywords <? 4) "Missing key technical terms"
  ++ pushIf (wordCount completeness <? 20) "Response is too brief"
  ++ pushIf (200 <? wordCount completeness) "Response is too verbose"
  ++ pushIf (negb (hasExamples completeness)) "No concrete examples provided"
  ++ pushIf (structureScore completeness <? 5) "Answer lacks structure"
  ++ pushIf (conf_score confidence <? 5) "Sounds uncertain or hesitant"
  ++ pushIf (3 <? len (hedgingPhrases confidence)) "Excessive hedging language"
  ++ pushIf (2 <? len (fillerWords confidence)) "Too many filler words".

Definition generateImprovementTips (keywords : KeywordAnalysis)
    (completeness : Completeness) (confidence : Confidence) (aiScore : Z)
    : list string :=
  pushIf (kw_score keywords <? 5)
    "Use more specific technical terms relevant to the topic"
  ++ pushIf (wordCount completeness <? 20)
       "Elaborate more - aim for 30-60 words per response"
  ++ pushIf (negb (hasExamples completeness))
       ("Include specific examples: " ++ dq ++ "For instance..." ++ dq
        ++ " or " ++ dq ++ "In my experience..." ++ dq)%string
  ++ pushIf (negb (hasNumbers completeness))
       ("Add metrics when possible: " ++ dq ++ "reduced load time by 40%"
        ++ dq)%string
  ++ pushIf (conf_score confidence <? 5)
       ("Replace " ++ dq ++ "I think" ++ dq ++ " and " ++ dq ++ "maybe" ++ dq
        ++ " with " ++ dq ++ "I know" ++ dq ++ " and " ++ dq
        ++ "I have experience with" ++ dq)%string
  ++ pushIf (2 <? len (fillerWords confidence))
       "Reduce filler words (um, uh, like) - pause instead"
  ++ pushIf (coveredCount (starCoverage completeness) <? 2)
       "Structure behavioral answers using STAR: Situation, Task, Action, Result"
  ++ pushIf (structureScore completeness <? 5)
       "Use multiple sentences to structure your answer clearly"
  ++ pushIf (aiScore <? 5)
       "Review core concepts in this topic area before the next attempt".

Record Evaluation := {
  compositeScore : Z;
  aiJudgment : Z;
  aiRating : Rating;
  keywordCoverage : KeywordAnalysis;
  keywordRating : Rating;
  completeness : Completeness;
  completenessRating : Rating;
  confidence : Confidence;
  confidenceRating : Rating;
  strengths : list string;
  weaknesses : list string;
  tips : list string
}.

(** The weighted sum of the four dimension scores, rounded. *)
Definition weightedComposite (aiScore keyword complete confident : Z) : Z :=
  Math_round_Z
    (Z2F aiScore * 0.35 + Z2F keyword * 0.20 + Z2F complete * 0.25
     + Z2F confident * 0.20).

Definition evaluateAnswer (answer question : string) (aiScore : Z)
    : Evaluation :=
  let keywordAnalysis := evaluateKeywordCoverage answer question in
  let completenessAnalysis := evaluateCompleteness answer in
  let confidenceAnalysis := evaluateConfidence answer in
  let composite :=
    weightedComposite aiScore (kw_score keywordAnalysis)
      (c_score completenessAnalysis) (conf_score confidenceAnalysis) in
  {| compositeScore := Z.min 10 composite;
     aiJudgment := aiScore;
     aiRating := getDimensionRating aiScore;
     keywordCoverage := keywordAnalysis;
     keywordRating := getDimensionRating (kw_score keywordAnalysis);
     completeness := completenessAnalysis;
     completenessRating := getDimensionRating (c_score completenessAnalysis);
     confidence := confidenceAnalysis;
     confidenceRating := getDimensionRating (conf_score confidenceAnalysis);
     strengths :=
       identifyStrengths keywordAnalysis completenessAnalysis
         confidenceAnalysis aiScore;
     weaknesses :=
       identifyWeaknesses keywordAnalysis completenessAnalysis
         confidenceAnalysis aiScore;
     tips :=
       generateImprovementTips keywordAnalysis completenessAnalysis
         confidenceAnalysis aiScore |}.

End Evaluation.

(* ------------------------------------------------------------------ *)
(** ** Adaptive difficulty (module [adaptive]) *)

Module Adaptive.

Record Threshold := { up : option Z; down : option Z }.

Record LevelConfig := {
  name : string;
  description : string;
  promptModifier : string;
  scoreThreshold : Threshold
}.

Definition DIFFICULTY_LEVELS : list (Z * LevelConfig) :=
  [ (1, {| name := "Easy";
           description := "Fundamental concepts and definitions";
           promptModifier :=
             "Ask a basic, introductory-level question about fundamentals or definitions.";
           scoreThreshold := {| up := Some 7; down := None |} |});
    (2, {| name := "Medium";
           description := "Applied knowledge and scenarios";
           promptModifier :=
             "Ask a moderate-difficulty question involving practical application or scenario-based thinking.";
           scoreThreshold := {| up := Some 8; down := Some 4 |} |});
    (3, {| name := "Hard";
           description := "Advanced concepts, system design, edge cases";
           promptModifier :=
             "Ask an advanced, challenging question about system design, edge cases, or deep technical concepts.";
           scoreThreshold := {| up := None; down := Some 5 |} |}) ].

(** [DIFFICULTY_LEVELS[level]]; [None] is [undefined]. *)
Fixpoint levelConfig' (tbl : list (Z * LevelConfig)) (level : Z)
    : option LevelConfig :=
  match tbl with
  | [] => None
  | (k, c) :: r => if level =? k then Some c else levelConfig' r level
  end.

Definition levelConfig := levelConfig' DIFFICULTY_LEVELS.

Definition QUESTION_TYPES : list string :=
  ["technical"; "behavioral"; "technical"; "problem_solving"; "technical";
   "behavioral"; "technical"; "system_design"; "situational"; "technical"].

Definition QUESTION_TYPE_PROMPTS : list (string * string) :=
  [ ("technical",
     "Ask a technical question about programming concepts, algorithms, or specific technologies.");
    ("behavioral",
     ("Ask a behavioral question using the STAR format (e.g., "
      ++ dq ++ "Tell me about a time when..." ++ dq ++ ")")%string);
    ("problem_solving",
     "Present a coding or problem-solving scenario and ask how they would approach it.");
    ("system_design",
     "Ask a system design question about architecture, scalability, or infrastructure.");
    ("situational",
     "Ask a situational question about how they would handle a hypothetical workplace scenario.") ].

Record FollowUpContext := {
  fu_question : string;
  fu_answer : string;
  fu_score : Z
}.

(** One line of the adaptation log (the time stamp is left out). *)
Record Entry := {
  e_questionIndex : Z;
  e_score : Z;
  e_avgScore : float;
  previousLevel : Z;
  newLevel : Z;
  changed : bool
}.

Record Manager := {
  currentLevel : Z;
  windowSize : Z;
  scoreHistory : list Z;
  levelHistory : list Z;
  questionIndex : Z;
  followUpPending : bool;
  followUpContext : option FollowUpContext;
  adaptationLog : list Entry
}.

(** [x || d] for an optional number: absent and 0 both give [d]. *)
Definition orDefault (x : option Z) (d : Z) : Z :=
  match x with
  | Some v => if v =? 0 then d else v
  | None => d
  end.

(** [new AdaptiveDifficultyManager({ startLevel, windowSize })]. *)
Definition create (startLevel windowSize : option Z) : Manager :=
  let level := orDefault startLevel 1 in
  {| currentLevel := level;
     windowSize := orDefault windowSize 3;
     scoreHistory := [];
     levelHistory := [level];
     questionIndex := 0;
     followUpPending := false;
     followUpContext := None;
     adaptationLog := [] |}.

(** The rolling average [recordScore] computes once [score] is pushed. *)
Definition recentScores (windowSize : Z) (history : list Z) : list Z :=
  slice_from (- windowSize) history.

Definition rollingAverage (windowSize : Z) (history : list Z) : float :=
  let recent := recentScores windowSize history in
  (Z2F (sumZ recent) / Z2F (len recent))%float.

(** The transition rule of one level configuration. *)
Definition adjust (config : LevelConfig) (level : Z) (avgScore : float) : Z :=
  let t := scoreThreshold config in
  if match up t with Some u => geb avgScore (Z2F u) | None => false end
  then Z.min 3 (level + 1)
  else if match down t with Some d => (avgScore <=? Z2F d)%float | None => false end
  then Z.max 1 (level - 1)
  else level.

(** [recordScore(score)].  The second component is the returned entry;
    it is [None] when the call throws, which happens when a change is to
    be decided for a level that has no configuration: the score is pushed
    by then and nothing else is. *)
Definition recordScore (m : Manager) (score : Z) : Manager * option Entry :=
  let history := scoreHistory m ++ [score] in
  let avgScore := rollingAverage (windowSize m) history in
  let previousLevel := currentLevel m in
  let decided : option Z :=
    if 2 <=? len history then
      match levelConfig previousLevel with
      | Some config => Some (adjust config previousLevel avgScore)
      | None => None
      end
    else Some previousLevel in
  match decided with
  | None =>
      ({| currentLevel := currentLevel m;
          windowSize := windowSize m;
          scoreHistory := history;
          levelHistory := levelHistory m;
          questionIndex := questionIndex m;
          followUpPending := followUpPending m;
          followUpContext := followUpContext m;
          adaptationLog := adaptationLog m |}, None)
  | Some level =>
      let entry :=
        {| e_questionIndex := questionIndex m;
           e_score := score;
           e_avgScore := round1 avgScore;
           previousLevel := previousLevel;
           newLevel := level;
           changed := negb (previousLevel =? level) |} in
      ({| currentLevel := level;
          windowSize := windowSize m;
          scoreHistory := history;
          levelHistory := levelHistory m ++ [level];
          questionIndex := questionIndex m;
          followUpPending := followUpPending m;
          followUpContext := followUpContext m;
          adaptationLog := adaptationLog m ++ [entry] |}, Some entry)
  end.

Inductive Reason := incomplete_answer | can_elaborate | probe_deeper.

Record FollowUp := {
  shouldFollowUp_ : bool;
  reason : option Reason;
  prompt : option string
}.

Definition quoted (answer : string) : string :=
  (substring 0 100 answer ++ "...")%string.

Definition _generateFollowUpPrompt (score : Z) (question answer : string)
    : string :=
  if score <=? 4 then
    ("The candidate's answer was incomplete or unclear. They said: "
     ++ dq ++ quoted answer ++ dq
     ++ " Ask a targeted follow-up to help them demonstrate their knowledge better. For example: "
     ++ dq ++ "Can you be more specific about..." ++ dq ++ " or "
     ++ dq ++ "What exactly do you mean by..." ++ dq)%string
  else
    ("The candidate gave a partial answer. They said: "
     ++ dq ++ quoted answer ++ dq
     ++ " Ask them to elaborate on a specific aspect they mentioned but didn't fully explain.")%string.

Definition setFollowUp (m : Manager) (pending : bool)
    (ctx : option FollowUpContext) : Manager :=
  {| currentLevel := currentLevel m;
     windowSize := windowSize m;
     scoreHistory := scoreHistory m;
     levelHistory := levelHistory m;
     questionIndex := questionIndex m;
     followUpPending := pending;
     followUpContext := ctx;
     adaptationLog := adaptationLog m |}.

(** [shouldFollowUp(score, question, answer)]. *)
Definition shouldFollowUp (m : Manager) (score : Z) (question answer : string)
    : Manager * FollowUp :=
  let ctx :=
    Some {| fu_question := question; fu_answer := answer; fu_score := score |} in
  if (3 <=? score) && (score <=? 6) && negb (followUpPending m) then
    (setFollowUp m true ctx,
     {| shouldFollowUp_ := true;
        reason := Some (if score <=? 4 then incomplete_answer else can_elaborate);
        prompt := Some (_generateFollowUpPrompt score question answer) |})
  else if (8 <=? score) && (Z.rem (questionIndex m) 3 =? 0)
          && negb (followUpPending m) then
    (setFollowUp m true ctx,
     {| shouldFollowUp_ := true;
        reason := Some probe_deeper;
        prompt :=
          Some ("The candidate gave an excellent answer. Ask a deeper follow-up question to probe their understanding further. Reference their previous answer: "
                ++ dq ++ quoted answer ++ dq)%string |})
  else
    (setFollowUp m false None,
     {| shouldFollowUp_ := false; reason := None; prompt := None |}).

Record QuestionConfig := {
  difficulty : Z;
  difficultyName : string;
  questionType : option string;
  isFollowUp : bool;
  q_prompt : string
}.

(** [QUESTION_TYPES[i]]; [None] is [undefined]. *)
Definition questionTypeAt (i : Z) : option string :=
  if i <? 0 then None else nth_error QUESTION_TYPES (Z.to_nat i).

(** [getNextQuestionConfig()].  [None] when the call throws (no
    configuration for the current level). *)
Definition getNextQuestionConfig (m : Manager)
    : Manager * option QuestionConfig :=
  let level := levelConfig (currentLevel m) in
  let typeIndex := Z.rem (questionIndex m) (len QUESTION_TYPES) in
  let questionType := questionTypeAt typeIndex in
  let typePrompt :=
    match questionType with
    | Some t =>
        match lookup t QUESTION_TYPE_PROMPTS with
        | Some p => p
        | None => "undefined"
        end
    | None => "undefined"
    end in
  match followUpPending m, followUpContext m with
  | true, Some ctx =>
      match level with
      | None => (m, None)
      | Some lv =>
          (setFollowUp m false (followUpContext m),
           Some {| difficulty := currentLevel m;
                   difficultyName := name lv;
                   questionType := Some "follow_up";
                   isFollowUp := true;
                   q_prompt :=
                     ("Ask a follow-up question about: "
                      ++ dq ++ fu_question ctx ++ dq)%string |})
      end
  | _, _ =>
      let m' :=
        {| currentLevel := currentLevel m;
           windowSize := windowSize m;
           scoreHistory := scoreHistory m;
           levelHistory := levelHistory m;
           questionIndex := questionIndex m + 1;
           followUpPending := followUpPending m;
           followUpContext := followUpContext m;
           adaptationLog := adaptationLog m |} in
      match level with
      | None => (m', None)
      | Some lv =>
          (m',
           Some {| difficulty := currentLevel m;
                   difficultyName := name lv;
                   questionType := questionType;
                   isFollowUp := false;
                   q_prompt := (promptModifier lv ++ " " ++ typePrompt)%string |})
      end
  end.

(** What [serialize()] returns: the eight fields of the manager. *)
Record Serialized := {
  s_currentLevel : Z;
  s_windowSize : Z;
  s_scoreHistory : list Z;
  s_levelHistory : list Z;
  s_questionIndex : Z;
  s_followUpPending : bool;
  s_followUpContext : option FollowUpContext;
  s_adaptationLog : list Entry
}.

Definition serialize (m : Manager) : Serialized :=
  {| s_currentLevel := currentLevel m;
     s_windowSize := windowSize m;
     s_scoreHistory := scoreHistory m;
     s_levelHistory := levelHistory m;
     s_questionIndex := questionIndex m;
     s_followUpPending := followUpPending m;
     s_followUpContext := followUpContext m;
     s_adaptationLog := adaptationLog m |}.

(** [fromSerialized(data)]: a fresh manager built from [data.currentLevel]
    and [data.windowSize], whose other fields are then overwritten. *)
Definition fromSerialized (data : Serialized) : Manager :=
  let manager :=
    create (Some (s_currentLevel data)) (Some (s_windowSize data)) in
  {| currentLevel := currentLevel manager;
     windowSize := windowSize manager;
     scoreHistory := s_scoreHistory data;
     levelHistory := s_levelHistory data;
     questionIndex := orDefault (Some (s_questionIndex data)) 0;
     followUpPending := s_followUpPending data || false;
     followUpContext := s_followUpContext data;
     adaptationLog := s_adaptationLog data |}.

(** The operations a session performs on its manager. *)
Inductive Op :=
  | OpRecordScore (score : Z)
  | OpShouldFollowUp (score : Z) (question answer : string)
  | OpGetNextQuestionConfig.

Definition step (m : Manager) (o : Op) : Manager :=
  match o with
  | OpRecordScore score => fst (recordScore m score)
  | OpShouldFollowUp score question answer =>
      fst (shouldFollowUp m score question answer)
  | OpGetNextQuestionConfig => fst (getNextQuestionConfig m)
  end.

Definition run (m : Manager) (ops : list Op) : Manager := fold_left step ops m.

End Adaptive.

(* ------------------------------------------------------------------ *)
(** ** Anti-cheat monitor (module [anti-cheat]) *)

Module AntiCheat.

Definition MIN_RESPONSE_TIME_SEC : float := 3.
Definition MAX_NATURAL_WPM : float := 200.
Definition COMPLEXITY_SPIKE_THRESHOLD : float := 2.5.
Definition MIN_ANSWERS_FOR_ANALYSIS : Z := 3.
Definition LOW_SUSPICION : Z := 20.
Definition MEDIUM_SUSPICION : Z := 40.
Definition HIGH_SUSPICION : Z := 60.

Inductive FlagType :=
  | fast_response
  | high_wpm
  | length_spike
  | complexity_spike
  | score_timing_mismatch
  | repetitive_pattern.

Inductive Severity := low | medium | high.

(** A raised flag (without its [detail] text). *)
Record Flag := {
  type : FlagType;
  severity : Severity;
  points : Z
}.

Record Monitor := {
  responseTimings : list float;
  responseLengths : list Z;
  vocabularyComplexities : list float;
  flags : list Flag;
  lastQuestionTime : option Z;
  overallSuspicionScore : Z
}.

(** [new AntiCheatMonitor()]. *)
Definition create : Monitor :=
  {| responseTimings := [];
     responseLengths := [];
     vocabularyComplexities := [];
     flags := [];
     lastQuestionTime := None;
     overallSuspicionScore := 0 |}.

(** [questionAsked()], the clock reading [now]. *)
Definition questionAsked (m : Monitor) (now : Z) : Monitor :=
  {| responseTimings := responseTimings m;
     responseLengths := responseLengths m;
     vocabularyComplexities := vocabularyComplexities m;
     flags := flags m;
     lastQuestionTime := Some now;
     overallSuspicionScore := overallSuspicionScore m |}.

(** A number in a condition: 0 and NaN count as false. *)
Definition truthy (x : float) : bool :=
  match Prim2SF x with
  | S754_zero _ | S754_nan => false
  | _ => true
  end.

(** The seconds since the question was asked; [None] is [null].  A stamp
    of 0 and an elapsed time of 0 ms are falsy, so both give [null]. *)
Definition responseTime (lastQuestionTime : option Z) (now : Z)
    : option float :=
  let responseTimeMs :=
    match lastQuestionTime with
    | Some t => if t =? 0 then None else Some (now - t)
    | None => None
    end in
  match responseTimeMs with
  | Some ms => if ms =? 0 then None else Some (Z2F ms / 1000)%float
  | None => None
  end.

Fixpoint trigrams (words : list string) : list string :=
  match words with
  | a :: r =>
      match r with
      | b :: c :: _ => (a ++ " " ++ b ++ " " ++ c)%string :: trigrams r
      | _ => []
      end
  | [] => []
  end.

(** [counts[tri] = (counts[tri] || 0) + 1]. *)
Fixpoint bump (tri : string) (counts : list (string * Z))
    : list (string * Z) :=
  match counts with
  | [] => [(tri, 1)]
  | (k, n) :: r =>
      if String.eqb tri k then (k, n + 1) :: r else (k, n) :: bump tri r
  end.

Definition detectRepetitivePatterns (text : string) : list string :=
  let words := split isSpace (toLowerCase text) in
  let counts := fold_left (fun acc tri => bump tri acc) (trigrams words) [] in
  map fst (filter (fun kc => 1 <? snd kc) counts).

(** Check 1: suspiciously fast response. *)
Definition check1 (responseTimeSec : option float) (wordCount : Z) : list Flag :=
  match responseTimeSec with
  | Some t =>
      if (t <? MIN_RESPONSE_TIME_SEC)%float && (20 <? wordCount)
      then [{| type := fast_response; severity := medium; points := 15 |}]
      else []
  | None => []
  end.

(** Check 2: words per minute too high. *)
Definition check2 (responseTimeSec : option float) (wordCount : Z) : list Flag :=
  match responseTimeSec with
  | Some t =>
      if truthy t && (0 <? t)%float then
        let wpm := (Z2F wordCount / t * 60)%float in
        if (MAX_NATURAL_WPM <? wpm)%float && (15 <? wordCount)
        then [{| type := high_wpm; severity := high; points := 25 |}]
        else []
      else []
  | None => []
  end.

(** Check 3: sudden length spike; [lengths] already holds this answer. *)
Definition check3 (lengths : list Z) (wordCount : Z) : list Flag :=
  if MIN_ANSWERS_FOR_ANALYSIS <=? len lengths then
    let previousLengths := slice_init lengths in
    let avgPrevLength :=
      (Z2F (sumZ previousLengths) / Z2F (len previousLengths))%float in
    if (0 <? avgPrevLength)%float
       && (avgPrevLength * 3 <? Z2F wordCount)%float
       && (50 <? wordCount)
    then [{| type := length_spike; severity := medium; points := 15 |}]
    else []
  else [].

(** Check 4: vocabulary complexity spike; [complexities] already holds
    this answer's ratio. *)
Definition check4 (complexities : list float) (complexityRatio : float)
    : list Flag :=
  if MIN_ANSWERS_FOR_ANALYSIS <=? len complexities then
    let previousComplexities := slice_init complexities in
    let avgComplexity :=
      (sumF previousComplexities / Z2F (len previousComplexities))%float in
    if (0 <? avgComplexity)%float
       && (avgComplexity * COMPLEXITY_SPIKE_THRESHOLD <? complexityRatio)%float
    then [{| type := complexity_spike; severity := low; points := 10 |}]
    else []
  else [].

(** Check 5: a very fast answer with a very high score. *)
Definition check5 (responseTimeSec : option float) (score wordCount : Z)
    : list Flag :=
  match responseTimeSec with
  | Some t =>
      if (t <? 5)%float && (9 <=? score) && (30 <? wordCount)
      then [{| type := score_timing_mismatch; severity := high; points := 20 |}]
      else []
  | None => []
  end.

(** Check 6: repeated three-word phrases. *)
Definition check6 (answer : string) : list Flag :=
  if 2 <? len (detectRepetitivePatterns answer)
  then [{| type := repetitive_pattern; severity := low; points := 5 |}]
  else [].

Inductive SuspicionLevel := lvl_clean | lvl_low | lvl_medium | lvl_high.

Definition suspicionLevelOf (score : Z) : SuspicionLevel :=
  if HIGH_SUSPICION <=? score then lvl_high
  else if MEDIUM_SUSPICION <=? score then lvl_medium
  else if LOW_SUSPICION <=? score then lvl_low
  else lvl_clean.

Definition _getSuspicionLevel (m : Monitor) : SuspicionLevel :=
  suspicionLevelOf (overallSuspicionScore m).

Definition _getVerdict (m : Monitor) : string :=
  match _getSuspicionLevel m with
  | lvl_high => "Multiple suspicious patterns detected. Manual review recommended."
  | lvl_medium => "Some irregular patterns noted. Results may need verification."
  | lvl_low => "Minor irregularities detected. Generally reliable results."
  | lvl_clean => "No suspicious patterns detected. Results are reliable."
  end.

Record Metrics := {
  m_responseTimeSec : option float;
  m_wordCount : Z;
  m_avgWordLength : float;
  m_complexityRatio : float
}.

Record Analysis := {
  a_flags : list Flag;
  answerSuspicionPoints : Z;
  a_overallSuspicionScore : Z;
  suspicionLevel : SuspicionLevel;
  metrics : Metrics
}.

Definition strLen (s : string) : Z := Z.of_nat (String.length s).

(** The points of the flags of one answer:
    [answerFlags.reduce((sum, f) => sum + f.points, 0)]. *)
Definition pointsOf (answerFlags : list Flag) : Z :=
  fold_left (fun sum f => sum + points f) answerFlags 0.

(** The decaying average of the suspicion score. *)
Definition decay (previous answerPoints : Z) : Z :=
  Z.min 100 (Math_round_Z (Z2F previous * 0.7 + Z2F answerPoints * 0.3)).

(** [analyzeAnswer(answer, score)], the clock reading [now]. *)
Definition analyzeAnswer (m : Monitor) (now : Z) (answer : string) (score : Z)
    : Monitor * Analysis :=
  let responseTimeSec := responseTime (lastQuestionTime m) now in
  let words := filter nonEmpty (split isSpace (trim answer)) in
  let wordCount := len words in
  let avgWordLength :=
    if 0 <? len words
    then (Z2F (sumZ (map strLen words)) / Z2F (len words))%float
    else 0%float in
  let longWords := len (filter (fun w => 6 <? strLen w) words) in
  let complexityRatio :=
    if 0 <? wordCount then (Z2F longWords / Z2F wordCount)%float
    else 0%float in
  let lengths := responseLengths m ++ [wordCount] in
  let complexities := vocabularyComplexities m ++ [complexityRatio] in
  let timings :=
    match responseTimeSec with
    | Some t => responseTimings m ++ [t]
    | None => responseTimings m
    end in
  let answerFlags :=
    check1 responseTimeSec wordCount
    ++ check2 responseTimeSec wordCount
    ++ check3 lengths wordCount
    ++ check4 complexities complexityRatio
    ++ check5 responseTimeSec score wordCount
    ++ check6 answer in
  let answerPoints := pointsOf answerFlags in
  let suspicion := decay (overallSuspicionScore m) answerPoints in
  let m' :=
    {| responseTimings := timings;
       responseLengths := lengths;
       vocabularyComplexities := complexities;
       flags := flags m ++ answerFlags;
       lastQuestionTime := lastQuestionTime m;
       overallSuspicionScore := suspicion |} in
  (m',
   {| a_flags := answerFlags;
      answerSuspicionPoints := answerPoints;
      a_overallSuspicionScore := suspicion;
      suspicionLevel := _getSuspicionLevel m';
      metrics :=
        {| m_responseTimeSec :=
             match responseTimeSec with
             | Some t => if truthy t then Some (round1 t) else None
             | None => None
             end;
           m_wordCount := wordCount;
           m_avgWordLength := round1 avgWordLength;
           m_complexityRatio :=
             (Math_round (complexityRatio * 100) / 100)%float |} |}).

(** What [serialize()] returns.  The time stamp of the last question is
    not part of it, and the module has no operation that reads it back. *)
Record Serialized := {
  s_responseTimings : list float;
  s_responseLengths : list Z;
  s_vocabularyComplexities : list float;
  s_flags : list Flag;
  s_overallSuspicionScore : Z
}.

Definition serialize (m : Monitor) : Serialized :=
  {| s_responseTimings := responseTimings m;
     s_responseLengths := responseLengths m;
     s_vocabularyComplexities := vocabularyComplexities m;
     s_flags := flags m;
     s_overallSuspicionScore := overallSuspicionScore m |}.

End AntiCheat.

(* ------------------------------------------------------------------ *)
(** ** Skill-gap detector (module [skill-gap]) *)

Module SkillGap.

Definition Baseline := list (string * Z).

Definition ROLE_BASELINES : list (string * Baseline) :=
  [ ("junior",
     [("technical", 5); ("behavioral", 5); ("problem_solving", 4);
      ("system_design", 3); ("communication", 5)]);
    ("mid",
     [("technical", 7); ("behavioral", 6); ("problem_solving", 6);
      ("system_design", 5); ("communication", 6)]);
    ("senior",
     [("technical", 8); ("behavioral", 7); ("problem_solving", 8);
      ("system_design", 7); ("communication", 7)]) ].

Definition midBaseline : Baseline :=
  [("technical", 7); ("behavioral", 6); ("problem_solving", 6);
   ("system_design", 5); ("communication", 6)].

Definition TOPIC_PATTERNS : list (string * list string) :=
  [ ("JavaScript/TypeScript",
     ["javascript"; "typescript"; "js"; "ts"; "node"; "es6"; "ecmascript";
      "v8"; "npm"]);
    ("React/Frontend",
     ["react"; "component"; "hook"; "frontend"; "css"; "html"; "dom"; "ui";
      "ux"; "next.js"; "vue"; "angular"]);
    ("Backend/API",
     ["backend"; "api"; "rest"; "graphql"; "server"; "express"; "endpoint";
      "middleware"; "authentication"]);
    ("Database",
     ["database"; "sql"; "nosql"; "query"; "schema"; "migration"; "orm";
      "mongo"; "postgres"; "redis"]);
    ("System Design",
     ["system design"; "architecture"; "scalab"; "microservice";
      "distributed"; "load balanc"; "caching"]);
    ("Data Structures",
     ["array"; "linked list"; "tree"; "graph"; "hash"; "stack"; "queue";
      "heap"; "data structure"]);
    ("Algorithms",
     ["algorithm"; "sorting"; "searching"; "recursion";
      "dynamic programming"; "complexity"; "big o"; "time complexity"]);
    ("DevOps/CI-CD",
     ["docker"; "kubernetes"; "ci/cd"; "pipeline"; "deployment"; "aws";
      "cloud"; "devops"; "terraform"]);
    ("Testing",
     ["testing"; "unit test"; "integration test"; "e2e"; "jest"; "cypress";
      "tdd"; "coverage"; "mock"]);
    ("Security",
     ["security"; "xss"; "csrf"; "authentication"; "authorization";
      "encryption"; "vulnerability"; "owasp"]);
    ("Leadership",
     ["leadership"; "mentor"; "team lead"; "manage"; "delegate"; "vision";
      "strategy"]);
    ("Problem Solving",
     ["problem solving"; "approach"; "debug"; "troubleshoot"; "root cause";
      "analyze"; "optimize"]);
    ("Communication",
     ["communicate"; "present"; "explain"; "stakeholder"; "collaborate";
      "feedback"; "documentation"]) ].

Definition Scores := list (string * list Z).

Record Detector := {
  roleLevel : string;
  baseline : Baseline;
  topicScores : Scores;
  questionTypeScores : Scores;
  questionsAnalyzed : Z
}.

(** [ROLE_BASELINES[roleLevel] || ROLE_BASELINES.mid]. *)
Definition baselineOf (roleLevel : string) : Baseline :=
  match lookup roleLevel ROLE_BASELINES with
  | Some b => b
  | None => midBaseline
  end.

(** [new SkillGapDetector(roleLevel)]. *)
Definition create (roleLevel : string) : Detector :=
  {| roleLevel := roleLevel;
     baseline := baselineOf roleLevel;
     topicScores := [];
     questionTypeScores := [];
     questionsAnalyzed := 0 |}.

Definition _detectTopics (question : string) : list string :=
  let lower := toLowerCase question in
  let detected :=
    map fst
      (filter (fun tp => existsb (fun p => includes p lower) (snd tp))
         TOPIC_PATTERNS) in
  match detected with
  | [] => ["General"]
  | _ => detected
  end.

(** [if (!scores[key]) scores[key] = []; scores[key].push(score)]. *)
Fixpoint pushScore (key : string) (score : Z) (scores : Scores) : Scores :=
  match scores with
  | [] => [(key, [score])]
  | (k, l) :: r =>
      if String.eqb key k then (k, l ++ [score]) :: r
      else (k, l) :: pushScore key score r
  end.

Definition averageOf (scores : list Z) : float :=
  round1 (Z2F (sumZ scores) / Z2F (len scores)).

Definition averages (scores : Scores) : list (string * float) :=
  map (fun ks => (fst ks, averageOf (snd ks))) scores.

Definition _getTopicAverages (d : Detector) := averages (topicScores d).
Definition _getTypeAverages (d : Detector) := averages (questionTypeScores d).

Record TrackResult := {
  detectedTopics : list string;
  t_questionType : string;
  t_score : Z;
  topicAverages : list (string * float)
}.

(** [trackAnswer(question, answer, score, questionType)]. *)
Definition trackAnswer (d : Detector) (question answer : string) (score : Z)
    (questionType : string) : Detector * TrackResult :=
  let detected := _detectTopics question in
  let d' :=
    {| roleLevel := roleLevel d;
       baseline := baseline d;
       topicScores :=
         fold_left (fun acc topic => pushScore topic score acc) detected
           (topicScores d);
       questionTypeScores :=
         pushScore questionType score (questionTypeScores d);
       questionsAnalyzed := questionsAnalyzed d + 1 |} in
  (d',
   {| detectedTopics := detected;
      t_questionType := questionType;
      t_score := score;
      topicAverages := _getTopicAverages d' |}).

Definition topicToCategory : list (string * string) :=
  [ ("JavaScript/TypeScript", "technical");
    ("React/Frontend", "technical");
    ("Backend/API", "technical");
    ("Database", "technical");
    ("System Design", "system_design");
    ("Data Structures", "technical");
    ("Algorithms", "problem_solving");
    ("DevOps/CI-CD", "technical");
    ("Testing", "technical");
    ("Security", "technical");
    ("Leadership", "behavioral");
    ("Problem Solving", "problem_solving");
    ("Communication", "communication");
    ("General", "technical") ].

(** [baseline[category] || 5]. *)
Definition expectation (b : Baseline) (category : string) : Z :=
  match lookup category b with
  | Some v => if v =? 0 then 5 else v
  | None => 5
  end.

Definition _getBaselineForTopic (d : Detector) (topic : string) : Z :=
  let category :=
    match lookup topic topicToCategory with
    | Some c => c
    | None => "technical"
    end in
  expectation (baseline d) category.

Definition recommendations : list (string * string) :=
  [ ("JavaScript/TypeScript",
     "Review core JS concepts: closures, prototypes, async/await, event loop. Practice on platforms like LeetCode.");
    ("React/Frontend",
     "Build small React projects focusing on hooks, state management, and component lifecycle.");
    ("Backend/API",
     "Practice building REST APIs with authentication, error handling, and database integration.");
    ("Database",
     "Study SQL joins, indexing strategies, and database normalization. Practice query writing.");
    ("System Design",
     "Study Grokking the System Design Interview. Practice designing real systems like URL shorteners.");
    ("Data Structures",
     "Review arrays, trees, graphs, hash tables. Implement each from scratch.");
    ("Algorithms",
     "Practice sorting, searching, and dynamic programming. Aim for 2-3 LeetCode problems daily.");
    ("DevOps/CI-CD",
     "Set up a simple CI/CD pipeline with GitHub Actions. Learn Docker basics.");
    ("Testing",
     "Write unit tests for existing code. Learn Jest/Mocha and testing patterns.");
    ("Security",
     "Study OWASP Top 10. Learn about XSS, CSRF, SQL injection prevention.");
    ("Leadership",
     "Practice STAR method stories about leadership experiences. Read about engineering management.");
    ("Problem Solving",
     "Practice breaking down complex problems. Use whiteboard/verbal problem solving.");
    ("Communication",
     "Record yourself explaining technical concepts. Practice concise, structured answers.") ].

Definition _getTopicRecommendation (topic : string) : string :=
  match lookup topic recommendations with
  | Some r => r
  | None =>
      ("Focus on improving " ++ topic
       ++ " skills through dedicated practice and study.")%string
  end.

Inductive GapSeverity := critical | significant | minor.

Record Gap := {
  g_topic : string;
  g_currentScore : float;
  g_expectedScore : Z;
  deficit : float;
  g_severity : GapSeverity;
  recommendation : string;
  questionsAsked : Z
}.

Record Strength := {
  st_topic : string;
  st_currentScore : float;
  st_expectedScore : Z;
  surplus : float
}.

Inductive Status := meets_expectation | below_expectation.

Record TypeAnalysis := {
  ta_score : float;
  expected : Z;
  ta_gap : float;
  status : Status
}.

Record LearningStep := {
  priority : Z;
  l_topic : string;
  l_currentLevel : float;
  targetLevel : Z;
  action : string;
  estimatedHours : Z
}.

(** [arr.sort((a, b) => key(b) - key(a))]: a stable sort, larger keys
    first.  [x] stood before the elements of [l]; it passes those [y] for
    which the comparator [key(y) - key(x)] is positive. *)
Fixpoint insertDesc {A} (key : A -> float) (x : A) (l : list A) : list A :=
  match l with
  | [] => [x]
  | y :: r =>
      if (0 <? key y - key x)%float then y :: insertDesc key x r
      else x :: l
  end.

Definition sortDesc {A} (key : A -> float) (l : list A) : list A :=
  fold_right (fun x acc => insertDesc key x acc) [] l.

(** [_calculateOverallGapScore(gaps)]. *)
Definition _calculateOverallGapScore (gaps : list Gap) : Z :=
  if len gaps =? 0 then 0
  else
    let totalDeficit := sumF (map deficit gaps) in
    let maxPossibleDeficit := len gaps * 10 in
    Z.min 100 (Math_round_Z (totalDeficit / Z2F maxPossibleDeficit * 100)).

Fixpoint numberFrom {A} (i : Z) (l : list A) : list (Z * A) :=
  match l with
  | [] => []
  | x :: r => (i, x) :: numberFrom (i + 1) r
  end.

Definition isMinor (s : GapSeverity) : bool :=
  match s with minor => true | _ => false end.

Definition _generateLearningPath (gaps : list Gap) : list LearningStep :=
  map (fun ig =>
         let gap := snd ig in
         {| priority := fst ig + 1;
            l_topic := g_topic gap;
            l_currentLevel := g_currentScore gap;
            targetLevel := g_expectedScore gap;
            action := recommendation gap;
            estimatedHours :=
              match g_severity gap with critical => 20 | _ => 10 end |})
    (numberFrom 0 (firstn 5 (filter (fun g => negb (isMinor (g_severity g))) gaps))).

Record Report := {
  r_roleLevel : string;
  r_questionsAnalyzed : Z;
  r_topicScores : list (string * float);
  gaps : list Gap;
  strengths : list Strength;
  typeAnalysis : list (string * TypeAnalysis);
  overallGapScore : Z;
  prioritizedLearningPath : list LearningStep
}.

Definition gapOf (d : Detector) (ta : string * float) : list Gap :=
  let (topic, avgScore) := ta in
  let baselineScore := _getBaselineForTopic d topic in
  let deficit := (Z2F baselineScore - avgScore)%float in
  if (0 <? deficit)%float then
    [{| g_topic := topic;
        g_currentScore := avgScore;
        g_expectedScore := baselineScore;
        deficit := round1 deficit;
        g_severity :=
          if geb deficit 3 then critical
          else if geb deficit 1.5 then significant
          else minor;
        recommendation := _getTopicRecommendation topic;
        questionsAsked :=
          match lookup topic (topicScores d) with
          | Some l => len l
          | None => 0
          end |}]
  else [].

Definition strengthOf (d : Detector) (ta : string * float) : list Strength :=
  let (topic, avgScore) := ta in
  let baselineScore := _getBaselineForTopic d topic in
  let surplus := (avgScore - Z2F baselineScore)%float in
  if geb surplus 1 then
    [{| st_topic := topic;
        st_currentScore := avgScore;
        st_expectedScore := baselineScore;
        surplus := round1 surplus |}]
  else [].

Definition typeAnalysisOf (d : Detector) (ta : string * float)
    : string * TypeAnalysis :=
  let (type, avgScore) := ta in
  let expected := expectation (baseline d) type in
  (type,
   {| ta_score := avgScore;
      expected := expected;
      ta_gap := round1 (Z2F expected - avgScore);
      status :=
        if geb avgScore (Z2F expected) then meets_expectation
        else below_expectation |}).

(** [getAnalysis()]. *)
Definition getAnalysis (d : Detector) : Report :=
  let topicAverages := _getTopicAverages d in
  let typeAverages := _getTypeAverages d in
  let gaps := sortDesc deficit (flat_map (gapOf d) topicAverages) in
  let strengths := sortDesc surplus (flat_map (strengthOf d) topicAverages) in
  {| r_roleLevel := roleLevel d;
     r_questionsAnalyzed := questionsAnalyzed d;
     r_topicScores := topicAverages;
     gaps := gaps;
     strengths := strengths;
     typeAnalysis := map (typeAnalysisOf d) typeAverages;
     overallGapScore := _calculateOverallGapScore gaps;
     prioritizedLearningPath := _generateLearningPath gaps |}.

Record Serialized := {
  s_roleLevel : string;
  s_topicScores : Scores;
  s_questionTypeScores : Scores;
  s_questionsAnalyzed : Z
}.

Definition serialize (d : Detector) : Serialized :=
  {| s_roleLevel := roleLevel d;
     s_topicScores := topicScores d;
     s_questionTypeScores := questionTypeScores d;
     s_questionsAnalyzed := questionsAnalyzed d |}.

(** [fromSerialized(data)]: a fresh detector for [data.roleLevel] whose
    score tables and counter are then overwritten. *)
Definition fromSerialized (data : Serialized) : Detector :=
  let detector := create (s_roleLevel data) in
  {| roleLevel := roleLevel detector;
     baseline := baseline detector;
     topicScores := s_topicScores data;
     questionTypeScores := s_questionTypeScores data;
     questionsAnalyzed := s_questionsAnalyzed data |}.

End SkillGap.

(* ------------------------------------------------------------------ *)
(** ** Feedback engine (module [feedback]): tiers and trajectory *)

Module Feedback.

(** A performance tier (without its emoji). *)
Record Tier := {
  key : string;
  min : float;
  label : string;
  t_description : string
}.

Definition beginner : Tier :=
  {| key := "beginner"; min := 0; label := "Beginner";
     t_description := "Fundamental skills need development." |}.

Definition PERFORMANCE_TIERS : list Tier :=
  [ {| key := "exceptional"; min := 9; label := "Exceptional";
       t_description := "Outstanding performance. Interview-ready." |};
    {| key := "strong"; min := 7.5; label := "Strong";
       t_description := "Solid performance with minor gaps." |};
    {| key := "competent"; min := 6; label := "Competent";
       t_description := "Adequate but needs improvement in key areas." |};
    {| key := "developing"; min := 4; label := "Developing";
       t_description := "Significant gaps. Needs focused practice." |};
    beginner ].

Definition getPerformanceTier (score : float) : Tier :=
  match find (fun tier => geb score (min tier)) PERFORMANCE_TIERS with
  | Some tier => tier
  | None => beginner
  end.

Inductive Trajectory := ascending | descending | stable.

Definition getTrajectory (levelHistory : list Z) : Trajectory :=
  if len levelHistory <? 2 then stable
  else
    let first := nth 0 levelHistory 0 in
    let last := List.last levelHistory 0 in
    if first <? last then ascending
    else if last <? first then descending
    else stable.

Record Progression := {
  startLevel : Z;
  endLevel : Z;
  peaked : float;
  trajectory : Trajectory
}.

(** The [difficultyProgression] part of the report, from the adaptive
    state: [levelHistory?.[0] || 1], the current level,
    [Math.max(...levelHistory)] and the trajectory label. *)
Definition difficultyProgression (m : Adaptive.Manager) : Progression :=
  let history := Adaptive.levelHistory m in
  {| startLevel := Adaptive.orDefault (nth_error history 0) 1;
     endLevel := Adaptive.currentLevel m;
     peaked := fold_left Math_max (map Z2F history) neg_infinity;
     trajectory := getTrajectory history |}.

End Feedback.

(* ------------------------------------------------------------------ *)
(** ** Sessions, the specification's formulas, finite ranges *)

Module Session.

(** One scored answer as the server hands it to the skill-gap detector. *)
Record Answer := {
  question : string;
  answer : string;
  score : Z;
  questionType : string
}.

Definition track (d : SkillGap.Detector) (a : Answer) : SkillGap.Detector :=
  fst (SkillGap.trackAnswer d (question a) (answer a) (score a)
         (questionType a)).

Definition trackAll (d : SkillGap.Detector) (l : list Answer)
    : SkillGap.Detector :=
  fold_left track l d.

(** The entries [recordScore] returns for a sequence of scores. *)
Fixpoint recordAll (m : Adaptive.Manager) (scores : list Z)
    : list (option Adaptive.Entry) :=
  match scores with
  | [] => []
  | s :: r =>
      snd (Adaptive.recordScore m s)
      :: recordAll (fst (Adaptive.recordScore m s)) r
  end.

(** What a session does with its monitor: stamp a question, analyze an
    answer. *)
Inductive MonitorOp :=
  | Asked (now : Z)
  | Answered (now : Z) (answer : string) (score : Z).

Definition monitorStep (m : AntiCheat.Monitor) (o : MonitorOp)
    : AntiCheat.Monitor :=
  match o with
  | Asked now => AntiCheat.questionAsked m now
  | Answered now answer score =>
      fst (AntiCheat.analyzeAnswer m now answer score)
  end.

Definition monitorRun (m : AntiCheat.Monitor) (ops : list MonitorOp)
    : AntiCheat.Monitor :=
  fold_left monitorStep ops m.

End Session.

Module Spec.

(** The specification's wording of the clamp to [0,10] and to [0,100]. *)
Definition clamp (lo hi x : Z) : Z := Z.max lo (Z.min hi x).

(** The composite score as the specification states it: every dimension
    clamped to [0,10] before weighting, the rounded sum clamped again. *)
Definition composite (aiJudgment keywordCoverage completeness confidence : Z)
    : Z :=
  clamp 0 10
    (Math_round_Z
       (0.35 * Z2F (clamp 0 10 aiJudgment)
        + 0.20 * Z2F (clamp 0 10 keywordCoverage)
        + 0.25 * Z2F (clamp 0 10 completeness)
        + 0.20 * Z2F (clamp 0 10 confidence))).

(** The suspicion update as the specification states it. *)
Definition suspicion (prevScore currentAnswerPoints : Z) : Z :=
  clamp 0 100
    (Math_round_Z (Z2F prevScore * 0.7 + Z2F currentAnswerPoints * 0.3)).

(** The transition of the difficulty level as the specification states
    it, level by level: Easy moves up at an average of 7, Medium up at 8
    and down at 4, Hard down at 5, and nothing moves before two scores
    are recorded. *)
Definition nextLevel (level : Z) (enough : bool) (avg : float) : Z :=
  if enough then
    if level =? 1 then (if geb avg 7 then 2 else 1)
    else if level =? 2 then
      (if geb avg 8 then 3 else if (avg <=? 4)%float then 1 else 2)
    else (if (avg <=? 5)%float then 2 else 3)
  else level.

(** Every deficit equals 10 ([===] on numbers). *)
Definition allTen (gaps : list SkillGap.Gap) : bool :=
  forallb (fun g => (SkillGap.deficit g =? 10)%float) gaps.

(** The histories of a manager started at [startLevel] are well formed. *)
Definition wellFormed (startLevel : Z) (m : Adaptive.Manager) : Prop :=
  In (Adaptive.currentLevel m) [1; 2; 3]
  /\ len (Adaptive.levelHistory m) = len (Adaptive.scoreHistory m) + 1
  /\ hd_error (Adaptive.levelHistory m) = Some startLevel
  /\ List.last (Adaptive.levelHistory m) 0 = Adaptive.currentLevel m.

End Spec.

Module Range.

Fixpoint Zseq (lo : Z) (n : nat) : list Z :=
  match n with
  | O => []
  | S k => lo :: Zseq (lo + 1) k
  end.

(** The integers from [lo] to [hi]. *)
Definition Zrange (lo hi : Z) : list Z := Zseq lo (Z.to_nat (hi - lo + 1)).

Definition all1 (P : Z -> bool) (r1 : list Z) : bool := forallb P r1.

Definition all2 (P : Z -> Z -> bool) (r1 r2 : list Z) : bool :=
  forallb (fun x => forallb (P x) r2) r1.

Definition all4 (P : Z -> Z -> Z -> Z -> bool) (r1 r2 r3 r4 : list Z) : bool :=
  forallb (fun a => forallb (fun b => all2 (P a b) r3 r4) r2) r1.

Definition between (lo hi x : Z) : bool := (lo <=? x) && (x <=? hi).

End Range.

(** Boolean checks that are evaluated over finite ranges. *)
Module Checks.

Import Range.

Definition averageAgrees (sum n : Z) : bool :=
  let avg := (Z2F sum / Z2F n)%float in
  Bool.eqb (geb avg 7) (7 * n <=? sum)
  && Bool.eqb (geb avg 8) (8 * n <=? sum)
  && Bool.eqb (avg <=? 4)%float (sum <=? 4 * n)
  && Bool.eqb (avg <=? 5)%float (sum <=? 5 * n).

Definition decayChecked (previous q : Z) : bool :=
  between 0 100 (AntiCheat.decay previous (5 * q))
  && (AntiCheat.decay previous (5 * q) =? Spec.suspicion previous (5 * q)).

Definition tensScore (n : Z) : bool :=
  Z.min 100
    (Math_round_Z
       (sumF (repeat 10%float (Z.to_nat n)) / Z2F (n * 10) * 100))
  =? 100.

(** The flags of the three checks that read no response time. *)
Definition nonTiming (f : AntiCheat.Flag) : bool :=
  match AntiCheat.type f with
  | AntiCheat.length_spike
  | AntiCheat.complexity_spike
  | AntiCheat.repetitive_pattern => true
  | _ => false
  end.

End Checks.

(** Sample data for worked examples. *)
Module Samples.

(** A gap record with a given topic and deficit. *)
Definition gapWith (topic : string) (d : float) : SkillGap.Gap :=
  {| SkillGap.g_topic := topic;
     SkillGap.g_currentScore := (10 - d)%float;
     SkillGap.g_expectedScore := 10;
     SkillGap.deficit := d;
     SkillGap.g_severity := SkillGap.critical;
     SkillGap.recommendation := SkillGap._getTopicRecommendation topic;
     SkillGap.questionsAsked := 1 |}.

(** Three gaps with the deficits 10, 10 and 9.9. *)
Definition nearlyTen : list SkillGap.Gap :=
  [gapWith "Database" 10; gapWith "Testing" 10; gapWith "Security" 9.9].

(** An answer of 25 words. *)
Definition hurried : string :=
  "one two three four five six seven eight nine ten eleven twelve thirteen fourteen fifteen sixteen seventeen eighteen nineteen twenty twentyone twentytwo twentythree twentyfour twentyfive".

(** An answer of 60 different words. *)
Definition lengthy : string :=
  "alpha beta gamma delta epsilon zeta eta theta iota kappa lambda mu nu xi omicron pi rho sigma tau upsilon phi chi psi omega alpha1 beta1 gamma1 delta1 epsilon1 zeta1 eta1 theta1 iota1 kappa1 lambda1 mu1 nu1 xi1 omicron1 pi1 rho1 sigma1 tau1 upsilon1 phi1 chi1 psi1 omega1 alpha2 beta2 gamma2 delta2 epsilon2 zeta2 eta2 theta2 iota2 kappa2 lambda2 mu2".

(** A monitor that analyzed two short answers and stamped no question. *)
Definition untimed : AntiCheat.Monitor :=
  Session.monitorRun AntiCheat.create
    [Session.Answered 1000 "yes it is" 5;
     Session.Answered 2000 "no it is not" 5].

(** A monitor that analyzed two answers of four words, one of them long,
    and stamped no question. *)
Definition plainTalk : AntiCheat.Monitor :=
  Session.monitorRun AntiCheat.create
    [Session.Answered 1000 "it is certainly so" 5;
     Session.Answered 2000 "it is certainly so" 5].

(** An answer of two long words. *)
Definition wordy : string := "distributed architecture".

(** An answer of twelve short words that repeats three phrases. *)
Definition echoing : string := "a b c a b c a b c a b c".

(** An answer of 60 long words that repeats four phrases. *)
Definition rehearsed : string :=
  "distributed architecture scalability performance distributed architecture scalability performance distributed architecture scalability performance distributed architecture scalability performance distributed architecture scalability performance distributed architecture scalability performance distributed architecture scalability performance distributed architecture scalability performance distributed architecture scalability performance distributed architecture scalability performance distributed architecture scalability performance distributed architecture scalability performance distributed architecture scalability performance distributed architecture scalability performance distributed architecture scalability performance".

End Samples.

From Stdlib Require Import Permutation Sorted.

(* ------------------------------------------------------------------ *)
(** ** Feedback engine (module [feedback]): the report's lists *)

Module Report.

(** [arr.sort((a, b) => key(b) - key(a))] for an integer key: a stable
    sort, larger keys first. *)
Fixpoint insertDescZ {A} (key : A -> Z) (x : A) (l : list A) : list A :=
  match l with
  | [] => [x]
  | y :: r =>
      if 0 <? key y - key x then y :: insertDescZ key x r
      else x :: l
  end.

Definition sortDescZ {A} (key : A -> Z) (l : list A) : list A :=
  fold_right (fun x acc => insertDescZ key x acc) [] l.

(** [counts[s] = (counts[s] || 0) + 1] for every statement, in order. *)
Definition tally (statements : list string) : list (string * Z) :=
  fold_left (fun counts s => AntiCheat.bump s counts) statements [].

Record Aggregated := {
  agg_aiJudgment : float;
  agg_keywordCoverage : float;
  agg_completeness : float;
  agg_confidence : float
}.

(** [aggregateDimensions(evaluations)]; every evaluation that
    [evaluateAnswer] returns has its dimensions. *)
Definition aggregateDimensions (evaluations : list Evaluation.Evaluation)
    : Aggregated :=
  if len evaluations =? 0 then
    {| agg_aiJudgment := 0; agg_keywordCoverage := 0;
       agg_completeness := 0; agg_confidence := 0 |}
  else
    let count := len evaluations in
    let mean (score : Evaluation.Evaluation -> Z) : float :=
      round1 (Z2F (sumZ (map score evaluations)) / Z2F count) in
    {| agg_aiJudgment := mean Evaluation.aiJudgment;
       agg_keywordCoverage :=
         mean (fun e => Evaluation.kw_score (Evaluation.keywordCoverage e));
       agg_completeness :=
         mean (fun e => Evaluation.c_score (Evaluation.completeness e));
       agg_confidence :=
         mean (fun e => Evaluation.conf_score (Evaluation.confidence e)) |}.

Record StrengthItem := {
  s_text : string;
  s_frequency : Z;
  s_consistency : Z
}.

(** [extractTopStrengths(evaluations, aggregated)]. *)
Definition extractTopStrengths (evaluations : list Evaluation.Evaluation)
    (aggregated : Aggregated) : list StrengthItem :=
  let strengthCounts := tally (flat_map Evaluation.strengths evaluations) in
  let topStrengths :=
    map (fun sc =>
           {| s_text := fst sc;
              s_frequency := snd sc;
              s_consistency :=
                Math_round_Z
                  (Z2F (snd sc) / Z2F (Z.max (len evaluations) 1) * 100) |})
      (firstn 5 (sortDescZ snd strengthCounts)) in
  let withTechnical :=
    if geb (agg_aiJudgment aggregated) 7
       && negb (existsb (fun s => includes "technical" (s_text s)) topStrengths)
    then topStrengths
         ++ [{| s_text := "Consistent technical accuracy"; s_frequency := 0;
                s_consistency := 0 |}]
    else topStrengths in
  let withConfident :=
    if geb (agg_confidence aggregated) 7
       && negb (existsb (fun s => includes "confident" (s_text s)) withTechnical)
    then withTechnical
         ++ [{| s_text := "Strong professional demeanor"; s_frequency := 0;
                s_consistency := 0 |}]
    else withTechnical in
  firstn 5 withConfident.

Inductive Priority := high | medium | low.

Record Improvement := {
  i_text : string;
  i_frequency : Z;
  i_priority : Priority
}.

(** [extractImprovements(evaluations, aggregated)]. *)
Definition extractImprovements (evaluations : list Evaluation.Evaluation)
    : list Improvement :=
  let weaknessCounts := tally (flat_map Evaluation.weaknesses evaluations) in
  map (fun wc =>
         {| i_text := fst wc;
            i_frequency := snd wc;
            i_priority :=
              if 3 <=? snd wc then high
              else if 2 <=? snd wc then medium
              else low |})
    (firstn 5 (sortDescZ snd weaknessCounts)).

Record Highlight := {
  h_index : Z;
  h_score : Z;
  h_strengths : list string;
  h_weaknesses : list string
}.

Record Highlights := {
  best : option Evaluation.Evaluation;
  worst : option Evaluation.Evaluation;
  all : list Highlight
}.

(** [generateAnswerHighlights(evaluations)]. *)
Definition generateAnswerHighlights (evaluations : list Evaluation.Evaluation)
    : Highlights :=
  if len evaluations =? 0 then {| best := None; worst := None; all := [] |}
  else
    let sorted := sortDescZ Evaluation.compositeScore evaluations in
    {| best := nth_error sorted 0;
       worst := nth_error sorted (List.length sorted - 1);
       all :=
         map (fun ie =>
                {| h_index := fst ie + 1;
                   h_score := Evaluation.compositeScore (snd ie);
                   h_strengths := firstn 2 (Evaluation.strengths (snd ie));
                   h_weaknesses := firstn 2 (Evaluation.weaknesses (snd ie)) |})
           (SkillGap.numberFrom 0 sorted) |}.

End Report.

(* ------------------------------------------------------------------ *)
(** ** The chat endpoint of the server

    One request of [POST /api/chat] as a function of the session, the
    message, the reply of the language model and the two clock readings.
    The session record and the conversation history of one session id
    are kept together.  Requests that carry a resume are not modelled;
    the candidate id and the start time are left out, and so is what a
    completed interview does after it has set the final score: building
    the reports, saving the session and the texts sent back. *)

Module Server.

Definition nl : string := String (ascii_of_N 10) EmptyString.

Fixpoint drop (n : nat) (s : string) : string :=
  match n, s with
  | O, _ => s
  | S k, String _ r => drop k r
  | S _, EmptyString => EmptyString
  end.

Definition digitValue (c : ascii) : Z := Z.of_N (code c) - 48.

Fixpoint decimalFrom (fuel : nat) (n : Z) (acc : string) : string :=
  let acc' := String (ascii_of_N (Z.to_N (48 + n mod 10))) acc in
  match fuel with
  | O => acc'
  | S f => if n <? 10 then acc' else decimalFrom f (n / 10) acc'
  end.

(** A non-negative integer in decimal, as a template literal prints it. *)
Definition decimal (n : Z) : string :=
  decimalFrom (Z.to_nat (Z.log2 n)) n EmptyString.

(** [/SCORE\|(\d{1,2})\/10/] matched at the start of [s]: the captured
    number and the text after the match. *)
Definition scoreMarkerHere (s : string) : option (Z * string) :=
  if prefix "SCORE|" s then
    match drop 6 s with
    | String d1 r1 =>
        if isDigit d1 then
          match r1 with
          | String d2 r2 =>
              if isDigit d2 && prefix "/10" r2
              then Some (10 * digitValue d1 + digitValue d2, drop 3 r2)
              else if prefix "/10" r1 then Some (digitValue d1, drop 3 r1)
              else None
          | EmptyString => None
          end
        else None
    | EmptyString => None
    end
  else None.

(** The leftmost match in [s]: the number, the text before and the text
    after.  [before] is the text already passed, reversed. *)
Fixpoint findScoreMarker (s before : string) : option (Z * string * string) :=
  match scoreMarkerHere s with
  | Some (n, rest) => Some (n, rev_string before "", rest)
  | None =>
      match s with
      | EmptyString => None
      | String c r => findScoreMarker r (String c before)
      end
  end.

Record ScoreExtraction := {
  aiScore : Z;
  scoreMatch : bool;
  cleanedResponse : string
}.

(** The AI score of a reply: [Math.max(0, Math.min(10, parseInt(...)))]
    of the first marker, 0 without one; and the reply without it. *)
Definition extractScore (response : string) : ScoreExtraction :=
  match findScoreMarker response "" with
  | Some (n, before, rest) =>
      {| aiScore := Z.max 0 (Z.min 10 n);
         scoreMatch := true;
         cleanedResponse := trim (before ++ rest)%string |}
  | None =>
      {| aiScore := 0; scoreMatch := false; cleanedResponse := response |}
  end.

Fixpoint skipDigits (s : string) : string :=
  match s with
  | String c r => if isDigit c then skipDigits r else s
  | EmptyString => EmptyString
  end.

(** [/INTERVIEW_COMPLETE\|(\d+\/10)\|(\w+)/] matched at the start of
    [s]. *)
Definition completionHere (s : string) : bool :=
  prefix "INTERVIEW_COMPLETE|" s
  && let r := drop 19 s in
     match r with
     | String d _ =>
         isDigit d
         && let r2 := skipDigits r in
            prefix "/10|" r2
            && match drop 4 r2 with
               | String c _ => isWordChar c
               | EmptyString => false
               end
     | EmptyString => false
     end.

Fixpoint anySuffix (p : string -> bool) (s : string) : bool :=
  p s || match s with
         | EmptyString => false
         | String _ r => anySuffix p r
         end.

(** The two tests that decide that the interview is complete. *)
Definition completionFound (response : string) : bool :=
  includes "INTERVIEW_COMPLETE|" response && anySuffix completionHere response.

(** The final score: the mean of the AI scores to one decimal, 0 when no
    answer was scored. *)
Definition finalAverage (totalScore scoredCount : Z) : float :=
  if 0 <? scoredCount then round1 (Z2F totalScore / Z2F scoredCount)
  else 0%float.

Definition passes (avg : float) : bool := geb avg 6.

(** A value of the JSON body where the handler expects a text: a string,
    a value that counts as absent ([undefined], [null], [false], 0), or
    any other value.  Such a value is truthy and is no string; [printed]
    is what a template literal makes of it, [None] when the conversion
    throws (an object whose [toString] is not a function, or an array
    that holds one). *)
Inductive Value :=
  | Text (s : string)
  | Absent
  | Other (printed : option string).

(** [!!v]. *)
Definition given (v : Value) : bool :=
  match v with
  | Text s => nonEmpty s
  | Absent => false
  | Other _ => true
  end.

(** A template literal can print [v]. *)
Definition printable (v : Value) : bool :=
  match v with
  | Other None => false
  | _ => true
  end.

Definition printed (v : Value) : string :=
  match v with
  | Text s => s
  | Absent => ""
  | Other (Some p) => p
  | Other None => ""
  end.

(** [v === word]. *)
Definition isWord (word : string) (v : Value) : bool :=
  match v with
  | Text s => String.eqb s word
  | _ => false
  end.

(** [!isStartMessage && !isEndMessage && !isTimeoutMessage]. *)
Definition shouldScore (message : Value) : bool :=
  negb (isWord "__start__" message) && negb (isWord "__end__" message)
  && negb (isWord "__timeout__" message).

Inductive Experience := junior | mid | senior.

Definition levelName (e : Experience) : string :=
  match e with
  | junior => "junior"
  | mid => "mid"
  | senior => "senior"
  end.

(** What the handler uses of [parseResume(text)] for a resume text: the
    number of skills found, the estimated experience level, and the
    context paragraph that [generateResumeBasedPrompt] renders from the
    skills, the areas of expertise, the level and the achievements. *)
Record ParsedResume := {
  skillCount : Z;
  experienceLevel : Experience;
  resumeContext : string
}.

(** The effective resume of a request,
    [resumeText || pendingResumes.get(sessionId)]: none, a truthy value
    that is not a string, or a text with what is parsed from it. *)
Inductive Resume :=
  | NoResume
  | Unreadable
  | Readable (parsed : ParsedResume).

Record PromptData := {
  systemPromptAddition : string;
  difficultyOverride : option Z;
  pd_experienceLevel : option Experience
}.

(** [generateResumeBasedPrompt(parsed)] for a parsed text. *)
Definition generateResumeBasedPrompt (parsed : ParsedResume) : PromptData :=
  if skillCount parsed =? 0 then
    {| systemPromptAddition := "";
       difficultyOverride := None;
       pd_experienceLevel := None |}
  else
    {| systemPromptAddition := resumeContext parsed;
       difficultyOverride :=
         Some (match experienceLevel parsed with
               | senior => 2
               | mid => 2
               | junior => 1
               end);
       pd_experienceLevel := Some (experienceLevel parsed) |}.

Inductive HistoryEntry :=
  | System (content : string)
  | User (content : Value)
  | Assistant (content : string).

Definition History := list HistoryEntry.

Definition isAssistant (e : HistoryEntry) : bool :=
  match e with Assistant _ => true | _ => false end.

(** [getLastQuestion(history)]: the last assistant message before the
    final entry, the empty string when there is none. *)
Definition getLastQuestion (history : History) : string :=
  match find isAssistant (rev (removelast history)) with
  | Some (Assistant content) => content
  | _ => ""
  end.

Record QAPair := {
  qa_question : string;
  qa_answer : string;
  qa_aiScore : Z;
  qa_compositeScore : Z
}.

Record Session := {
  questionCount : Z;
  totalScore : Z;
  scoredCount : Z;
  completed : bool;
  finalScore : option float;
  adaptiveManager : Adaptive.Manager;
  antiCheat : AntiCheat.Monitor;
  skillGap : SkillGap.Detector;
  answerEvaluations : list Evaluation.Evaluation;
  questionAnswerPairs : list QAPair;
  resumePrompt : option string;
  domainPrompt : option string;
  lastQuestionConfig : option Adaptive.QuestionConfig;
  history : option History
}.

(** The session a first request creates. *)
Definition newSession : Session :=
  {| questionCount := 0;
     totalScore := 0;
     scoredCount := 0;
     completed := false;
     finalScore := None;
     adaptiveManager := Adaptive.create (Some 1) None;
     antiCheat := AntiCheat.create;
     skillGap := SkillGap.create "mid";
     answerEvaluations := [];
     questionAnswerPairs := [];
     resumePrompt := None;
     domainPrompt := None;
     lastQuestionConfig := None;
     history := None |}.

Definition BASE_SYSTEM_PROMPT : string :=
  ("You are a professional technical interview conductor. Your behavior:" ++ nl
   ++ "1. Ask probing technical and behavioral questions to assess candidates" ++ nl
   ++ "2. Be direct and professional - like a real interviewer, not a coach" ++ nl
   ++ "3. Listen carefully and ask follow-up questions based on responses" ++ nl
   ++ "4. Provide critical but constructive feedback" ++ nl
   ++ "5. After EVERY answer, include a score marker at the very end: "
   ++ dq ++ "SCORE|X/10" ++ dq ++ " where X is 0-10" ++ nl
   ++ "6. After 8-10 exchanges, conclude with: "
   ++ dq ++ "INTERVIEW_COMPLETE|[score]/10|[passed]" ++ dq
   ++ " (passed: true/false if score >= 6)" ++ nl
   ++ "7. Keep responses to 1-2 sentences max for speech clarity" ++ nl
   ++ "8. Ask about: background, technical skills, problem-solving, weaknesses, career goals" ++ nl
   ++ "9. Challenge vague answers with "
   ++ dq ++ "Can you elaborate?" ++ dq ++ " or "
   ++ dq ++ "Give me a specific example" ++ dq ++ nl ++ nl
   ++ "Start with: "
   ++ dq ++ "Hello. I'm conducting your technical interview today. First, tell me about your professional background and key technical skills." ++ dq ++ nl
   ++ "Make sure the SCORE marker is always present after your response.")%string.

Definition setManager (s : Session) (m : Adaptive.Manager)
    (config : option Adaptive.QuestionConfig) : Session :=
  {| questionCount := questionCount s;
     totalScore := totalScore s;
     scoredCount := scoredCount s;
     completed := completed s;
     finalScore := finalScore s;
     adaptiveManager := m;
     antiCheat := antiCheat s;
     skillGap := skillGap s;
     answerEvaluations := answerEvaluations s;
     questionAnswerPairs := questionAnswerPairs s;
     resumePrompt := resumePrompt s;
     domainPrompt := domainPrompt s;
     lastQuestionConfig := config;
     history := history s |}.

(** [buildSystemPrompt(session)]: asks the manager for the next question
    configuration, remembers it and returns the prompt; [None] when the
    manager throws. *)
Definition buildSystemPrompt (s : Session) : Session * option string :=
  match Adaptive.getNextQuestionConfig (adaptiveManager s) with
  | (m, None) => (setManager s m (lastQuestionConfig s), None)
  | (m, Some config) =>
      (setManager s m (Some config),
       Some (BASE_SYSTEM_PROMPT
             ++ nl ++ nl ++ "DIFFICULTY INSTRUCTION: "
             ++ Adaptive.q_prompt config
             ++ nl ++ "Current difficulty level: "
             ++ Adaptive.difficultyName config
             ++ " (" ++ decimal (Adaptive.difficulty config) ++ "/3)"
             ++ (if Adaptive.isFollowUp config
                 then nl ++ "This should be a FOLLOW-UP question based on the candidate's previous answer."
                 else "")
             ++ match domainPrompt s with
                | Some d => if nonEmpty d then nl ++ nl ++ d else ""
                | None => ""
                end
             ++ match resumePrompt s with
                | Some p => if nonEmpty p then nl ++ nl ++ p else ""
                | None => ""
                end)%string)
  end.

Definition domainPromptFor (domain : string) : string :=
  (nl ++ "INTERVIEW DOMAIN: " ++ domain ++ nl
   ++ "Focus ALL questions specifically on " ++ domain
   ++ ". Ask technical and role-specific questions relevant to a " ++ domain
   ++ " position. Tailor difficulty, terminology, and scenarios to this domain.")%string.

(** [session.adaptiveManager.currentLevel = level]. *)
Definition setLevel (m : Adaptive.Manager) (level : Z) : Adaptive.Manager :=
  {| Adaptive.currentLevel := level;
     Adaptive.windowSize := Adaptive.windowSize m;
     Adaptive.scoreHistory := Adaptive.scoreHistory m;
     Adaptive.levelHistory := Adaptive.levelHistory m;
     Adaptive.questionIndex := Adaptive.questionIndex m;
     Adaptive.followUpPending := Adaptive.followUpPending m;
     Adaptive.followUpContext := Adaptive.followUpContext m;
     Adaptive.adaptationLog := Adaptive.adaptationLog m |}.

(** The resume branch of the handler: the context paragraph is stored,
    the level of the manager is overwritten and the detector is replaced
    by a new one for the experience level.  [None] when
    [generateResumeBasedPrompt] throws, which it does on what
    [parseResume] returns for a value that is not a string. *)
Definition applyResume (s : Session) (resume : Resume) : option Session :=
  match resume with
  | NoResume => Some s
  | Unreadable => None
  | Readable parsed =>
      let promptData := generateResumeBasedPrompt parsed in
      Some
        {| questionCount := questionCount s;
           totalScore := totalScore s;
           scoredCount := scoredCount s;
           completed := completed s;
           finalScore := finalScore s;
           adaptiveManager :=
             match difficultyOverride promptData with
             | Some level =>
                 if level =? 0 then adaptiveManager s
                 else setLevel (adaptiveManager s) level
             | None => adaptiveManager s
             end;
           antiCheat := antiCheat s;
           skillGap :=
             match pd_experienceLevel promptData with
             | Some e => SkillGap.create (levelName e)
             | None => skillGap s
             end;
           answerEvaluations := answerEvaluations s;
           questionAnswerPairs := questionAnswerPairs s;
           resumePrompt := Some (systemPromptAddition promptData);
           domainPrompt := domainPrompt s;
           lastQuestionConfig := lastQuestionConfig s;
           history := history s |}
  end.

Record AnswerMeta := {
  am_compositeScore : Z;
  am_aiScore : Z;
  am_difficultyLevel : Z;
  am_suspicionLevel : AntiCheat.SuspicionLevel
}.

(** How a request ends: status 400, status 500, a reply, or the final
    report. *)
Inductive Outcome :=
  | Rejected
  | Failed
  | Replied (response : string) (answerMeta : option AnswerMeta)
  | Completed (finalScore : float) (passed : bool).

(** The part of a request that runs the engines on an answer that is a
    string; the second component is [None] when [recordScore] throws. *)
Definition scoreAnswer (s : Session) (hist : History) (message : string)
    (ai : Z) (now : Z) : Session * option AnswerMeta :=
  let lastQuestion := getLastQuestion hist in
  let answerEvaluation := Evaluation.evaluateAnswer message lastQuestion ai in
  let composite := Evaluation.compositeScore answerEvaluation in
  let evaluations := answerEvaluations s ++ [answerEvaluation] in
  let pairs :=
    questionAnswerPairs s
    ++ [{| qa_question := lastQuestion; qa_answer := message;
           qa_aiScore := ai; qa_compositeScore := composite |}] in
  let (m1, entry) := Adaptive.recordScore (adaptiveManager s) composite in
  match entry with
  | None =>
      ({| questionCount := questionCount s;
          totalScore := totalScore s;
          scoredCount := scoredCount s;
          completed := completed s;
          finalScore := finalScore s;
          adaptiveManager := m1;
          antiCheat := antiCheat s;
          skillGap := skillGap s;
          answerEvaluations := evaluations;
          questionAnswerPairs := pairs;
          resumePrompt := resumePrompt s;
          domainPrompt := domainPrompt s;
          lastQuestionConfig := lastQuestionConfig s;
          history := Some hist |}, None)
  | Some _ =>
      let m2 := fst (Adaptive.shouldFollowUp m1 composite lastQuestion message) in
      let (monitor, antiCheatResult) :=
        AntiCheat.analyzeAnswer (antiCheat s) now message ai in
      let questionType :=
        match lastQuestionConfig s with
        | Some config =>
            match Adaptive.questionType config with
            | Some t => if nonEmpty t then t else "technical"
            | None => "technical"
            end
        | None => "technical"
        end in
      let detector :=
        fst (SkillGap.trackAnswer (skillGap s) lastQuestion message composite
               questionType) in
      ({| questionCount := questionCount s;
          totalScore := totalScore s;
          scoredCount := scoredCount s;
          completed := completed s;
          finalScore := finalScore s;
          adaptiveManager := m2;
          antiCheat := monitor;
          skillGap := detector;
          answerEvaluations := evaluations;
          questionAnswerPairs := pairs;
          resumePrompt := resumePrompt s;
          domainPrompt := domainPrompt s;
          lastQuestionConfig := lastQuestionConfig s;
          history := Some hist |},
       Some {| am_compositeScore := composite;
               am_aiScore := ai;
               am_difficultyLevel := Adaptive.currentLevel m2;
               am_suspicionLevel := AntiCheat.suspicionLevel antiCheatResult |})
  end.

Definition setHistory (s : Session) (hist : History) : Session :=
  {| questionCount := questionCount s;
     totalScore := totalScore s;
     scoredCount := scoredCount s;
     completed := completed s;
     finalScore := finalScore s;
     adaptiveManager := adaptiveManager s;
     antiCheat := antiCheat s;
     skillGap := skillGap s;
     answerEvaluations := answerEvaluations s;
     questionAnswerPairs := questionAnswerPairs s;
     resumePrompt := resumePrompt s;
     domainPrompt := domainPrompt s;
     lastQuestionConfig := lastQuestionConfig s;
     history := Some hist |}.

(** What follows the reply of the model: the history, the counters, the
    score, the engines and the completion test.  An answer that is not a
    string makes [evaluateAnswer] throw at [answer.toLowerCase()], after
    the history and the counters were updated.  [saved] tells whether
    the reports are built and the session is stored without an error
    once the interview is complete. *)
Definition afterResponse (s : Session) (hist : History) (message : Value)
    (response : string) (saved : bool) (now : Z) : Session * Outcome :=
  let real := shouldScore message in
  let hist1 := if real then hist ++ [User message] else hist in
  let hist2 := hist1 ++ [Assistant response] in
  let x := extractScore response in
  let counted := scoreMatch x && real in
  let s1 :=
    {| questionCount := questionCount s + 1;
       totalScore := if counted then totalScore s + aiScore x else totalScore s;
       scoredCount := if counted then scoredCount s + 1 else scoredCount s;
       completed := completed s;
       finalScore := finalScore s;
       adaptiveManager := adaptiveManager s;
       antiCheat := antiCheat s;
       skillGap := skillGap s;
       answerEvaluations := answerEvaluations s;
       questionAnswerPairs := questionAnswerPairs s;
       resumePrompt := resumePrompt s;
       domainPrompt := domainPrompt s;
       lastQuestionConfig := lastQuestionConfig s;
       history := Some hist2 |} in
  let scored :=
    if real then
      match message with
      | Text answer =>
          match scoreAnswer s1 hist2 answer (aiScore x) now with
          | (s2, Some meta) => (s2, true, Some meta)
          | (s2, None) => (s2, false, None)
          end
      | _ => (s1, false, None)
      end
    else (s1, true, None) in
  match scored with
  | (s2, false, _) => (s2, Failed)
  | (s2, true, meta) =>
      if completionFound response then
        let avg := finalAverage (totalScore s2) (scoredCount s2) in
        ({| questionCount := questionCount s2;
            totalScore := totalScore s2;
            scoredCount := scoredCount s2;
            completed := true;
            finalScore := Some avg;
            adaptiveManager := adaptiveManager s2;
            antiCheat := antiCheat s2;
            skillGap := skillGap s2;
            answerEvaluations := answerEvaluations s2;
            questionAnswerPairs := questionAnswerPairs s2;
            resumePrompt := resumePrompt s2;
            domainPrompt := domainPrompt s2;
            lastQuestionConfig := lastQuestionConfig s2;
            history := history s2 |},
         if saved then Completed avg (passes avg) else Failed)
      else (s2, Replied (cleanedResponse x) meta)
  end.

(** A request to [POST /api/chat] for the session: its [sessionId] is
    the key of the session, a value that the log line can print.
    [message] and [domain] are the values of the body, [resume] is the
    effective resume, [response] is the reply of the language model,
    [None] when the call to it fails; [saved] tells whether the reports
    of a completed interview are built and stored without an error;
    [asked] and [now] are the clock readings of [questionAsked] and of
    [analyzeAnswer]. *)
Record Request := {
  message : Value;
  resume : Resume;
  domain : Value;
  response : option string;
  saved : bool;
  asked : Z;
  now : Z
}.

(** Where the handler stands when it turns to the language model: it
    has answered already, or it asks with a session and a history. *)
Inductive Prepared :=
  | Stop (s : Session) (outcome : Outcome)
  | Ask (s : Session) (hist : History).

(** The handler of [POST /api/chat] up to the call of the language
    model: the log line, the test of the message, the resume and the
    domain of a request that opens the interview, the system prompt,
    which is built once to open the history and once more to refresh
    it, and the time stamp of the question. *)
Definition beforeResponse (s : Session) (r : Request) : Prepared :=
  if negb (printable (message r) && printable (domain r)) then Stop s Failed
  else if negb (given (message r)) then Stop s Rejected
  else
    let isStart := isWord "__start__" (message r) in
    match (if isStart then applyResume s (resume r) else Some s) with
    | None => Stop s Failed
    | Some sr =>
        let s0 :=
          if given (domain r) && negb (isWord "general" (domain r)) && isStart
          then
            {| questionCount := questionCount sr;
               totalScore := totalScore sr;
               scoredCount := scoredCount sr;
               completed := completed sr;
               finalScore := finalScore sr;
               adaptiveManager := adaptiveManager sr;
               antiCheat := antiCheat sr;
               skillGap := skillGap sr;
               answerEvaluations := answerEvaluations sr;
               questionAnswerPairs := questionAnswerPairs sr;
               resumePrompt := resumePrompt sr;
               domainPrompt := Some (domainPromptFor (printed (domain r)));
               lastQuestionConfig := lastQuestionConfig sr;
               history := history sr |}
          else sr in
        let started :=
          match history s0 with
          | Some hist => (s0, Some hist)
          | None =>
              match buildSystemPrompt s0 with
              | (s1, Some prompt) => (s1, Some [System prompt])
              | (s1, None) => (s1, None)
              end
          end in
        match started with
        | (s1, None) => Stop s1 Failed
        | (s1, Some hist) =>
            match buildSystemPrompt s1 with
            | (s2, None) => Stop (setHistory s2 hist) Failed
            | (s2, Some prompt) =>
                Ask
                  (if isStart then s2
                   else
                     {| questionCount := questionCount s2;
                        totalScore := totalScore s2;
                        scoredCount := scoredCount s2;
                        completed := completed s2;
                        finalScore := finalScore s2;
                        adaptiveManager := adaptiveManager s2;
                        antiCheat :=
                          AntiCheat.questionAsked (antiCheat s2) (asked r);
                        skillGap := skillGap s2;
                        answerEvaluations := answerEvaluations s2;
                        questionAnswerPairs := questionAnswerPairs s2;
                        resumePrompt := resumePrompt s2;
                        domainPrompt := domainPrompt s2;
                        lastQuestionConfig := lastQuestionConfig s2;
                        history := history s2 |})
                  (System prompt :: tl hist)
            end
        end
    end.

(** The handler of [POST /api/chat] on the session of the request. *)
Definition chat (s : Session) (r : Request) : Session * Outcome :=
  match beforeResponse s r with
  | Stop s' outcome => (s', outcome)
  | Ask s' hist =>
      match response r with
      | None => (setHistory s' hist, Failed)
      | Some text => afterResponse s' hist (message r) text (saved r) (now r)
      end
  end.

Definition serve (s : Session) (r : Request) : Session := fst (chat s r).

Definition serveAll (s : Session) (requests : list Request) : Session :=
  fold_left serve requests s.

End Server.

(** Boolean checks and counters used by the properties below. *)
Module Checks2.

Import Range.

(** The slot [r] of the rotation has a question type with a prompt. *)
Definition slotDefined (r : Z) : bool :=
  match Adaptive.questionTypeAt r with
  | Some t =>
      match lookup t Adaptive.QUESTION_TYPE_PROMPTS with
      | Some _ => true
      | None => false
      end
  | None => false
  end.

(** The largest level of a history. *)
Definition peakOf (history : list Z) : Z := fold_left Z.max history 0.

(** The keyword score as a function of the number of matches. *)
Definition coverageFormula (m : Z) : bool :=
  (Evaluation.coverageScoreOf m 8 =? Z.min 10 ((5 * m + 2) / 4))
  && Bool.eqb (Evaluation.coverageScoreOf m 8 =? 10) (8 <=? m)
  && Bool.eqb (Evaluation.coverageScoreOf m 8 =? 0) (m =? 0).

(** Counts beyond 3 hedging phrases, 4 filler words and 3 assertive
    phrases change nothing. *)
Definition confidenceCapped (h f a unused : Z) : bool :=
  Evaluation.confidenceScoreOf h f a
  =? Evaluation.confidenceScoreOf (Z.min h 3) (Z.min f 4) (Z.min a 3).

Definition confidenceMonotone (h f a h' : Z) : bool :=
  all2
    (fun f' a' =>
       implb ((h <=? h') && (f <=? f') && (a' <=? a))
         (Evaluation.confidenceScoreOf h' f' a'
          <=? Evaluation.confidenceScoreOf h f a))
    (Zrange 0 4) (Zrange 0 3).

(** A string of whitespace only. *)
Fixpoint blank (s : string) : bool :=
  match s with
  | EmptyString => true
  | String c r => isSpace c && blank r
  end.

(** A pattern whose first character is not whitespace. *)
Definition startsVisible (p : string) : bool :=
  match p with
  | EmptyString => false
  | String c _ => negb (isSpace c)
  end.

(** The number of answers among the operations on a monitor. *)
Definition answered (ops : list Session.MonitorOp) : Z :=
  len (filter (fun o => match o with
                        | Session.Answered _ _ _ => true
                        | Session.Asked _ => false
                        end) ops).

(** How high the suspicion score can be after [n] answers. *)
Definition suspicionCeiling (n : Z) : Z :=
  if n <=? 0 then 0
  else if n <=? 1 then 20
  else if n <=? 2 then 34
  else if n <=? 3 then 51
  else 90.

(** One update of the suspicion score by [5 * q] points stays under the
    ceilings: from 0 and from at most 20 with at most 65 points, from at
    most 34 and from at most 90 with at most 90 points. *)
Definition growthChecked (p q : Z) : bool :=
  let d := AntiCheat.decay p (5 * q) in
  (d <=? 90)
  && implb ((p =? 0) && (q <=? 13)) (d <=? 20)
  && implb ((p <=? 20) && (q <=? 13)) (d <=? 34)
  && implb (p <=? 34) (d <=? 51).

(** One update of the suspicion score lies between the old score and the
    points of the answer, stays positive, is at least 2 after a flag and
    falls without one. *)
Definition decayBetween (p q : Z) : bool :=
  let d := AntiCheat.decay p (5 * q) in
  between (Z.min p (5 * q)) (Z.max p (5 * q)) d
  && implb (1 <=? p) (1 <=? d)
  && implb (1 <=? q) (2 <=? d)
  && implb ((q =? 0) && (2 <=? p)) (d <? p).

(** What the samples and the score of a monitor look like after [n]
    answers. *)
Definition inStep (n : Z) (m : AntiCheat.Monitor) : Prop :=
  len (AntiCheat.responseLengths m) = n
  /\ len (AntiCheat.vocabularyComplexities m) = n
  /\ len (AntiCheat.responseTimings m) <= n
  /\ len (AntiCheat.flags m) <= 6 * n
  /\ 0 <= AntiCheat.overallSuspicionScore m <= suspicionCeiling n.

(** The total of the counts of a table. *)
Definition totalCount (counts : list (string * Z)) : Z :=
  fold_right Z.add 0 (map snd counts).

(** The topics a question can be filed under. *)
Definition topicNames : list string :=
  map fst SkillGap.TOPIC_PATTERNS ++ ["General"].

(** [scores[key]?.length || 0]. *)
Definition countOf (key : string) (scores : SkillGap.Scores) : Z :=
  match lookup key scores with
  | Some l => len l
  | None => 0
  end.

(** The number of scores a table holds. *)
Definition entries (scores : SkillGap.Scores) : Z :=
  fold_right Z.add 0 (map (fun ks => len (snd ks)) scores).

(** What the tables of a detector look like after [n] answers. *)
Definition tracked (n : Z) (d : SkillGap.Detector) : Prop :=
  SkillGap.questionsAnalyzed d = n
  /\ NoDup (map fst (SkillGap.topicScores d))
  /\ NoDup (map fst (SkillGap.questionTypeScores d))
  /\ incl (map fst (SkillGap.topicScores d)) topicNames
  /\ Forall (fun ks => snd ks <> []) (SkillGap.topicScores d)
  /\ Forall (fun ks => snd ks <> []) (SkillGap.questionTypeScores d)
  /\ (forall topic, countOf topic (SkillGap.topicScores d) <= n)
  /\ entries (SkillGap.questionTypeScores d) = n
  /\ n <= entries (SkillGap.topicScores d).

(** The names every object inherits.  A table that is looked up with
    one of them finds the inherited member and not an entry. *)
Definition inheritedNames : list string :=
  ["constructor"; "__proto__"; "hasOwnProperty"; "isPrototypeOf";
   "propertyIsEnumerable"; "toLocaleString"; "toString"; "valueOf";
   "__defineGetter__"; "__defineSetter__"; "__lookupGetter__";
   "__lookupSetter__"].

(** A key for which an object is a plain map that lists its entries in
    the order of insertion: not an inherited name, and not a number
    (keys that read as array indices are listed first). *)
Definition plainKey (k : string) : bool :=
  negb (strIn k inheritedNames)
  && match k with
     | String c _ => negb (isDigit c)
     | EmptyString => true
     end.

Definition plainTypes (answers : list Session.Answer) : bool :=
  forallb (fun a => plainKey (Session.questionType a)) answers.

(** The gaps that enter the learning path. *)
Definition serious (gaps : list SkillGap.Gap) : list SkillGap.Gap :=
  filter (fun g => negb (SkillGap.isMinor (SkillGap.g_severity g))) gaps.

(** How often a statement occurs in a list. *)
Definition countIn (k : string) (l : list string) : Z :=
  len (filter (String.eqb k) l).

(** [counts[k] || 0]. *)
Definition tallyOf (k : string) (counts : list (string * Z)) : Z :=
  match lookup k counts with
  | Some n => n
  | None => 0
  end.

(** The evaluations of a list of exchanges (answer, question, AI
    score). *)
Definition evaluateAll (exchanges : list (string * string * Z))
    : list Evaluation.Evaluation :=
  map (fun x => Evaluation.evaluateAnswer (fst (fst x)) (snd (fst x)) (snd x))
    exchanges.

(** The statements [identifyWeaknesses] and [identifyStrengths] can
    make. *)
Definition weaknessTexts : list string :=
  ["Answer lacks technical accuracy"; "Missing key technical terms";
   "Response is too brief"; "Response is too verbose";
   "No concrete examples provided"; "Answer lacks structure";
   "Sounds uncertain or hesitant"; "Excessive hedging language";
   "Too many filler words"].

Definition strengthTexts : list string :=
  ["Strong technical understanding"; "Good use of technical terminology";
   "Well-structured and detailed response"; "Provided concrete examples";
   "Used quantifiable data points"; "Confident and assertive communication";
   "Good STAR method structure"; "Assertive language patterns"].

(** Larger keys first. *)
Definition descending {A} (key : A -> Z) (l : list A) : Prop :=
  StronglySorted (fun a b => key b <= key a) l.

(** The level of a manager is one of the three and its level history is
    one longer than its score history. *)
Definition levelled (m : Adaptive.Manager) : Prop :=
  In (Adaptive.currentLevel m) [1; 2; 3]
  /\ len (Adaptive.levelHistory m) = len (Adaptive.scoreHistory m) + 1.

(** The engines of a session hold one record per evaluated answer; the
    detector holds at most as many, as a resume replaces it. *)
Definition engines (s : Server.Session) : Prop :=
  let evaluations := Server.answerEvaluations s in
  levelled (Server.adaptiveManager s)
  /\ Adaptive.scoreHistory (Server.adaptiveManager s)
     = map Evaluation.compositeScore evaluations
  /\ map Server.qa_compositeScore (Server.questionAnswerPairs s)
     = map Evaluation.compositeScore evaluations
  /\ map Server.qa_aiScore (Server.questionAnswerPairs s)
     = map Evaluation.aiJudgment evaluations
  /\ Forall (fun e => 0 <= Evaluation.compositeScore e <= 10
                      /\ 0 <= Evaluation.aiJudgment e <= 10) evaluations
  /\ inStep (len evaluations) (Server.antiCheat s)
  /\ exists k, 0 <= k <= len evaluations /\ tracked k (Server.skillGap s).

(** The counters of a session. *)
Definition counters (s : Server.Session) : Prop :=
  0 <= Server.scoredCount s <= Server.questionCount s
  /\ len (Server.answerEvaluations s) <= Server.questionCount s
  /\ 0 <= Server.totalScore s <= 10 * Server.scoredCount s
  /\ (Server.completed s = true <-> Server.finalScore s <> None).

(** The counters of a session whose answers were all evaluated. *)
Definition evaluatedCounters (s : Server.Session) : Prop :=
  Server.scoredCount s <= len (Server.answerEvaluations s)
  /\ Server.totalScore s
     = sumZ (map Evaluation.aiJudgment (Server.answerEvaluations s)).

(** The manager and the detector of a session that no resume touched. *)
Definition untouched (s : Server.Session) : Prop :=
  Spec.wellFormed 1 (Server.adaptiveManager s)
  /\ tracked (len (Server.answerEvaluations s)) (Server.skillGap s).

(** The numbers and the lists of [s'] are those of [s]. *)
Definition sameRecords (s s' : Server.Session) : Prop :=
  Server.questionCount s' = Server.questionCount s
  /\ Server.totalScore s' = Server.totalScore s
  /\ Server.scoredCount s' = Server.scoredCount s
  /\ Server.completed s' = Server.completed s
  /\ Server.finalScore s' = Server.finalScore s
  /\ Server.answerEvaluations s' = Server.answerEvaluations s
  /\ Server.questionAnswerPairs s' = Server.questionAnswerPairs s.

(** The message of the request is a string or absent. *)
Definition textual (r : Server.Request) : bool :=
  match Server.message r with
  | Server.Other _ => false
  | _ => true
  end.

Definition unreadable (resume : Server.Resume) : bool :=
  match resume with
  | Server.Unreadable => true
  | _ => false
  end.

(** The request gets as far as the call of the language model: the
    message and the domain can be logged, the message is not empty, and
    a request that opens the interview brings no resume that is not a
    text. *)
Definition accepted (r : Server.Request) : bool :=
  Server.printable (Server.message r)
  && Server.printable (Server.domain r)
  && Server.given (Server.message r)
  && negb (Server.isWord "__start__" (Server.message r)
           && unreadable (Server.resume r)).

(** The request applies a resume to the session: it opens the interview
    with a resume text in which skills are found. *)
Definition resumeApplied (r : Server.Request) : bool :=
  Server.isWord "__start__" (Server.message r)
  && match Server.resume r with
     | Server.Readable parsed => negb (Server.skillCount parsed =? 0)
     | _ => false
     end.

(** The level at which the first request of a session leaves the
    manager before the prompt is built. *)
Definition openingLevel (r : Server.Request) : Z :=
  if Server.isWord "__start__" (Server.message r) then
    match Server.resume r with
    | Server.Readable parsed =>
        match Server.difficultyOverride
                (Server.generateResumeBasedPrompt parsed) with
        | Some level => level
        | None => 1
        end
    | _ => 1
    end
  else 1.

(** A message that is an answer, not one of the three control words. *)
Definition realAnswer (message : string) : bool :=
  nonEmpty message
  && negb (String.eqb message "__start__")
  && negb (String.eqb message "__end__")
  && negb (String.eqb message "__timeout__").

(** The marker for the score [n] is read back as [n]. *)
Definition markerRead (n : Z) : bool :=
  match Server.scoreMarkerHere ("SCORE|" ++ Server.decimal n ++ "/10")%string with
  | Some (m, rest) => (m =? n) && String.eqb rest ""
  | None => false
  end.

(** How far the level can be from the start level. *)
Definition paced (startLevel : Z) (m : Adaptive.Manager) : Prop :=
  In (Adaptive.currentLevel m) [1; 2; 3]
  /\ Z.abs (Adaptive.currentLevel m - startLevel)
     <= Z.max 0 (len (Adaptive.scoreHistory m) - 1).

End Checks2.

(** Further sample data for worked examples. *)
Module Samples2.

(** Two answers of a session: a technical and a behavioral one. *)
Definition twoAnswers : list Session.Answer :=
  [ {| Session.question := "How does the event loop work in JavaScript?";
       Session.answer := "It runs callbacks from a queue.";
       Session.score := 4;
       Session.questionType := "technical" |};
    {| Session.question := "Tell me about a time you had to mentor someone.";
       Session.answer := "I have mentored two junior developers.";
       Session.score := 8;
       Session.questionType := "behavioral" |} ].

(** The request that opens an interview and a request with an answer,
    each with the reply of the language model. *)
Definition startRequest : Server.Request :=
  {| Server.message := Server.Text "__start__";
     Server.resume := Server.NoResume;
     Server.domain := Server.Absent;
     Server.response := Some "Hello. Tell me about your background.";
     Server.saved := true;
     Server.asked := 0;
     Server.now := 0 |}.

Definition answerRequest : Server.Request :=
  {| Server.message := Server.Text "I have built web services for five years.";
     Server.resume := Server.NoResume;
     Server.domain := Server.Absent;
     Server.response := Some "Good. What is a closure? SCORE|7/10";
     Server.saved := true;
     Server.asked := 1000;
     Server.now := 9000 |}.


(** A request whose message is an array, with a scored reply. *)
Definition arrayAnswer : Server.Request :=
  {| Server.message := Server.Other (Some "closures,scope");
     Server.resume := Server.NoResume;
     Server.domain := Server.Absent;
     Server.response := Some "Please answer in words. SCORE|3/10";
     Server.saved := true;
     Server.asked := 1000;
     Server.now := 9000 |}.

End Samples2.

(* ================================================================== *)
(** * Properties *)

Import Range Checks Samples.

(** Closes the cases of a transition once the tests are decided. *)
Ltac settle :=
  repeat split; intros;
  repeat match goal with H : _ /\ _ |- _ => destruct H end;
  try lia; try congruence; auto.

Section Ranges.

Lemma In_Zseq : forall n lo x,
  lo <= x < lo + Z.of_nat n -> In x (Zseq lo n).
Proof.
  induction n as [|n IH]; intros lo x H; simpl in *.
  - lia.
  - destruct (Z.eq_dec lo x) as [->|Hne]; [now left|right].
    apply IH. lia.
Qed.

Lemma In_Zrange : forall lo hi x, lo <= x <= hi -> In x (Zrange lo hi).
Proof.
  intros lo hi x H. unfold Zrange. apply In_Zseq. lia.
Qed.

Lemma all1_range : forall P lo hi,
  all1 P (Zrange lo hi) = true ->
  forall x, lo <= x <= hi -> P x = true.
Proof.
  intros P lo hi H x Hx. unfold all1 in H.
  rewrite forallb_forall in H. apply H, In_Zrange, Hx.
Qed.

Lemma all2_range : forall P lo1 hi1 lo2 hi2,
  all2 P (Zrange lo1 hi1) (Zrange lo2 hi2) = true ->
  forall x y, lo1 <= x <= hi1 -> lo2 <= y <= hi2 -> P x y = true.
Proof.
  intros P lo1 hi1 lo2 hi2 H x y Hx Hy. unfold all2 in H.
  rewrite forallb_forall in H.
  specialize (H x (In_Zrange _ _ _ Hx)).
  rewrite forallb_forall in H. apply H, In_Zrange, Hy.
Qed.

Lemma all4_range : forall P lo1 hi1 lo2 hi2 lo3 hi3 lo4 hi4,
  all4 P (Zrange lo1 hi1) (Zrange lo2 hi2) (Zrange lo3 hi3) (Zrange lo4 hi4)
  = true ->
  forall a b c d,
    lo1 <= a <= hi1 -> lo2 <= b <= hi2 -> lo3 <= c <= hi3 -> lo4 <= d <= hi4 ->
    P a b c d = true.
Proof.
  intros P lo1 hi1 lo2 hi2 lo3 hi3 lo4 hi4 H a b c d Ha Hb Hc Hd.
  unfold all4 in H. rewrite forallb_forall in H.
  specialize (H a (In_Zrange _ _ _ Ha)).
  rewrite forallb_forall in H.
  specialize (H b (In_Zrange _ _ _ Hb)).
  eapply all2_range; eauto.
Qed.

Lemma between_true : forall lo hi x, between lo hi x = true -> lo <= x <= hi.
Proof. unfold between. intros. lia. Qed.

End Ranges.

(* ------------------------------------------------------------------ *)
(** ** Answer evaluation *)

Section EvaluationFacts.

Import Evaluation.

Lemma strIn_In : forall x l, strIn x l = true <-> In x l.
Proof.
  intros x l. unfold strIn. rewrite existsb_exists. split.
  - intros [y [Hy He]]. apply String.eqb_eq in He. now subst.
  - intros H. exists x. split; [assumption|apply String.eqb_refl].
Qed.

Lemma dedupeFrom_spec : forall l seen,
  NoDup (dedupeFrom seen l)
  /\ forall x, In x (dedupeFrom seen l) -> In x l /\ ~ In x seen.
Proof.
  induction l as [|a l IH]; intros seen; simpl.
  - split; [constructor|intros x []].
  - destruct (existsb (String.eqb a) seen) eqn:E.
    + destruct (IH seen) as [Hn Hi]. split; [assumption|].
      intros x Hx. destruct (Hi x Hx). auto.
    + destruct (IH (a :: seen)) as [Hn Hi]. split.
      * constructor; [|assumption].
        intros Hin. destruct (Hi a Hin) as [_ Hno]. apply Hno. now left.
      * intros x [->|Hx].
        -- split; [now left|]. intros Hin.
           apply strIn_In in Hin. unfold strIn in Hin. congruence.
        -- destruct (Hi x Hx) as [H1 H2]. split; [now right|].
           intros Hin. apply H2. now right.
Qed.

Lemma lookup_incl : forall (tbl : list (string * list string)) k l,
  lookup k tbl = Some l -> incl l (flat_map snd tbl).
Proof.
  induction tbl as [|[k' v] tbl IH]; intros k l H; simpl in *.
  - discriminate.
  - destruct (String.eqb k k').
    + injection H as <-. apply incl_appl, incl_refl.
    + apply incl_appr. eapply IH; eauto.
Qed.

Lemma keywordsOf_incl : forall t, incl (keywordsOf t) allKeywords.
Proof.
  intros t. unfold keywordsOf.
  destruct (lookup t TECHNICAL_KEYWORDS) eqn:E.
  - eapply lookup_incl; eauto.
  - intros x [].
Qed.

Lemma relevantKeywords_incl : forall ts,
  incl (relevantKeywordsOf ts) allKeywords.
Proof.
  intros ts x Hx. unfold relevantKeywordsOf, dedupe in Hx.
  apply dedupeFrom_spec in Hx. destruct Hx as [Hx _].
  rewrite !in_app_iff in Hx. destruct Hx as [Hx|[Hx|Hx]].
  - apply in_flat_map in Hx. destruct Hx as [t [_ Ht]].
    eapply keywordsOf_incl; eauto.
  - destruct (strIn "general" ts); [destruct Hx|].
    eapply keywordsOf_incl; eauto.
  - destruct (strIn "behavioral" ts); [destruct Hx|].
    eapply keywordsOf_incl; eauto.
Qed.

(** At most 119 keywords are ever relevant: the size of the whole table. *)
Lemma relevantKeywords_length : forall ts,
  0 <= len (relevantKeywordsOf ts) <= 119.
Proof.
  intros ts. unfold len. split; [lia|].
  change 119 with (Z.of_nat (List.length allKeywords)).
  apply Nat2Z.inj_le, NoDup_incl_length.
  - apply dedupeFrom_spec.
  - apply relevantKeywords_incl.
Qed.

Lemma len_filter_le : forall A (f : A -> bool) l,
  0 <= len (filter f l) <= len l.
Proof.
  intros A f l. unfold len. split; [lia|].
  apply Nat2Z.inj_le, filter_length_le.
Qed.

Lemma coverageScoreOf_cap : forall matched total,
  0 <= total ->
  coverageScoreOf matched total = coverageScoreOf matched (Z.min total 8).
Proof.
  intros matched total Ht. unfold coverageScoreOf.
  replace (Z.min (Z.min total 8) 8) with (Z.min total 8) by lia.
  destruct (Z.ltb_spec 0 total), (Z.ltb_spec 0 (Z.min total 8));
    try reflexivity; lia.
Qed.

Lemma coverageScoreOf_range : forall matched total,
  0 <= matched <= 119 -> 0 <= total ->
  0 <= coverageScoreOf matched total <= 10.
Proof.
  intros matched total Hm Ht.
  rewrite coverageScoreOf_cap by assumption.
  assert (Hd : 0 <= Z.min total 8 <= 8) by lia.
  apply between_true.
  revert Hm Hd. generalize (Z.min total 8). revert matched.
  apply (all2_range (fun m t => between 0 10 (coverageScoreOf m t))).
  vm_compute. reflexivity.
Qed.

Lemma kw_score_range : forall answer question,
  0 <= kw_score (evaluateKeywordCoverage answer question) <= 10.
Proof.
  intros answer question. unfold evaluateKeywordCoverage. cbn [kw_score].
  set (ts := detectRelevantTopics (toLowerCase question)).
  pose proof (relevantKeywords_length ts) as Hr.
  pose proof (len_filter_le _
                (fun kw => includes kw (toLowerCase answer))
                (relevantKeywordsOf ts)) as Hf.
  apply coverageScoreOf_range; lia.
Qed.

Lemma lengthScoreOf_range : forall w, 2 <= lengthScoreOf w <= 9.
Proof.
  intros w. unfold lengthScoreOf.
  repeat match goal with |- context [if ?c then _ else _] => destruct c end;
    lia.
Qed.

Lemma structureScoreOf_range : forall s, 4 <= structureScoreOf s <= 10.
Proof.
  intros s. unfold structureScoreOf.
  repeat match goal with |- context [if ?c then _ else _] => destruct c end;
    lia.
Qed.

Lemma specificityScoreOf_range : forall a b c,
  4 <= specificityScoreOf a b c <= 10.
Proof. intros [] [] []; vm_compute; split; discriminate. Qed.

Lemma star_score_range : forall answer,
  0 <= star_score (evaluateSTARMethod answer) <= 10.
Proof.
  intros answer. unfold evaluateSTARMethod. cbn [star_score].
  match goal with
  | |- context [len (filter snd ?c)] => set (comps := c)
  end.
  assert (Hc : 0 <= len (filter snd comps) <= 4).
  { pose proof (len_filter_le _ snd comps) as H.
    replace (len comps) with 4 in H; [exact H|].
    unfold comps, len. rewrite length_map. reflexivity. }
  apply between_true. revert Hc.
  generalize (len (filter snd comps)).
  apply (all1_range
           (fun c => between 0 10 (Math_round_Z (Z2F c / 4 * 10)))).
  vm_compute. reflexivity.
Qed.

Lemma overallScoreOf_range : forall l s p t,
  2 <= l <= 9 -> 4 <= s <= 10 -> 4 <= p <= 10 -> 0 <= t <= 10 ->
  3 <= overallScoreOf l s p t <= 10.
Proof.
  intros l s p t Hl Hs Hp Ht. apply between_true.
  revert l s p t Hl Hs Hp Ht.
  apply (all4_range (fun l s p t => between 3 10 (overallScoreOf l s p t))).
  vm_compute. reflexivity.
Qed.

(** The completeness score of any answer lies between 3 and 10. *)
Lemma c_score_range : forall answer,
  3 <= c_score (evaluateCompleteness answer) <= 10.
Proof.
  intros answer. unfold evaluateCompleteness. cbn [c_score].
  match goal with
  | |- _ <= Z.min 10 (overallScoreOf ?l ?s ?p ?t) <= _ =>
      pose proof (overallScoreOf_range l s p t) as H
  end.
  specialize (H (lengthScoreOf_range _) (structureScoreOf_range _)
                (specificityScoreOf_range _ _ _) (star_score_range _)).
  lia.
Qed.

(** The confidence score of any answer lies between 1 and 10. *)
Lemma conf_score_range : forall answer,
  1 <= conf_score (evaluateConfidence answer) <= 10.
Proof.
  intros answer. unfold evaluateConfidence, confidenceScoreOf.
  cbn [conf_score]. lia.
Qed.

Lemma weightedComposite_range : forall a k c f,
  0 <= a <= 10 -> 0 <= k <= 10 -> 0 <= c <= 10 -> 0 <= f <= 10 ->
  0 <= weightedComposite a k c f <= 10.
Proof.
  intros a k c f Ha Hk Hc Hf. apply between_true.
  revert a k c f Ha Hk Hc Hf.
  apply (all4_range (fun a k c f => between 0 10 (weightedComposite a k c f))).
  vm_compute. reflexivity.
Qed.

Lemma score_cases : forall a, 0 <= a <= 10 ->
  a = 0 \/ a = 1 \/ a = 2 \/ a = 3 \/ a = 4 \/ a = 5 \/ a = 6 \/ a = 7
  \/ a = 8 \/ a = 9 \/ a = 10.
Proof. intros a H. lia. Qed.

(** The specification writes [0.35 * ai], the program [ai * 0.35]: the
    product of two binary64 numbers does not depend on their order. *)
Lemma weight_comm : forall a, 0 <= a <= 10 ->
  (0.35 * Z2F a = Z2F a * 0.35
   /\ 0.20 * Z2F a = Z2F a * 0.20
   /\ 0.25 * Z2F a = Z2F a * 0.25)%float.
Proof.
  intros a H.
  destruct (score_cases a H) as [->|[->|[->|[->|[->|[->|[->|[->|[->|[->| ->]]]]]]]]]];
    repeat split; reflexivity.
Qed.

Lemma weightedComposite_spec : forall a k c f,
  0 <= a <= 10 -> 0 <= k <= 10 -> 0 <= c <= 10 -> 0 <= f <= 10 ->
  Spec.composite a k c f = Z.min 10 (weightedComposite a k c f).
Proof.
  intros a k c f Ha Hk Hc Hf.
  pose proof (weightedComposite_range a k c f Ha Hk Hc Hf) as Hw.
  unfold Spec.composite, Spec.clamp.
  replace (Z.max 0 (Z.min 10 a)) with a by lia.
  replace (Z.max 0 (Z.min 10 k)) with k by lia.
  replace (Z.max 0 (Z.min 10 c)) with c by lia.
  replace (Z.max 0 (Z.min 10 f)) with f by lia.
  destruct (weight_comm a Ha) as (-> & _ & _).
  destruct (weight_comm k Hk) as (_ & -> & _).
  destruct (weight_comm c Hc) as (_ & _ & ->).
  destruct (weight_comm f Hf) as (_ & -> & _).
  fold (weightedComposite a k c f). lia.
Qed.

End EvaluationFacts.

Section EvaluationClaims.

Import Evaluation.

(** C1 (counterexample).  An integer AI score outside [0,10] is not
    clamped by [evaluateAnswer], and the composite has no lower clamp:
    for the empty answer and AI score -10 the composite is -1, while the
    formula of the specification, which clamps, gives 2; for AI score 100
    the composite is 10, while the formula gives 6. *)
Lemma evaluateAnswer_composite_below_zero :
  compositeScore (evaluateAnswer "" "" (-10)) = -1
  /\ Spec.composite (-10) 0 3 7 = 2
  /\ compositeScore (evaluateAnswer "" "" 100) = 10
  /\ Spec.composite 100 0 3 7 = 6
  /\ ~ (forall answer question aiScore,
          0 <= compositeScore (evaluateAnswer answer question aiScore) <= 10).
Proof.
  do 4 (split; [vm_compute; reflexivity|]).
  intros H. specialize (H "" "" (-10)).
  assert (E : compositeScore (evaluateAnswer "" "" (-10)) = -1)
    by (vm_compute; reflexivity).
  rewrite E in H. lia.
Qed.

(** C1 (amended).  For every answer, every question and every integer AI
    score between 0 and 10, [evaluateAnswer] returns the rounded weighted
    sum of the four dimension scores capped at 10; the three computed
    dimension scores lie in [0,10]; so the result is the composite of the
    specification (all clamps being vacuous) and lies in [0,10]. *)
Theorem evaluateAnswer_composite :
  forall (answer question : string) (aiScore : Z),
    0 <= aiScore <= 10 ->
    let e := evaluateAnswer answer question aiScore in
    let k := kw_score (keywordCoverage e) in
    let c := c_score (completeness e) in
    let f := conf_score (confidence e) in
    aiJudgment e = aiScore
    /\ 0 <= k <= 10 /\ 0 <= c <= 10 /\ 0 <= f <= 10
    /\ compositeScore e
       = Z.min 10
           (Math_round_Z
              (Z2F aiScore * 0.35 + Z2F k * 0.20 + Z2F c * 0.25
               + Z2F f * 0.20))
    /\ compositeScore e = Spec.composite aiScore k c f
    /\ 0 <= compositeScore e <= 10.
Proof.
  intros answer question aiScore Ha e k c f.
  assert (Hk : 0 <= k <= 10) by apply kw_score_range.
  assert (Hc : 0 <= c <= 10)
    by (pose proof (c_score_range answer); unfold c, e; cbn [completeness evaluateAnswer]; lia).
  assert (Hf : 0 <= f <= 10)
    by (pose proof (conf_score_range answer); unfold f, e; cbn [confidence evaluateAnswer]; lia).
  assert (E : compositeScore e = Z.min 10 (weightedComposite aiScore k c f))
    by reflexivity.
  pose proof (weightedComposite_range aiScore k c f Ha Hk Hc Hf) as Hw.
  repeat split; try lia; try reflexivity.
  - rewrite E. symmetry. apply weightedComposite_spec; assumption.
Qed.

Lemma evaluateAnswer_composite_witness :
  0 <= 7 <= 10
  /\ compositeScore
       (evaluateAnswer "I built a cache. It reduced load by 40 percent."
          "How do you handle scalability?" 7) = 5.
Proof.
  split; [lia|].
  destruct (evaluateAnswer_composite
              "I built a cache. It reduced load by 40 percent."
              "How do you handle scalability?" 7 ltac:(lia))
    as (_ & _ & _ & _ & E & _).
  rewrite E. vm_compute. reflexivity.
Defined.

Lemma allKeywords_nonEmpty : forall kw, In kw allKeywords -> includes kw "" = false.
Proof.
  assert (H : forallb (fun kw => negb (includes kw "")) allKeywords = true)
    by (vm_compute; reflexivity).
  rewrite forallb_forall in H. intros kw Hk.
  specialize (H kw Hk). now destruct (includes kw "").
Qed.

Lemma filter_none : forall A (f : A -> bool) l,
  (forall x, In x l -> f x = false) -> filter f l = [].
Proof.
  induction l as [|a l IH]; intros H; simpl; [reflexivity|].
  rewrite (H a (or_introl eq_refl)). apply IH.
  intros x Hx. apply H. now right.
Qed.

Lemma coverage_of_empty_answer : forall question,
  kw_score (evaluateKeywordCoverage "" question) = 0.
Proof.
  intros question. unfold evaluateKeywordCoverage. cbn [kw_score].
  set (ts := detectRelevantTopics (toLowerCase question)).
  change (toLowerCase "") with "".
  rewrite filter_none.
  - pose proof (relevantKeywords_length ts) as Hr.
    rewrite coverageScoreOf_cap by lia.
    assert (Hd : 0 <= Z.min (len (relevantKeywordsOf ts)) 8 <= 8) by lia.
    apply Z.eqb_eq. revert Hd.
    generalize (Z.min (len (relevantKeywordsOf ts)) 8).
    apply (all1_range (fun t => coverageScoreOf (len (@nil string)) t =? 0)).
    vm_compute. reflexivity.
  - intros kw Hk. apply allKeywords_nonEmpty.
    eapply relevantKeywords_incl; eauto.
Qed.

(** C3 (counterexample).  The completeness score of the empty answer is
    3, not at most 2, and the composite with AI score 0 is 2, not 1. *)
Lemma empty_answer_not_documented_floor :
  ~ (c_score (completeness (evaluateAnswer "" "" 0)) <= 2)
  /\ compositeScore (evaluateAnswer "" "" 0) <> 1.
Proof.
  split; vm_compute; intros H; [apply H; reflexivity|discriminate].
Qed.

(** C3 (amended).  Whatever the question, the empty answer with AI score
    0 has keyword coverage 0, completeness 3 (length 2, structure 4,
    specificity 4, STAR 0: round(0.6 + 1 + 1 + 0) = 3), confidence 7 and
    composite round(0.25 * 3 + 0.20 * 7) = round(2.15) = 2. *)
Theorem empty_answer_scores : forall question,
  let e := evaluateAnswer "" question 0 in
  kw_score (keywordCoverage e) = 0
  /\ c_score (completeness e) = 3
  /\ conf_score (confidence e) = 7
  /\ compositeScore e = 2
  /\ compositeScore e
     = Math_round_Z (Z2F 3 * 0.25 + Z2F 7 * 0.20).
Proof.
  intros question e.
  assert (Hk : kw_score (keywordCoverage e) = 0)
    by apply coverage_of_empty_answer.
  assert (Hc : c_score (completeness e) = 3) by (vm_compute; reflexivity).
  assert (Hf : conf_score (confidence e) = 7) by (vm_compute; reflexivity).
  assert (E : compositeScore e
              = Z.min 10 (weightedComposite 0 (kw_score (keywordCoverage e))
                            (c_score (completeness e))
                            (conf_score (confidence e))))
    by reflexivity.
  rewrite Hk, Hc, Hf in E.
  repeat split; try assumption; rewrite E; vm_compute; reflexivity.
Qed.

End EvaluationClaims.

(* ------------------------------------------------------------------ *)
(** ** Adaptive difficulty *)

Section AdaptiveFacts.

Import Adaptive.

(** No number is both at least 8 and at most 4. *)
Lemma geb_8_not_leb_4 : forall a : float,
  geb a 8 = true -> (a <=? 4)%float = false.
Proof.
  intros a. unfold geb. rewrite !leb_spec.
  change (Prim2SF 8) with (S754_finite false 4503599627370496 (-49)).
  change (Prim2SF 4) with (S754_finite false 4503599627370496 (-50)).
  destruct (Prim2SF a) as [s|s| |s m e]; try destruct s;
    cbv [SFleb SFcompare]; try congruence.
  destruct (Z.compare_spec (-49) e), (Z.compare_spec e (-50));
    try lia; congruence.
Qed.

Lemma levelConfig_some : forall level config,
  levelConfig level = Some config -> In level [1; 2; 3].
Proof.
  intros level config. unfold levelConfig, levelConfig', DIFFICULTY_LEVELS.
  destruct (Z.eqb_spec level 1); [subst; simpl; auto|].
  destruct (Z.eqb_spec level 2); [subst; simpl; auto|].
  destruct (Z.eqb_spec level 3); [subst; simpl; auto|].
  discriminate.
Qed.

Lemma recordScore_nextLevel : forall m score,
  In (currentLevel m) [1; 2; 3] ->
  let history := scoreHistory m ++ [score] in
  let level' :=
    Spec.nextLevel (currentLevel m) (2 <=? len history)
      (rollingAverage (windowSize m) history) in
  exists entry,
    recordScore m score
    = ({| currentLevel := level';
          windowSize := windowSize m;
          scoreHistory := history;
          levelHistory := levelHistory m ++ [level'];
          questionIndex := questionIndex m;
          followUpPending := followUpPending m;
          followUpContext := followUpContext m;
          adaptationLog := adaptationLog m ++ [entry] |}, Some entry)
    /\ previousLevel entry = currentLevel m
    /\ newLevel entry = level'
    /\ e_score entry = score.
Proof.
  intros m score Hl history level'. unfold recordScore.
  fold history. unfold level', Spec.nextLevel.
  destruct (2 <=? len history).
  - destruct Hl as [H|[H|[H|[]]]]; rewrite <- H;
      eexists; (split; [reflexivity|]); repeat split.
  - eexists. split; [reflexivity|]. repeat split.
Qed.

Lemma nextLevel_level : forall level enough avg,
  In level [1; 2; 3] -> In (Spec.nextLevel level enough avg) [1; 2; 3].
Proof.
  intros level enough avg H. unfold Spec.nextLevel.
  destruct H as [H|[H|[H|[]]]]; subst level; destruct enough; simpl;
    repeat match goal with |- context [if ?c then _ else _] => destruct c end;
    auto.
Qed.

Lemma recordScore_fields : forall m score,
  In (currentLevel m) [1; 2; 3] ->
  let m' := fst (recordScore m score) in
  In (currentLevel m') [1; 2; 3]
  /\ windowSize m' = windowSize m
  /\ scoreHistory m' = scoreHistory m ++ [score]
  /\ levelHistory m' = levelHistory m ++ [currentLevel m'].
Proof.
  intros m score Hl.
  destruct (recordScore_nextLevel m score Hl) as (entry & E & _).
  cbv zeta. rewrite E. cbn [fst currentLevel windowSize scoreHistory levelHistory].
  repeat split. apply nextLevel_level, Hl.
Qed.

Lemma run_recordScores : forall scores m,
  In (currentLevel m) [1; 2; 3] ->
  let m' := run m (map OpRecordScore scores) in
  In (currentLevel m') [1; 2; 3]
  /\ windowSize m' = windowSize m
  /\ scoreHistory m' = scoreHistory m ++ scores.
Proof.
  induction scores as [|s scores IH]; intros m Hl.
  - cbn. rewrite app_nil_r. auto.
  - cbn [map run fold_left step].
    destruct (recordScore_fields m s Hl) as (H1 & H2 & H3 & _).
    specialize (IH (fst (recordScore m s)) H1).
    cbv zeta in IH. unfold run in IH.
    destruct IH as (I1 & I2 & I3).
    repeat split; [assumption|congruence|].
    rewrite I3, H3, <- app_assoc. reflexivity.
Qed.

(** The scores [recordScore] averages are the last [windowSize] ones (all
    of them while there are fewer). *)
Lemma recentScores_suffix : forall window history,
  0 < window ->
  exists older,
    history = older ++ recentScores window history
    /\ len (recentScores window history) = Z.min window (len history).
Proof.
  intros window history Hw. unfold recentScores, slice_from.
  destruct (Z.ltb_spec (- window) 0); [|lia].
  set (k := Z.to_nat (Z.max (len history + - window) 0)).
  exists (firstn k history). split.
  - symmetry. apply firstn_skipn.
  - unfold len in *. rewrite length_skipn. unfold k. lia.
Qed.

Lemma fold_add_bounds : forall l acc,
  Forall (fun s => 0 <= s <= 10) l ->
  acc <= fold_left Z.add l acc <= acc + 10 * len l.
Proof.
  induction l as [|x l IH]; intros acc H; unfold len in *; cbn [fold_left].
  - cbn. lia.
  - inversion H as [|? ? Hx Hl]; subst.
    specialize (IH (acc + x) Hl). cbn [List.length]. lia.
Qed.

(** With scores in [0,10] and a window of at most 10 scores, comparing
    the binary64 average with a threshold is comparing the sum of the
    recent scores with the threshold times their number. *)
Lemma rollingAverage_exact : forall window history,
  1 <= window <= 10 -> history <> [] ->
  Forall (fun s => 0 <= s <= 10) history ->
  let recent := recentScores window history in
  let avg := rollingAverage window history in
  geb avg 7 = (7 * len recent <=? sumZ recent)
  /\ geb avg 8 = (8 * len recent <=? sumZ recent)
  /\ (avg <=? 4)%float = (sumZ recent <=? 4 * len recent)
  /\ (avg <=? 5)%float = (sumZ recent <=? 5 * len recent).
Proof.
  intros window history Hw Hne Hall recent avg.
  destruct (recentScores_suffix window history ltac:(lia)) as (older & E & L).
  fold recent in E, L.
  assert (Hr : Forall (fun s => 0 <= s <= 10) recent).
  { rewrite E in Hall. apply Forall_app in Hall. tauto. }
  pose proof (fold_add_bounds recent 0 Hr) as Hs. fold (sumZ recent) in Hs.
  assert (Hn : 1 <= len recent <= 10).
  { rewrite L. unfold len. destruct history; [congruence|].
    cbn [List.length]. lia. }
  assert (A : averageAgrees (sumZ recent) (len recent) = true).
  { apply (all2_range averageAgrees 0 100 1 10); [|lia|lia].
    vm_compute. reflexivity. }
  unfold averageAgrees in A. fold (rollingAverage window history) in A.
  change (Z2F (sumZ recent) / Z2F (len recent))%float with avg in A.
  rewrite !andb_true_iff in A. destruct A as [[[A1 A2] A3] A4].
  apply eqb_prop in A1, A2, A3, A4. auto.
Qed.

End AdaptiveFacts.

Section AdaptiveClaims.

Import Adaptive.

(** C2.  Start at a level in {1,2,3} with any window size, record any
    sequence of integer scores (in particular scores in [0,10]) and then
    one more.  Before and after that call the level is in {1,2,3}; it
    moves by at most 1; it moves only if at least 2 scores are then
    recorded; and the move is decided by the average of the recent
    scores: from Easy up iff avg >= 7 and never down, from Medium up iff
    avg >= 8 and down iff avg <= 4, from Hard down iff avg <= 5 and never
    up.  For a positive window size the recent scores are the last
    [windowSize] recorded ones (all of them while there are fewer), and
    the default window size is 3.  The average is the binary64 quotient
    the program computes; for scores in [0,10] and a window of at most 10
    its comparisons with the thresholds are those of the exact
    average. *)
Theorem recordScore_level_rule :
  forall (startLevel : Z) (window : option Z) (scores : list Z) (score : Z),
    In startLevel [1; 2; 3] ->
    let m := run (create (Some startLevel) window) (map OpRecordScore scores) in
    let m' := fst (recordScore m score) in
    let level := currentLevel m in
    let level' := currentLevel m' in
    let recent := recentScores (windowSize m) (scoreHistory m') in
    let avg := rollingAverage (windowSize m) (scoreHistory m') in
    let enough := 2 <=? len (scoreHistory m') in
    (In level [1; 2; 3] /\ In level' [1; 2; 3])
    /\ scoreHistory m' = scores ++ [score]
    /\ windowSize m = orDefault window 3
    /\ Z.abs (level' - level) <= 1
    /\ (level' <> level -> 2 <= len (scoreHistory m'))
    /\ (level = 1 ->
        (level' = 2 <-> enough = true /\ geb avg 7 = true)
        /\ level <= level')
    /\ (level = 2 ->
        (level' = 3 <-> enough = true /\ geb avg 8 = true)
        /\ (level' = 1 <-> enough = true /\ (avg <=? 4)%float = true))
    /\ (level = 3 ->
        (level' = 2 <-> enough = true /\ (avg <=? 5)%float = true)
        /\ level' <= level)
    /\ (0 < windowSize m ->
        exists older,
          scoreHistory m' = older ++ recent
          /\ len recent = Z.min (windowSize m) (len (scoreHistory m')))
    /\ (1 <= windowSize m <= 10 ->
        Forall (fun s => 0 <= s <= 10) (scores ++ [score]) ->
        geb avg 7 = (7 * len recent <=? sumZ recent)
        /\ geb avg 8 = (8 * len recent <=? sumZ recent)
        /\ (avg <=? 4)%float = (sumZ recent <=? 4 * len recent)
        /\ (avg <=? 5)%float = (sumZ recent <=? 5 * len recent)).
Proof.
  intros startLevel window scores score HL m m' level level' recent avg enough.
  assert (H0 : In (currentLevel (create (Some startLevel) window)) [1; 2; 3]).
  { unfold create, orDefault. cbn [currentLevel].
    destruct HL as [H|[H|[H|[]]]]; subst startLevel; simpl; auto. }
  destruct (run_recordScores scores _ H0) as (Hl & Hw & Hs). fold m in Hl, Hw, Hs.
  cbn [create scoreHistory windowSize app] in Hw, Hs.
  destruct (recordScore_nextLevel m score Hl) as (entry & E & _).
  assert (Hh : scoreHistory m' = scoreHistory m ++ [score])
    by (unfold m'; rewrite E; reflexivity).
  assert (Hd : level' = Spec.nextLevel level enough avg).
  { unfold level', m', enough, avg, m'. rewrite E. reflexivity. }
  assert (Hl' : In level' [1; 2; 3]) by (rewrite Hd; apply nextLevel_level, Hl).
  split; [split; assumption|].
  split; [rewrite Hh, Hs; reflexivity|].
  split; [assumption|].
  assert (Hrecent :
            (0 < windowSize m ->
             exists older,
               scoreHistory m' = older ++ recent
               /\ len recent = Z.min (windowSize m) (len (scoreHistory m')))
            /\ (1 <= windowSize m <= 10 ->
                Forall (fun s => 0 <= s <= 10) (scores ++ [score]) ->
                geb avg 7 = (7 * len recent <=? sumZ recent)
                /\ geb avg 8 = (8 * len recent <=? sumZ recent)
                /\ (avg <=? 4)%float = (sumZ recent <=? 4 * len recent)
                /\ (avg <=? 5)%float = (sumZ recent <=? 5 * len recent))).
  { split.
    - intros Hpos. apply recentScores_suffix, Hpos.
    - intros Hwin Hall. unfold avg, recent.
      apply rollingAverage_exact; [assumption| |].
      + rewrite Hh. destruct (scoreHistory m); discriminate.
      + rewrite Hh, Hs. exact Hall. }
  cut (Z.abs (level' - level) <= 1
       /\ (level' <> level -> 2 <= len (scoreHistory m'))
       /\ (level = 1 ->
           (level' = 2 <-> enough = true /\ geb avg 7 = true)
           /\ level <= level')
       /\ (level = 2 ->
           (level' = 3 <-> enough = true /\ geb avg 8 = true)
           /\ (level' = 1 <-> enough = true /\ (avg <=? 4)%float = true))
       /\ (level = 3 ->
           (level' = 2 <-> enough = true /\ (avg <=? 5)%float = true)
           /\ level' <= level)); [tauto|].
  clear Hrecent.
  assert (He : enough = true -> 2 <= len (scoreHistory m'))
    by (unfold enough; lia).
  change (In level [1; 2; 3]) in Hl.
  clear E Hh. clearbody level level' avg enough.
  unfold Spec.nextLevel in Hd.
  destruct Hl as [H|[H|[H|[]]]]; rewrite <- H in *; cbn [Z.eqb Pos.eqb] in Hd.
  - (* Easy *)
    destruct enough, (geb avg 7) eqn:G; subst level'; settle.
  - (* Medium *)
    destruct enough; [|subst level'; settle].
    destruct (geb avg 8) eqn:G.
    + pose proof (geb_8_not_leb_4 avg G) as G4. subst level'. settle.
    + destruct (avg <=? 4)%float eqn:G4; subst level'; settle.
  - (* Hard *)
    destruct enough, (avg <=? 5)%float eqn:G; subst level'; settle.
Qed.

Lemma recordScore_level_rule_witness :
  In 2 [1; 2; 3]
  /\ currentLevel
       (fst (recordScore
               (run (create (Some 2) None) (map OpRecordScore [6; 6])) 0)) = 1.
Proof.
  split; [simpl; auto|].
  pose proof (recordScore_level_rule 2 None [6; 6] 0
                (or_intror (or_introl eq_refl))) as H.
  cbv zeta in H.
  destruct H as (_ & _ & _ & _ & _ & _ & H & _).
  destruct (H ltac:(vm_compute; reflexivity)) as [_ Hdown].
  apply Hdown. split; vm_compute; reflexivity.
Defined.

(** C6.  [shouldFollowUp] in its three cases.  With no follow-up pending
    and a score in [3,6] it triggers one, for the reason
    "incomplete_answer" when the score is at most 4 and "can_elaborate"
    otherwise.  Else, with a score of at least 8, a question index that is
    a multiple of 3 and none pending, it triggers a "probe_deeper" one.
    In every other case it clears the pending flag and its context.  The
    manager holds one flag and one context, the flag is set exactly when
    the call triggers, and a call made while a follow-up is pending
    clears it instead of adding another; nothing else changes. *)
Theorem shouldFollowUp_cases :
  forall (m : Manager) (score : Z) (question answer : string),
    let m' := fst (shouldFollowUp m score question answer) in
    let r := snd (shouldFollowUp m score question answer) in
    let vague := followUpPending m = false /\ 3 <= score <= 6 in
    let excellent :=
      8 <= score /\ Z.rem (questionIndex m) 3 = 0
      /\ followUpPending m = false in
    let ctx :=
      Some {| fu_question := question; fu_answer := answer;
              fu_score := score |} in
    (vague ->
     shouldFollowUp_ r = true
     /\ reason r
        = Some (if score <=? 4 then incomplete_answer else can_elaborate)
     /\ prompt r = Some (_generateFollowUpPrompt score question answer)
     /\ followUpPending m' = true /\ followUpContext m' = ctx)
    /\ (~ vague -> excellent ->
        shouldFollowUp_ r = true /\ reason r = Some probe_deeper
        /\ followUpPending m' = true /\ followUpContext m' = ctx)
    /\ (~ vague -> ~ excellent ->
        shouldFollowUp_ r = false /\ reason r = None /\ prompt r = None
        /\ followUpPending m' = false /\ followUpContext m' = None)
    /\ followUpPending m' = shouldFollowUp_ r
    /\ (followUpPending m = true -> followUpPending m' = false)
    /\ m' = setFollowUp m (followUpPending m') (followUpContext m').
Proof.
  intros m score question answer. cbv zeta. unfold shouldFollowUp.
  destruct (Z.leb_spec 3 score), (Z.leb_spec score 6),
    (followUpPending m) eqn:P; cbn [andb negb fst snd];
    try (destruct (Z.leb_spec 8 score),
           (Z.eqb_spec (Z.rem (questionIndex m) 3) 0);
         cbn [andb negb fst snd]);
    cbn [shouldFollowUp_ reason prompt followUpPending followUpContext
         setFollowUp];
    repeat split; intros;
    repeat match goal with
           | H : _ /\ _ |- _ => destruct H
           | H : ~ _ |- _ => try (exfalso; apply H; repeat split; lia)
           end;
    try lia; try congruence; try reflexivity.
Qed.

Lemma shouldFollowUp_cases_witness :
  reason (snd (shouldFollowUp (create None None) 4 "Why?" "Because."))
  = Some incomplete_answer
  /\ reason (snd (shouldFollowUp (create None None) 9 "Why?" "Because."))
     = Some probe_deeper.
Proof.
  pose proof (shouldFollowUp_cases (create None None) 4 "Why?" "Because.") as H4.
  pose proof (shouldFollowUp_cases (create None None) 9 "Why?" "Because.") as H9.
  cbv zeta in H4, H9.
  destruct H4 as (H4 & _). destruct H9 as (_ & H9 & _).
  split.
  - apply H4. split; [reflexivity|lia].
  - apply H9.
    + intros [_ ?]. lia.
    + repeat split. lia.
Defined.

Lemma step_wellFormed : forall startLevel m o,
  Spec.wellFormed startLevel m -> Spec.wellFormed startLevel (step m o).
Proof.
  intros startLevel m o (Hl & Hn & Hh & Ht). destruct o as [score|score q a|];
    cbn [step].
  - destruct (recordScore_fields m score Hl) as (H1 & _ & H3 & H4).
    cbv zeta in H1, H3, H4. unfold Spec.wellFormed.
    rewrite H3, H4. unfold len in *. rewrite !length_app, last_last.
    cbn [List.length]. repeat split; try assumption; try lia.
    destruct (levelHistory m); [discriminate|exact Hh].
  - unfold shouldFollowUp, Spec.wellFormed.
    repeat match goal with |- context [if ?c then _ else _] => destruct c end;
      cbn [fst setFollowUp currentLevel levelHistory scoreHistory]; auto.
  - unfold getNextQuestionConfig, Spec.wellFormed.
    destruct (followUpPending m), (followUpContext m),
      (levelConfig (currentLevel m));
      cbn [fst setFollowUp currentLevel levelHistory scoreHistory]; auto.
Qed.

Lemma run_wellFormed : forall startLevel ops m,
  Spec.wellFormed startLevel m -> Spec.wellFormed startLevel (run m ops).
Proof.
  induction ops as [|o ops IH]; intros m H; [exact H|].
  apply (IH (step m o)), step_wellFormed, H.
Qed.

(** C10.  A manager built with a start level L in {1,2,3} and driven by
    any sequence of [recordScore], [shouldFollowUp] and
    [getNextQuestionConfig] calls has a level history one longer than its
    score history, beginning with L and ending with the current level
    (which stays in {1,2,3}).  So the report's start level is L, its end
    level is the last entry of the history, and its trajectory label
    compares L with the current level. *)
Theorem levelHistory_wellFormed :
  forall (startLevel : Z) (window : option Z) (ops : list Op),
    In startLevel [1; 2; 3] ->
    let m := run (create (Some startLevel) window) ops in
    let p := Feedback.difficultyProgression m in
    len (levelHistory m) = len (scoreHistory m) + 1
    /\ hd_error (levelHistory m) = Some startLevel
    /\ List.last (levelHistory m) 0 = currentLevel m
    /\ In (currentLevel m) [1; 2; 3]
    /\ Feedback.startLevel p = startLevel
    /\ Feedback.endLevel p = List.last (levelHistory m) 0
    /\ Feedback.trajectory p
       = (if startLevel <? currentLevel m then Feedback.ascending
          else if currentLevel m <? startLevel then Feedback.descending
          else Feedback.stable).
Proof.
  intros startLevel window ops HL m p.
  assert (H0 : Spec.wellFormed startLevel (create (Some startLevel) window)).
  { unfold Spec.wellFormed, create, orDefault.
    cbn [currentLevel levelHistory scoreHistory].
    destruct HL as [H|[H|[H|[]]]]; subst startLevel; cbn; auto 10. }
  destruct (run_wellFormed startLevel ops _ H0) as (Hl & Hn & Hh & Ht).
  fold m in Hl, Hn, Hh, Ht.
  repeat split; try assumption.
  - unfold p, Feedback.difficultyProgression. cbn [Feedback.startLevel].
    destruct (levelHistory m) as [|x l]; [discriminate|].
    cbn [nth_error]. cbn in Hh. injection Hh as ->.
    unfold orDefault.
    destruct HL as [H|[H|[H|[]]]]; subst startLevel; reflexivity.
  - unfold p, Feedback.difficultyProgression. cbn [Feedback.endLevel].
    symmetry. exact Ht.
  - unfold p, Feedback.difficultyProgression, Feedback.getTrajectory.
    cbn [Feedback.trajectory]. rewrite Ht.
    destruct (levelHistory m) as [|x l] eqn:E; [discriminate|].
    cbn in Hh. injection Hh as ->. cbn [nth].
    destruct (Z.ltb_spec (len (startLevel :: l)) 2) as [Hs|Hs];
      [|reflexivity].
    unfold len in Hs. cbn [List.length] in Hs.
    destruct l; [|cbn [List.length] in Hs; lia].
    cbn in Ht. rewrite <- Ht, Z.ltb_irrefl. reflexivity.
Qed.

Lemma levelHistory_wellFormed_witness :
  In 1 [1; 2; 3]
  /\ hd_error [1; 1; 2] = Some 1
  /\ List.last [1; 1; 2] 0
     = currentLevel
         (run (create (Some 1) None)
            [OpGetNextQuestionConfig; OpRecordScore 8;
             OpShouldFollowUp 8 "Why?" "Because."; OpGetNextQuestionConfig;
             OpRecordScore 9]).
Proof.
  split; [simpl; auto|].
  pose proof (levelHistory_wellFormed 1 None
                [OpGetNextQuestionConfig; OpRecordScore 8;
                 OpShouldFollowUp 8 "Why?" "Because.";
                 OpGetNextQuestionConfig; OpRecordScore 9]
                (or_introl eq_refl)) as H.
  cbv zeta in H. destruct H as (_ & Hh & Ht & _).
  assert (E : levelHistory
                (run (create (Some 1) None)
                   [OpGetNextQuestionConfig; OpRecordScore 8;
                    OpShouldFollowUp 8 "Why?" "Because.";
                    OpGetNextQuestionConfig; OpRecordScore 9]) = [1; 1; 2])
    by (vm_compute; reflexivity).
  rewrite E in Hh, Ht. split; assumption.
Defined.

End AdaptiveClaims.

(* ------------------------------------------------------------------ *)
(** ** Anti-cheat monitor *)

Section AntiCheatFacts.

Import AntiCheat.

Lemma pointsOf_from : forall l acc,
  fold_left (fun sum f => sum + points f) l acc = acc + pointsOf l.
Proof.
  unfold pointsOf. induction l as [|f l IH]; intros acc; cbn [fold_left].
  - lia.
  - rewrite IH, (IH (0 + points f)). lia.
Qed.

Lemma pointsOf_app : forall l1 l2,
  pointsOf (l1 ++ l2) = pointsOf l1 + pointsOf l2.
Proof.
  intros l1 l2. unfold pointsOf at 1. rewrite fold_left_app.
  fold (pointsOf l1). apply pointsOf_from.
Qed.

(** The points of an answer are the sum of the points of its flags. *)
Lemma pointsOf_sum : forall l,
  pointsOf l = fold_right Z.add 0 (map points l).
Proof.
  induction l as [|f l IH]; [reflexivity|].
  change (f :: l) with ([f] ++ l). rewrite pointsOf_app, IH. reflexivity.
Qed.

(** Every check raises no flag or one flag of its own kind and value. *)
Lemma check1_cases : forall t w,
  check1 t w = []
  \/ check1 t w = [{| type := fast_response; severity := medium; points := 15 |}].
Proof.
  intros [t|] w; unfold check1; [|auto].
  destruct ((t <? MIN_RESPONSE_TIME_SEC)%float && (20 <? w)); auto.
Qed.

Lemma check2_cases : forall t w,
  check2 t w = []
  \/ check2 t w = [{| type := high_wpm; severity := high; points := 25 |}].
Proof.
  intros [t|] w; unfold check2; [|auto].
  destruct (truthy t && (0 <? t)%float); [|auto].
  destruct ((MAX_NATURAL_WPM <? Z2F w / t * 60)%float && (15 <? w)); auto.
Qed.

Lemma check3_cases : forall l w,
  check3 l w = []
  \/ check3 l w = [{| type := length_spike; severity := medium; points := 15 |}].
Proof.
  intros l w. unfold check3.
  destruct (MIN_ANSWERS_FOR_ANALYSIS <=? len l); [|auto].
  match goal with |- context [if ?c then _ else _] => destruct c end; auto.
Qed.

Lemma check4_cases : forall l c,
  check4 l c = []
  \/ check4 l c = [{| type := complexity_spike; severity := low; points := 10 |}].
Proof.
  intros l c. unfold check4.
  destruct (MIN_ANSWERS_FOR_ANALYSIS <=? len l); [|auto].
  match goal with |- context [if ?c then _ else _] => destruct c end; auto.
Qed.

Lemma check5_cases : forall t s w,
  check5 t s w = []
  \/ check5 t s w
     = [{| type := score_timing_mismatch; severity := high; points := 20 |}].
Proof.
  intros [t|] s w; unfold check5; [|auto].
  destruct ((t <? 5)%float && (9 <=? s) && (30 <? w)); auto.
Qed.

Lemma check6_cases : forall a,
  check6 a = []
  \/ check6 a = [{| type := repetitive_pattern; severity := low; points := 5 |}].
Proof.
  intros a. unfold check6.
  destruct (2 <? len (detectRepetitivePatterns a)); auto.
Qed.

(** The points of one answer are a multiple of 5 between 0 and 90. *)
Lemma answer_points : forall t w l1 l2 c s a,
  exists q,
    0 <= q <= 18
    /\ pointsOf (check1 t w ++ check2 t w ++ check3 l1 w ++ check4 l2 c
                 ++ check5 t s w ++ check6 a) = 5 * q.
Proof.
  intros t w l1 l2 c s a. rewrite !pointsOf_app.
  destruct (check1_cases t w) as [-> | ->], (check2_cases t w) as [-> | ->],
    (check3_cases l1 w) as [-> | ->], (check4_cases l2 c) as [-> | ->],
    (check5_cases t s w) as [-> | ->], (check6_cases a) as [-> | ->];
    cbn [pointsOf fold_left points];
    match goal with
    | |- exists q, _ /\ ?n = _ => exists (n / 5); cbn; lia
    end.
Qed.

Lemma decay_range : forall previous q,
  0 <= previous <= 100 -> 0 <= q <= 18 ->
  0 <= decay previous (5 * q) <= 100
  /\ decay previous (5 * q) = Spec.suspicion previous (5 * q).
Proof.
  intros previous q Hp Hq.
  assert (H : decayChecked previous q = true).
  { apply (all2_range decayChecked 0 100 0 18); [|lia|lia].
    vm_compute. reflexivity. }
  unfold decayChecked in H. apply andb_true_iff in H. destruct H as [H1 H2].
  apply between_true in H1. apply Z.eqb_eq in H2. auto.
Qed.

(** Binary64 and decimal arithmetic part ways on a few ties: 45 * 0.7 is
    31.499999999999996 as a binary64 number, so the score 45 decays to
    31, where rounding the decimal 31.5 would give 32. *)
Remark decay_of_45 : decay 45 0 = 31 /\ (7 * 45 + 3 * 0 + 5) / 10 = 32.
Proof. split; vm_compute; reflexivity. Qed.

Remark composite_of_3_4_5_2 :
  Evaluation.weightedComposite 3 4 5 2 = 3
  /\ (35 * 3 + 20 * 4 + 25 * 5 + 20 * 2 + 50) / 100 = 4.
Proof. split; vm_compute; reflexivity. Qed.

End AntiCheatFacts.

Section AntiCheatClaims.

Import AntiCheat Session.

(** What one call of [analyzeAnswer] does, in terms of the six checks. *)
Lemma analyzeAnswer_shape : forall m now answer score,
  let m' := fst (analyzeAnswer m now answer score) in
  let r := snd (analyzeAnswer m now answer score) in
  exists t w c,
    let fl :=
      check1 t w ++ check2 t w ++ check3 (responseLengths m') w
      ++ check4 (vocabularyComplexities m') c ++ check5 t score w
      ++ check6 answer in
    t = responseTime (lastQuestionTime m) now
    /\ w = m_wordCount (metrics r)
    /\ responseLengths m' = responseLengths m ++ [w]
    /\ vocabularyComplexities m' = vocabularyComplexities m ++ [c]
    /\ responseTimings m'
       = match t with
         | Some s => responseTimings m ++ [s]
         | None => responseTimings m
         end
    /\ lastQuestionTime m' = lastQuestionTime m
    /\ a_flags r = fl
    /\ flags m' = flags m ++ fl
    /\ answerSuspicionPoints r = pointsOf fl
    /\ overallSuspicionScore m'
       = decay (overallSuspicionScore m) (pointsOf fl)
    /\ a_overallSuspicionScore r = overallSuspicionScore m'
    /\ (t = None -> m_responseTimeSec (metrics r) = None).
Proof.
  intros m now answer score. cbv zeta. unfold analyzeAnswer.
  cbn [fst snd responseLengths vocabularyComplexities responseTimings
       lastQuestionTime a_flags flags answerSuspicionPoints
       overallSuspicionScore a_overallSuspicionScore metrics m_wordCount
       m_responseTimeSec].
  do 3 eexists. repeat split; try reflexivity.
  intros ->. reflexivity.
Qed.

(** C4.  One call of [analyzeAnswer] on a monitor whose suspicion score
    is an integer in [0,100] sets the score to
    round(prev * 0.7 + points * 0.3) clamped to [0,100], the products and
    the sum being binary64 ones, where [points] is the sum of the point
    values of the flags the call raised; the new score is again in
    [0,100].  Hence the score of a monitor that starts at 0 stays in
    [0,100] through any sequence of operations. *)
Theorem analyzeAnswer_suspicion :
  (forall (m : Monitor) (now : Z) (answer : string) (score : Z),
      0 <= overallSuspicionScore m <= 100 ->
      let m' := fst (analyzeAnswer m now answer score) in
      let r := snd (analyzeAnswer m now answer score) in
      let currentAnswerPoints := fold_right Z.add 0 (map points (a_flags r)) in
      answerSuspicionPoints r = currentAnswerPoints
      /\ flags m' = flags m ++ a_flags r
      /\ overallSuspicionScore m'
         = Spec.suspicion (overallSuspicionScore m) currentAnswerPoints
      /\ overallSuspicionScore m'
         = Z.min 100
             (Math_round_Z
                (Z2F (overallSuspicionScore m) * 0.7
                 + Z2F currentAnswerPoints * 0.3))
      /\ a_overallSuspicionScore r = overallSuspicionScore m'
      /\ 0 <= overallSuspicionScore m' <= 100)
  /\ (forall ops : list MonitorOp,
         0 <= overallSuspicionScore (monitorRun create ops) <= 100).
Proof.
  assert (Step : forall m now answer score,
             0 <= overallSuspicionScore m <= 100 ->
             let m' := fst (analyzeAnswer m now answer score) in
             let r := snd (analyzeAnswer m now answer score) in
             let currentAnswerPoints :=
               fold_right Z.add 0 (map points (a_flags r)) in
             answerSuspicionPoints r = currentAnswerPoints
             /\ flags m' = flags m ++ a_flags r
             /\ overallSuspicionScore m'
                = Spec.suspicion (overallSuspicionScore m) currentAnswerPoints
             /\ overallSuspicionScore m'
                = Z.min 100
                    (Math_round_Z
                       (Z2F (overallSuspicionScore m) * 0.7
                        + Z2F currentAnswerPoints * 0.3))
             /\ a_overallSuspicionScore r = overallSuspicionScore m'
             /\ 0 <= overallSuspicionScore m' <= 100).
  { intros m now answer score Hp m' r pts.
    destruct (analyzeAnswer_shape m now answer score)
      as (t & w & c & _ & _ & _ & _ & _ & _ & Hf & Hfl & Ha & Hs & Hr & _).
    fold m' in Hf, Hfl, Ha, Hs, Hr. fold r in Hf, Ha, Hr.
    rewrite <- Hf in Hfl, Ha, Hs.
    assert (Hpts : pointsOf (a_flags r) = pts) by apply pointsOf_sum.
    rewrite Hpts in Ha, Hs.
    destruct (answer_points t w (responseLengths m')
                (vocabularyComplexities m') c score answer) as (q & Hq & E).
    rewrite <- Hf, Hpts in E.
    destruct (decay_range (overallSuspicionScore m) q Hp Hq) as [R1 R2].
    rewrite <- E in R1, R2.
    repeat split; try assumption; try lia; congruence. }
  split; [exact Step|].
  intros ops. unfold monitorRun.
  assert (G : forall m, 0 <= overallSuspicionScore m <= 100 ->
                        0 <= overallSuspicionScore (fold_left monitorStep ops m)
                        <= 100).
  { induction ops as [|o ops IH]; intros m Hm; [exact Hm|].
    cbn [fold_left]. apply IH. destruct o as [now|now answer score].
    - exact Hm.
    - cbn [monitorStep]. apply (Step m now answer score Hm). }
  apply G. cbn. lia.
Qed.

Lemma analyzeAnswer_suspicion_witness :
  0 <= overallSuspicionScore (questionAsked create 1000) <= 100
  /\ overallSuspicionScore
       (fst (analyzeAnswer (questionAsked create 1000) 2000 hurried 9)) = 12.
Proof.
  split; [cbn; lia|].
  destruct analyzeAnswer_suspicion as [Step _].
  destruct (Step (questionAsked create 1000) 2000 hurried 9 ltac:(cbn; lia))
    as (_ & _ & _ & E & _).
  rewrite E. vm_compute. reflexivity.
Defined.

(** The flags of a call, with the time stamp as the only thing that is
    read of the monitor besides the stored lengths and complexities. *)
Lemma analyzeAnswer_flags : forall m now answer score,
  let r := snd (analyzeAnswer m now answer score) in
  let t := responseTime (lastQuestionTime m) now in
  let w := m_wordCount (metrics r) in
  exists c,
    (forall stamp now',
        a_flags (snd (analyzeAnswer (questionAsked m stamp) now' answer score))
        = check1 (responseTime (Some stamp) now') w
          ++ check2 (responseTime (Some stamp) now') w
          ++ check3 (responseLengths m ++ [w]) w
          ++ check4 (vocabularyComplexities m ++ [c]) c
          ++ check5 (responseTime (Some stamp) now') score w
          ++ check6 answer)
    /\ a_flags r
       = check1 t w ++ check2 t w
         ++ check3 (responseLengths m ++ [w]) w
         ++ check4 (vocabularyComplexities m ++ [c]) c
         ++ check5 t score w ++ check6 answer.
Proof.
  intros m now answer score. cbv zeta. unfold analyzeAnswer.
  cbn [snd a_flags metrics m_wordCount questionAsked responseLengths
       vocabularyComplexities lastQuestionTime].
  eexists. split; [intros stamp now'|]; reflexivity.
Qed.

Lemma filter_nonTiming : forall t1 t2 t5 l3 l4 w c score answer,
  filter nonTiming
    (check1 t1 w ++ check2 t2 w ++ check3 l3 w ++ check4 l4 c
     ++ check5 t5 score w ++ check6 answer)
  = check3 l3 w ++ check4 l4 c ++ check6 answer.
Proof.
  intros t1 t2 t5 l3 l4 w c score answer.
  rewrite !filter_app.
  destruct (check1_cases t1 w) as [-> | ->];
    destruct (check2_cases t2 w) as [-> | ->];
    destruct (check3_cases l3 w) as [-> | ->];
    destruct (check4_cases l4 c) as [-> | ->];
    destruct (check5_cases t5 score w) as [-> | ->];
    destruct (check6_cases answer) as [-> | ->]; reflexivity.
Qed.

(** C8.  Without a question time stamp [analyzeAnswer] still returns: the
    fast-response, words-per-minute and score/timing checks raise
    nothing, the flags of the call are exactly those of the length-spike,
    complexity-spike and repetition checks on the updated samples, no
    timing sample is recorded and the reported response time is null.
    The three remaining checks decide as they do with a time stamp: the
    call on the same monitor with any stamp and any clock raises the same
    length, complexity and repetition flags.  And they do raise them
    without a stamp: there are calls that raise the length spike alone,
    the complexity spike alone, the repetition flag alone, and all three
    at once. *)
Theorem analyzeAnswer_without_timing :
  (forall (m : Monitor) (now : Z) (answer : string) (score : Z),
    lastQuestionTime m = None ->
    let m' := fst (analyzeAnswer m now answer score) in
    let r := snd (analyzeAnswer m now answer score) in
    let w := m_wordCount (metrics r) in
    a_flags r
    = check3 (responseLengths m') w
      ++ check4 (vocabularyComplexities m')
           (List.last (vocabularyComplexities m') 0%float)
      ++ check6 answer
    /\ Forall (fun f => type f = length_spike \/ type f = complexity_spike
                       \/ type f = repetitive_pattern) (a_flags r)
    /\ responseLengths m' = responseLengths m ++ [w]
    /\ responseTimings m' = responseTimings m
    /\ m_responseTimeSec (metrics r) = None
    /\ (forall stamp now' : Z,
          filter nonTiming
            (a_flags
               (snd (analyzeAnswer (questionAsked m stamp) now' answer score)))
          = a_flags r))
  /\ (exists m now answer score,
        lastQuestionTime m = None
        /\ a_flags (snd (analyzeAnswer m now answer score))
           = [{| type := length_spike; severity := medium; points := 15 |}])
  /\ (exists m now answer score,
        lastQuestionTime m = None
        /\ a_flags (snd (analyzeAnswer m now answer score))
           = [{| type := complexity_spike; severity := low; points := 10 |}])
  /\ (exists m now answer score,
        lastQuestionTime m = None
        /\ a_flags (snd (analyzeAnswer m now answer score))
           = [{| type := repetitive_pattern; severity := low; points := 5 |}])
  /\ (exists m now answer score,
        lastQuestionTime m = None
        /\ a_flags (snd (analyzeAnswer m now answer score))
           = [{| type := length_spike; severity := medium; points := 15 |};
              {| type := complexity_spike; severity := low; points := 10 |};
              {| type := repetitive_pattern; severity := low; points := 5 |}]).
Proof.
  split; [|split; [|split; [|split]]].
  - intros m now answer score Hn m' r w.
    destruct (analyzeAnswer_shape m now answer score)
      as (t & w' & c & Ht & Hw & Hl & Hc & Hti & _ & Hf & _ & _ & _ & _ & Hm).
    fold m' in Hl, Hc, Hti, Hf. fold r in Hw, Hf, Hm. fold w in Hw. subst w'.
    rewrite Hn in Ht. cbn in Ht. subst t.
    cbn [check1 check2 check5 app] in Hf.
    assert (Hlast : List.last (vocabularyComplexities m') 0%float = c)
      by (rewrite Hc; apply last_last).
    rewrite Hlast.
    split; [assumption|]. split; [|split; [assumption|]].
    + rewrite Hf. rewrite !Forall_app. repeat split.
      * destruct (check3_cases (responseLengths m') w) as [-> | ->];
          [constructor|constructor; [cbn; tauto|constructor]].
      * destruct (check4_cases (vocabularyComplexities m') c) as [-> | ->];
          [constructor|constructor; [cbn; tauto|constructor]].
      * destruct (check6_cases answer) as [-> | ->];
          [constructor|constructor; [cbn; tauto|constructor]].
    + split; [assumption|]. split; [auto|].
      intros stamp now'.
      destruct (analyzeAnswer_flags m now answer score) as (c' & Hs & Hr).
      fold r in Hr. fold w in Hs, Hr.
      rewrite Hs, Hr, Hn. cbn [responseTime check1 check2 check5 app].
      apply filter_nonTiming.
  - exists untimed, 3000, lengthy, 9. split; vm_compute; reflexivity.
  - exists plainTalk, 3000, wordy, 9. split; vm_compute; reflexivity.
  - exists create, 3000, echoing, 9. split; vm_compute; reflexivity.
  - exists plainTalk, 3000, rehearsed, 9. split; vm_compute; reflexivity.
Qed.

Lemma analyzeAnswer_without_timing_witness :
  lastQuestionTime plainTalk = None
  /\ a_flags (snd (analyzeAnswer plainTalk 3000 rehearsed 9))
     = [{| type := length_spike; severity := medium; points := 15 |};
        {| type := complexity_spike; severity := low; points := 10 |};
        {| type := repetitive_pattern; severity := low; points := 5 |}]
  /\ filter nonTiming
       (a_flags
          (snd (analyzeAnswer (questionAsked plainTalk 2500) 3000 rehearsed 9)))
     = a_flags (snd (analyzeAnswer plainTalk 3000 rehearsed 9))
  /\ a_flags (snd (analyzeAnswer (questionAsked plainTalk 2500) 3000 rehearsed 9))
     <> a_flags (snd (analyzeAnswer plainTalk 3000 rehearsed 9)).
Proof.
  destruct analyzeAnswer_without_timing as (U & _).
  destruct (U plainTalk 3000 rehearsed 9 eq_refl)
    as (E & _ & _ & _ & _ & S).
  split; [reflexivity|]. split; [rewrite E; vm_compute; reflexivity|].
  split; [apply S|].
  vm_compute. discriminate.
Defined.

End AntiCheatClaims.

(* ------------------------------------------------------------------ *)
(** ** Skill gaps, the scenario of three nines, and persistence *)

Section SkillGapClaims.

Import SkillGap Session.

(** C9 (counterexample).  Three gaps with deficits 10, 10 and 9.9 total
    29.9 of 30 possible, 99.67 percent, which rounds to 100: the score is
    100 although one deficit is not 10. *)
Lemma overallGapScore_100_without_all_ten :
  _calculateOverallGapScore nearlyTen = 100
  /\ Spec.allTen nearlyTen = false
  /\ map deficit nearlyTen = [10; 10; 9.9]%float.
Proof. repeat split; vm_compute; reflexivity. Qed.

Lemma map_deficit_tens : forall gaps,
  Forall (fun g => deficit g = 10%float) gaps ->
  map deficit gaps = repeat 10%float (List.length gaps).
Proof.
  induction 1 as [|g gaps Hg _ IH]; cbn [map repeat List.length];
    [reflexivity|]. now rewrite Hg, IH.
Qed.

(** C9 (amended).  The overall gap score of the empty list is 0; it never
    exceeds 100; it is 100 exactly when the list is not empty and the
    rounded percentage round(100 * total / (10 * n)) reaches 100; and that
    is so when every one of up to 14 gaps (one per topic) has deficit
    10. *)
Theorem overallGapScore_bounds :
  _calculateOverallGapScore [] = 0
  /\ (forall gaps, _calculateOverallGapScore gaps <= 100)
  /\ (forall gaps,
         _calculateOverallGapScore gaps = 100
         <-> gaps <> []
             /\ 100 <= Math_round_Z
                         (sumF (map deficit gaps) / Z2F (len gaps * 10) * 100))
  /\ (forall gaps,
         1 <= len gaps <= 14 ->
         Forall (fun g => deficit g = 10%float) gaps ->
         _calculateOverallGapScore gaps = 100).
Proof.
  split; [reflexivity|].
  split; [|split].
  - intros gaps. unfold _calculateOverallGapScore.
    destruct (len gaps =? 0); lia.
  - intros gaps. unfold _calculateOverallGapScore.
    destruct gaps as [|g gaps].
    + cbn. split; [discriminate|]. intros [H _]. congruence.
    + assert (E : (len (g :: gaps) =? 0) = false)
        by (apply Z.eqb_neq; unfold len; cbn [List.length]; lia).
      rewrite E.
      split; [intros H; split; [discriminate|lia]|intros [_ H]; lia].
  - intros gaps Hn Hall. unfold _calculateOverallGapScore.
    assert (E : (len gaps =? 0) = false) by (apply Z.eqb_neq; lia).
    rewrite E, (map_deficit_tens gaps Hall).
    replace (List.length gaps) with (Z.to_nat (len gaps))
      by (unfold len; apply Nat2Z.id).
    apply Z.eqb_eq. revert Hn. generalize (len gaps).
    apply (all1_range tensScore). vm_compute. reflexivity.
Qed.

Lemma overallGapScore_bounds_witness :
  1 <= len [gapWith "Database" 10; gapWith "Testing" 10] <= 14
  /\ _calculateOverallGapScore
       [gapWith "Database" 10; gapWith "Testing" 10] = 100.
Proof.
  split; [cbn; lia|].
  destruct overallGapScore_bounds as (_ & _ & _ & H).
  apply H; [cbn; lia|]. repeat constructor.
Defined.

Lemma track_general : forall d a,
  _detectTopics (question a) = ["General"] ->
  track d a
  = {| roleLevel := roleLevel d;
       baseline := baseline d;
       topicScores := pushScore "General" (score a) (topicScores d);
       questionTypeScores :=
         pushScore (questionType a) (score a) (questionTypeScores d);
       questionsAnalyzed := questionsAnalyzed d + 1 |}.
Proof.
  intros d a H. unfold track, trackAnswer. cbn [fst]. rewrite H. reflexivity.
Qed.

(** C5 (counterexample).  After three scores of 9 from level 1 the level
    history is [1,1,2,3] and the levels after the three calls are
    [1,2,3]: the third 9 moves the level from Medium to Hard (average 9
    >= 8).  Neither list is [1,1,2]. *)
Lemma three_nines_not_1_1_2 :
  Adaptive.levelHistory
    (Adaptive.run (Adaptive.create (Some 1) (Some 3))
       [Adaptive.OpRecordScore 9; Adaptive.OpRecordScore 9;
        Adaptive.OpRecordScore 9]) <> [1; 1; 2]
  /\ map (option_map Adaptive.newLevel)
       (recordAll (Adaptive.create (Some 1) (Some 3)) [9; 9; 9])
     <> [Some 1; Some 1; Some 2].
Proof. split; vm_compute; discriminate. Qed.

(** C5 (amended).  A session that starts at level 1 with window size 3
    and records three scores of 9 has the level history [1,1,2,3]: no
    change on the first call, level 2 after the second (average 9 >= 7),
    level 3 after the third (average 9 >= 8); the levels in force when
    the three answers were scored are [1,1,2].  Tracking the three
    answers as "technical" ones on the topic "General" for the role
    "mid" gives the topic average 9 against the baseline 7, no gap, and
    the one strength "General" with surplus 2.  A final score of at
    least 9 has the performance tier "Exceptional". *)
Theorem three_nines_scenario :
  forall q1 q2 q3 a1 a2 a3 : string,
    _detectTopics q1 = ["General"] ->
    _detectTopics q2 = ["General"] ->
    _detectTopics q3 = ["General"] ->
    let m0 := Adaptive.create (Some 1) (Some 3) in
    let m :=
      Adaptive.run m0
        [Adaptive.OpRecordScore 9; Adaptive.OpRecordScore 9;
         Adaptive.OpRecordScore 9] in
    let technical q a :=
      {| question := q; answer := a; score := 9;
         questionType := "technical" |} in
    let d :=
      trackAll (create "mid")
        [technical q1 a1; technical q2 a2; technical q3 a3] in
    let report := getAnalysis d in
    Adaptive.levelHistory m = [1; 1; 2; 3]
    /\ map (option_map Adaptive.newLevel) (recordAll m0 [9; 9; 9])
       = [Some 1; Some 2; Some 3]
    /\ map (option_map Adaptive.previousLevel) (recordAll m0 [9; 9; 9])
       = [Some 1; Some 1; Some 2]
    /\ r_topicScores report = [("General", 9%float)]
    /\ _getBaselineForTopic d "General" = 7
    /\ gaps report = []
    /\ strengths report
       = [{| st_topic := "General"; st_currentScore := 9;
             st_expectedScore := 7; surplus := 2 |}]
    /\ (forall finalScore : float,
           geb finalScore 9 = true ->
           Feedback.label (Feedback.getPerformanceTier finalScore)
           = "Exceptional").
Proof.
  intros q1 q2 q3 a1 a2 a3 H1 H2 H3 m0 m technical d report.
  assert (Ed : d = {| roleLevel := "mid";
                      baseline := baselineOf "mid";
                      topicScores := [("General", [9; 9; 9])];
                      questionTypeScores := [("technical", [9; 9; 9])];
                      questionsAnalyzed := 3 |}).
  { unfold d, trackAll. cbn [fold_left].
    rewrite (track_general _ (technical q1 a1) H1).
    rewrite (track_general _ (technical q2 a2) H2).
    rewrite (track_general _ (technical q3 a3) H3).
    reflexivity. }
  unfold report. rewrite Ed.
  repeat split; try (vm_compute; reflexivity).
  intros finalScore Hs.
  unfold Feedback.getPerformanceTier, Feedback.PERFORMANCE_TIERS.
  cbn [find Feedback.min]. rewrite Hs. reflexivity.
Qed.

Lemma three_nines_scenario_witness :
  _detectTopics "What is polymorphism?" = ["General"]
  /\ strengths
       (getAnalysis
          (trackAll (create "mid")
             [ {| question := "What is polymorphism?"; answer := "One";
                  score := 9; questionType := "technical" |};
               {| question := "What is polymorphism?"; answer := "Two";
                  score := 9; questionType := "technical" |};
               {| question := "What is polymorphism?"; answer := "Three";
                  score := 9; questionType := "technical" |} ]))
     = [{| st_topic := "General"; st_currentScore := 9;
           st_expectedScore := 7; surplus := 2 |}]
  /\ Feedback.label (Feedback.getPerformanceTier 9.5) = "Exceptional".
Proof.
  assert (G : _detectTopics "What is polymorphism?" = ["General"])
    by (vm_compute; reflexivity).
  split; [exact G|].
  pose proof (three_nines_scenario "What is polymorphism?"
                "What is polymorphism?" "What is polymorphism?"
                "One" "Two" "Three" G G G) as H.
  cbv zeta in H. destruct H as (_ & _ & _ & _ & _ & _ & Hs & Ht).
  split; [exact Hs|]. apply Ht. vm_compute. reflexivity.
Defined.

End SkillGapClaims.

Section Persistence.

Import Session.

Lemma adaptive_roundTrip : forall m : Adaptive.Manager,
  Adaptive.currentLevel m <> 0 -> Adaptive.windowSize m <> 0 ->
  Adaptive.fromSerialized (Adaptive.serialize m) = m.
Proof.
  intros [level window sh lh qi pending ctx log] Hl Hw.
  cbn [Adaptive.currentLevel Adaptive.windowSize] in Hl, Hw.
  unfold Adaptive.fromSerialized, Adaptive.serialize, Adaptive.create,
    Adaptive.orDefault.
  cbn.
  destruct (Z.eqb_spec level 0); [contradiction|].
  destruct (Z.eqb_spec window 0); [contradiction|].
  rewrite orb_false_r.
  destruct (Z.eqb_spec qi 0) as [->|_]; reflexivity.
Qed.

Lemma adjust_level : forall config level avg,
  In level [1; 2; 3] -> In (Adaptive.adjust config level avg) [1; 2; 3].
Proof.
  intros config level avg H. unfold Adaptive.adjust.
  destruct H as [H|[H|[H|[]]]]; subst level;
    repeat match goal with |- context [if ?c then _ else _] => destruct c end;
    cbn; auto.
Qed.

Lemma step_nonzero : forall m o,
  Adaptive.currentLevel m <> 0 /\ Adaptive.windowSize m <> 0 ->
  Adaptive.currentLevel (Adaptive.step m o) <> 0
  /\ Adaptive.windowSize (Adaptive.step m o) <> 0.
Proof.
  intros m o [Hl Hw]. destruct o as [score|score q a|]; cbn [Adaptive.step].
  - unfold Adaptive.recordScore.
    destruct (2 <=? len (Adaptive.scoreHistory m ++ [score]));
      [destruct (Adaptive.levelConfig (Adaptive.currentLevel m)) eqn:E|];
      cbn [fst Adaptive.currentLevel Adaptive.windowSize]; split; auto.
    apply levelConfig_some in E.
    pose proof (adjust_level l _
                  (Adaptive.rollingAverage (Adaptive.windowSize m)
                     (Adaptive.scoreHistory m ++ [score])) E) as H.
    destruct H as [H|[H|[H|[]]]]; rewrite <- H; discriminate.
  - unfold Adaptive.shouldFollowUp.
    repeat match goal with |- context [if ?c then _ else _] => destruct c end;
      cbn [fst Adaptive.setFollowUp Adaptive.currentLevel Adaptive.windowSize];
      auto.
  - unfold Adaptive.getNextQuestionConfig.
    destruct (Adaptive.followUpPending m), (Adaptive.followUpContext m),
      (Adaptive.levelConfig (Adaptive.currentLevel m));
      cbn [fst Adaptive.setFollowUp Adaptive.currentLevel Adaptive.windowSize];
      auto.
Qed.

Lemma run_nonzero : forall ops m,
  Adaptive.currentLevel m <> 0 /\ Adaptive.windowSize m <> 0 ->
  Adaptive.currentLevel (Adaptive.run m ops) <> 0
  /\ Adaptive.windowSize (Adaptive.run m ops) <> 0.
Proof.
  induction ops as [|o ops IH]; intros m H; [exact H|].
  apply (IH (Adaptive.step m o)), step_nonzero, H.
Qed.

Lemma orDefault_nonzero : forall x d, d <> 0 -> Adaptive.orDefault x d <> 0.
Proof.
  intros [v|] d Hd; unfold Adaptive.orDefault; [|exact Hd].
  destruct (Z.eqb_spec v 0); assumption.
Qed.

Lemma track_baseline : forall d a,
  SkillGap.roleLevel (track d a) = SkillGap.roleLevel d
  /\ SkillGap.baseline (track d a) = SkillGap.baseline d.
Proof. intros d a. split; reflexivity. Qed.

Lemma trackAll_baseline : forall l d,
  SkillGap.baseline d = SkillGap.baselineOf (SkillGap.roleLevel d) ->
  SkillGap.baseline (trackAll d l)
  = SkillGap.baselineOf (SkillGap.roleLevel (trackAll d l)).
Proof.
  induction l as [|a l IH]; intros d H; [exact H|].
  apply (IH (track d a)). destruct (track_baseline d a) as [-> ->]. exact H.
Qed.

Lemma skillGap_roundTrip : forall d : SkillGap.Detector,
  SkillGap.baseline d = SkillGap.baselineOf (SkillGap.roleLevel d) ->
  SkillGap.fromSerialized (SkillGap.serialize d) = d.
Proof.
  intros [role base ts qs n] H. cbn in H. subst base. reflexivity.
Qed.

(** C7 (counterexample).  Two monitors that differ only in the time stamp
    of the last question have the same serialized form, yet the next
    [analyzeAnswer] raises 40 points (score 12) on the one that has the
    stamp and none (score 0) on the other.  So no way of rebuilding a
    monitor from what [serialize] returns reproduces the next suspicion
    score of every monitor. *)
Lemma antiCheat_serialize_loses_timestamp :
  ~ exists restore : AntiCheat.Serialized -> AntiCheat.Monitor,
      forall (m : AntiCheat.Monitor) (now : Z) (answer : string) (score : Z),
        AntiCheat.a_overallSuspicionScore
          (snd (AntiCheat.analyzeAnswer (restore (AntiCheat.serialize m))
                  now answer score))
        = AntiCheat.a_overallSuspicionScore
            (snd (AntiCheat.analyzeAnswer m now answer score)).
Proof.
  intros [restore H].
  pose proof (H AntiCheat.create 2000 hurried 9) as H1.
  pose proof (H (AntiCheat.questionAsked AntiCheat.create 1000) 2000
                hurried 9) as H2.
  change (AntiCheat.serialize
            (AntiCheat.questionAsked AntiCheat.create 1000))
    with (AntiCheat.serialize AntiCheat.create) in H2.
  rewrite H1 in H2. vm_compute in H2. discriminate.
Qed.

(** C7 (amended).  An adaptive manager reached from any constructor call
    by the session's operations is rebuilt unchanged by
    [fromSerialized (serialize m)], so the next [recordScore] decides the
    same; a skill-gap detector reached from any constructor call by
    [trackAnswer] is rebuilt unchanged, so [getAnalysis] is the same.
    The anti-cheat monitor has [serialize] only, which leaves out the
    time stamp of the last question: two monitors with the same
    serialized form are equal up to that stamp, and once the next
    question is stamped they analyze the next answer identically. *)
Theorem serialize_roundTrip :
  (forall (startLevel window : option Z) (ops : list Adaptive.Op),
      let m := Adaptive.run (Adaptive.create startLevel window) ops in
      Adaptive.fromSerialized (Adaptive.serialize m) = m
      /\ forall score,
           Adaptive.recordScore
             (Adaptive.fromSerialized (Adaptive.serialize m)) score
           = Adaptive.recordScore m score)
  /\ (forall (roleLevel : string) (answers : list Answer),
         let d := trackAll (SkillGap.create roleLevel) answers in
         SkillGap.fromSerialized (SkillGap.serialize d) = d
         /\ SkillGap.getAnalysis
              (SkillGap.fromSerialized (SkillGap.serialize d))
            = SkillGap.getAnalysis d)
  /\ (forall m1 m2 : AntiCheat.Monitor,
         AntiCheat.serialize m1 = AntiCheat.serialize m2 ->
         (AntiCheat.lastQuestionTime m1 = AntiCheat.lastQuestionTime m2 ->
          m1 = m2)
         /\ forall asked now answer score,
              AntiCheat.analyzeAnswer (AntiCheat.questionAsked m1 asked)
                now answer score
              = AntiCheat.analyzeAnswer (AntiCheat.questionAsked m2 asked)
                  now answer score).
Proof.
  split; [|split].
  - intros startLevel window ops m.
    assert (E : Adaptive.fromSerialized (Adaptive.serialize m) = m).
    { destruct (run_nonzero ops (Adaptive.create startLevel window)) as [Hl Hw].
      - split; apply orDefault_nonzero; discriminate.
      - apply adaptive_roundTrip; assumption. }
    split; [exact E|]. intros score. rewrite E. reflexivity.
  - intros roleLevel answers d.
    assert (E : SkillGap.fromSerialized (SkillGap.serialize d) = d).
    { apply skillGap_roundTrip. apply trackAll_baseline. reflexivity. }
    split; [exact E|]. rewrite E. reflexivity.
  - intros [t1 l1 c1 f1 q1 s1] [t2 l2 c2 f2 q2 s2] H.
    unfold AntiCheat.serialize in H.
    cbn [AntiCheat.responseTimings AntiCheat.responseLengths
         AntiCheat.vocabularyComplexities AntiCheat.flags
         AntiCheat.overallSuspicionScore] in H.
    injection H as -> -> -> -> ->.
    split.
    + cbn [AntiCheat.lastQuestionTime]. intros ->. reflexivity.
    + intros asked now answer score. reflexivity.
Qed.

Lemma serialize_roundTrip_witness :
  AntiCheat.serialize AntiCheat.create
  = AntiCheat.serialize (AntiCheat.questionAsked AntiCheat.create 500)
  /\ AntiCheat.analyzeAnswer
       (AntiCheat.questionAsked AntiCheat.create 1000) 2000 hurried 9
     = AntiCheat.analyzeAnswer
         (AntiCheat.questionAsked
            (AntiCheat.questionAsked AntiCheat.create 500) 1000)
         2000 hurried 9.
Proof.
  split; [reflexivity|].
  destruct serialize_roundTrip as (_ & _ & H).
  destruct (H AntiCheat.create (AntiCheat.questionAsked AntiCheat.create 500)
              eq_refl) as [_ E].
  apply E.
Defined.

End Persistence.

(* ================================================================== *)
(** * Further properties of the engines *)

Import Checks2 Samples2.

(* ------------------------------------------------------------------ *)
(** ** Adaptive difficulty: rotation, follow-ups, pace *)

Section AdaptiveMore.

Import Adaptive.

Lemma slot_defined : forall r, 0 <= r <= 9 -> slotDefined r = true.
Proof.
  apply (all1_range slotDefined). vm_compute. reflexivity.
Qed.

Lemma levelConfig_defined : forall level,
  In level [1; 2; 3] -> exists lv, levelConfig level = Some lv.
Proof.
  intros level [H|[H|[H|[]]]]; subst level; eexists; reflexivity.
Qed.

(** An ordinary call of [getNextQuestionConfig]: no follow-up to serve. *)
Lemma ordinary_question :
  forall m : Manager,
    In (currentLevel m) [1; 2; 3] ->
    0 <= questionIndex m ->
    followUpPending m = false \/ followUpContext m = None ->
    exists config type typePrompt lv,
      getNextQuestionConfig m
      = ({| currentLevel := currentLevel m;
            windowSize := windowSize m;
            scoreHistory := scoreHistory m;
            levelHistory := levelHistory m;
            questionIndex := questionIndex m + 1;
            followUpPending := followUpPending m;
            followUpContext := followUpContext m;
            adaptationLog := adaptationLog m |}, Some config)
      /\ nth_error QUESTION_TYPES (Z.to_nat (questionIndex m mod 10))
         = Some type
      /\ questionType config = Some type
      /\ lookup type QUESTION_TYPE_PROMPTS = Some typePrompt
      /\ levelConfig (currentLevel m) = Some lv
      /\ q_prompt config = (promptModifier lv ++ " " ++ typePrompt)%string
      /\ difficulty config = currentLevel m
      /\ difficultyName config = name lv
      /\ isFollowUp config = false.
Proof.
  intros m Hl Hq Hp.
  destruct (levelConfig_defined _ Hl) as [lv Elv].
  assert (Hr : 0 <= questionIndex m mod 10 <= 9)
    by (pose proof (Z.mod_pos_bound (questionIndex m) 10); lia).
  assert (Erem : Z.rem (questionIndex m) (len QUESTION_TYPES)
                 = questionIndex m mod 10).
  { change (len QUESTION_TYPES) with 10. apply Z.rem_mod_nonneg; lia. }
  pose proof (slot_defined _ Hr) as Hs. unfold slotDefined in Hs.
  destruct (questionTypeAt (questionIndex m mod 10)) as [type|] eqn:Et;
    [|discriminate].
  destruct (lookup type QUESTION_TYPE_PROMPTS) as [typePrompt|] eqn:Ep;
    [|discriminate].
  assert (En : nth_error QUESTION_TYPES (Z.to_nat (questionIndex m mod 10))
               = Some type).
  { unfold questionTypeAt in Et.
    destruct (Z.ltb_spec (questionIndex m mod 10) 0); [lia|exact Et]. }
  unfold getNextQuestionConfig. rewrite Erem, Et, Ep, Elv.
  destruct Hp as [Hp|Hp]; rewrite Hp.
  - do 4 eexists. repeat split; try reflexivity; eassumption.
  - destruct (followUpPending m);
      do 4 eexists; repeat split; try reflexivity; eassumption.
Qed.

(** X1.  With a level in {1,2,3}, a non-negative question index and no
    follow-up to serve, [getNextQuestionConfig] returns the configuration
    of an ordinary question: its type is slot [questionIndex mod 10] of
    the ten-slot rotation (so the types repeat with period 10), the type
    has a prompt (the text never contains "undefined"), the difficulty is
    the current level, and the only change to the manager is that the
    question index grows by one. *)
Theorem getNextQuestionConfig_rotation :
  forall m : Manager,
    In (currentLevel m) [1; 2; 3] ->
    0 <= questionIndex m ->
    followUpPending m = false \/ followUpContext m = None ->
    exists config type typePrompt lv,
      getNextQuestionConfig m
      = ({| currentLevel := currentLevel m;
            windowSize := windowSize m;
            scoreHistory := scoreHistory m;
            levelHistory := levelHistory m;
            questionIndex := questionIndex m + 1;
            followUpPending := followUpPending m;
            followUpContext := followUpContext m;
            adaptationLog := adaptationLog m |}, Some config)
      /\ nth_error QUESTION_TYPES (Z.to_nat (questionIndex m mod 10))
         = Some type
      /\ questionType config = Some type
      /\ lookup type QUESTION_TYPE_PROMPTS = Some typePrompt
      /\ levelConfig (currentLevel m) = Some lv
      /\ q_prompt config = (promptModifier lv ++ " " ++ typePrompt)%string
      /\ difficulty config = currentLevel m
      /\ difficultyName config = name lv
      /\ isFollowUp config = false.
Proof.
  intros m Hl Hq Hp.
  destruct (levelConfig_defined _ Hl) as [lv Elv].
  assert (Hr : 0 <= questionIndex m mod 10 <= 9)
    by (pose proof (Z.mod_pos_bound (questionIndex m) 10); lia).
  assert (Erem : Z.rem (questionIndex m) (len QUESTION_TYPES)
                 = questionIndex m mod 10).
  { change (len QUESTION_TYPES) with 10. apply Z.rem_mod_nonneg; lia. }
  pose proof (slot_defined _ Hr) as Hs. unfold slotDefined in Hs.
  destruct (questionTypeAt (questionIndex m mod 10)) as [type|] eqn:Et;
    [|discriminate].
  destruct (lookup type QUESTION_TYPE_PROMPTS) as [typePrompt|] eqn:Ep;
    [|discriminate].
  assert (En : nth_error QUESTION_TYPES (Z.to_nat (questionIndex m mod 10))
               = Some type).
  { unfold questionTypeAt in Et.
    destruct (Z.ltb_spec (questionIndex m mod 10) 0); [lia|exact Et]. }
  unfold getNextQuestionConfig. rewrite Erem, Et, Ep, Elv.
  destruct Hp as [Hp|Hp]; rewrite Hp.
  - do 4 eexists. repeat split; try reflexivity; eassumption.
  - destruct (followUpPending m);
      do 4 eexists; repeat split; try reflexivity; eassumption.
Qed.

Lemma getNextQuestionConfig_rotation_witness :
  In 1 [1; 2; 3]
  /\ option_map questionType
       (snd (getNextQuestionConfig
               (run (create (Some 1) None)
                  [OpGetNextQuestionConfig; OpGetNextQuestionConfig;
                   OpGetNextQuestionConfig])))
     = Some (Some "problem_solving").
Proof.
  split; [simpl; auto|].
  destruct (getNextQuestionConfig_rotation
              (run (create (Some 1) None)
                 [OpGetNextQuestionConfig; OpGetNextQuestionConfig;
                  OpGetNextQuestionConfig]))
    as (config & type & typePrompt & lv & E & En & Et & _);
    [vm_compute; auto|vm_compute; discriminate|left; reflexivity|].
  rewrite E. cbn [snd option_map]. rewrite Et.
  vm_compute in En. congruence.
Defined.

(** X2.  When [shouldFollowUp] triggers on a manager with a level in
    {1,2,3}, the next [getNextQuestionConfig] returns the follow-up
    configuration: type "follow_up", the text "Ask a follow-up question
    about:" with the question that was asked (the prompt that
    [shouldFollowUp] itself returned is not used), the question index is
    not advanced and the pending flag is cleared; the call after that is
    an ordinary one again and advances the index. *)
Theorem followUp_served_once :
  forall (m : Manager) (score : Z) (question answer : string),
    In (currentLevel m) [1; 2; 3] ->
    0 <= questionIndex m ->
    shouldFollowUp_ (snd (shouldFollowUp m score question answer)) = true ->
    let m1 := fst (shouldFollowUp m score question answer) in
    let m2 := fst (getNextQuestionConfig m1) in
    let m3 := fst (getNextQuestionConfig m2) in
    exists config2 config3,
      snd (getNextQuestionConfig m1) = Some config2
      /\ snd (getNextQuestionConfig m2) = Some config3
      /\ isFollowUp config2 = true
      /\ questionType config2 = Some "follow_up"
      /\ q_prompt config2
         = ("Ask a follow-up question about: " ++ dq ++ question ++ dq)%string
      /\ difficulty config2 = currentLevel m
      /\ questionIndex m2 = questionIndex m
      /\ followUpPending m2 = false
      /\ isFollowUp config3 = false
      /\ questionIndex m3 = questionIndex m + 1.
Proof.
  intros m score question answer Hl Hq Ht m1 m2 m3.
  destruct (levelConfig_defined _ Hl) as [lv Elv].
  assert (E1 : m1 = setFollowUp m true
                      (Some {| fu_question := question; fu_answer := answer;
                               fu_score := score |})).
  { unfold m1. revert Ht. unfold shouldFollowUp.
    repeat match goal with |- context [if ?c then _ else _] => destruct c end;
      cbn [fst snd shouldFollowUp_]; intros; try reflexivity; discriminate. }
  assert (E2 : getNextQuestionConfig m1
               = (setFollowUp m1 false (followUpContext m1),
                  Some {| difficulty := currentLevel m;
                          difficultyName := name lv;
                          questionType := Some "follow_up";
                          isFollowUp := true;
                          q_prompt :=
                            ("Ask a follow-up question about: " ++ dq
                             ++ question ++ dq)%string |})).
  { rewrite E1. unfold getNextQuestionConfig.
    cbn [setFollowUp followUpPending followUpContext currentLevel
         fu_question].
    rewrite Elv. reflexivity. }
  assert (Hm2 : m2 = setFollowUp m1 false (followUpContext m1))
    by (unfold m2; rewrite E2; reflexivity).
  assert (P1 : In (currentLevel m2) [1; 2; 3]) by (rewrite Hm2, E1; exact Hl).
  assert (P2 : 0 <= questionIndex m2) by (rewrite Hm2, E1; exact Hq).
  assert (P3 : followUpPending m2 = false \/ followUpContext m2 = None)
    by (left; rewrite Hm2; reflexivity).
  destruct (ordinary_question m2 P1 P2 P3) as
    (config3 & type & typePrompt & lv3 & E3 & _ & _ & _ & _ & _ & _ & _ & F3).
  exists {| difficulty := currentLevel m; difficultyName := name lv;
            questionType := Some "follow_up"; isFollowUp := true;
            q_prompt :=
              ("Ask a follow-up question about: " ++ dq ++ question
               ++ dq)%string |}, config3.
  unfold m3. rewrite E2, E3. cbn [fst snd].
  repeat split; try assumption; try reflexivity.
  - rewrite Hm2, E1. reflexivity.
  - rewrite Hm2. reflexivity.
  - cbn [questionIndex]. rewrite Hm2, E1. reflexivity.
Qed.

Lemma followUp_served_once_witness :
  In 1 [1; 2; 3]
  /\ option_map isFollowUp
       (snd (getNextQuestionConfig
               (fst (shouldFollowUp (create (Some 1) None) 5
                       "What is a closure?" "A function."))))
     = Some true.
Proof.
  split; [simpl; auto|].
  destruct (followUp_served_once (create (Some 1) None) 5
              "What is a closure?" "A function.")
    as (c2 & c3 & E2 & _ & F & _);
    [simpl; auto|vm_compute; discriminate|reflexivity|].
  rewrite E2. cbn [option_map]. rewrite F. reflexivity.
Defined.

Lemma nextLevel_near : forall level enough avg,
  In level [1; 2; 3] ->
  Z.abs (Spec.nextLevel level enough avg - level) <= 1
  /\ (enough = false -> Spec.nextLevel level enough avg = level).
Proof.
  intros level enough avg H. unfold Spec.nextLevel.
  destruct H as [H|[H|[H|[]]]]; subst level; destruct enough; cbn;
    repeat match goal with |- context [if ?c then _ else _] => destruct c end;
    split; intros; try lia; try reflexivity; discriminate.
Qed.

Lemma step_paced : forall startLevel m o,
  paced startLevel m -> paced startLevel (step m o).
Proof.
  intros startLevel m o [Hl Hd]. destruct o as [score|score q a|];
    cbn [step].
  - destruct (recordScore_nextLevel m score Hl) as (entry & E & _).
    cbv zeta in E. rewrite E. unfold paced.
    cbn [fst currentLevel scoreHistory].
    split; [apply nextLevel_level, Hl|].
    destruct (nextLevel_near (currentLevel m)
                (2 <=? len (scoreHistory m ++ [score]))
                (rollingAverage (windowSize m) (scoreHistory m ++ [score]))
                Hl) as [Hn He].
    unfold len in *. rewrite length_app in *. cbn [List.length] in *.
    destruct (Z.leb_spec 2 (Z.of_nat (List.length (scoreHistory m) + 1))).
    + lia.
    + rewrite (He eq_refl). lia.
  - unfold shouldFollowUp, paced.
    repeat match goal with |- context [if ?c then _ else _] => destruct c end;
      cbn [fst setFollowUp currentLevel scoreHistory]; auto.
  - unfold getNextQuestionConfig, paced.
    destruct (followUpPending m), (followUpContext m),
      (levelConfig (currentLevel m));
      cbn [fst setFollowUp currentLevel scoreHistory]; auto.
Qed.

(** X3.  After [n] recorded scores the level is at most [n - 1] levels
    away from the start level (and equal to it for [n] = 0): the first
    score never moves the level and every later one moves it by at most
    one, so Hard is not reached from Easy before the third score. *)
Theorem level_pace :
  forall (startLevel : Z) (window : option Z) (ops : list Op),
    In startLevel [1; 2; 3] ->
    let m := run (create (Some startLevel) window) ops in
    Z.abs (currentLevel m - startLevel)
    <= Z.max 0 (len (scoreHistory m) - 1)
    /\ (startLevel = 1 -> currentLevel m = 3 -> 3 <= len (scoreHistory m)).
Proof.
  intros startLevel window ops HL m.
  assert (H0 : paced startLevel (create (Some startLevel) window)).
  { unfold paced, create, orDefault. cbn [currentLevel scoreHistory].
    destruct HL as [H|[H|[H|[]]]]; subst startLevel; cbn; split; auto; lia. }
  assert (H : paced startLevel m).
  { unfold m, run. revert H0. generalize (create (Some startLevel) window).
    induction ops as [|o ops IH]; intros m0 Hm0; [exact Hm0|].
    cbn [fold_left]. apply IH, step_paced, Hm0. }
  destruct H as [_ H]. split; [exact H|]. intros -> E. rewrite E in H. lia.
Qed.

Lemma level_pace_witness :
  In 1 [1; 2; 3]
  /\ Z.abs (currentLevel
              (run (create (Some 1) None)
                 [OpRecordScore 10; OpRecordScore 10]) - 1) <= 1.
Proof.
  split; [simpl; auto|].
  destruct (level_pace 1 None [OpRecordScore 10; OpRecordScore 10]
              (or_introl eq_refl)) as [H _].
  exact H.
Defined.

End AdaptiveMore.

(* ------------------------------------------------------------------ *)
(** ** The peak level of the report *)

Section PeakLevel.

Import Adaptive.

Lemma fold_max_spec : forall l a,
  In (fold_left Z.max l a) (a :: l)
  /\ forall x, In x (a :: l) -> x <= fold_left Z.max l a.
Proof.
  induction l as [|y l IH]; intros a; cbn [fold_left].
  - split; [now left|]. intros x [->|[]]. lia.
  - destruct (IH (Z.max a y)) as [Hin Hle]. split.
    + destruct Hin as [Hin|Hin]; [|right; right; exact Hin].
      destruct (Z.max_spec a y) as [[_ E]|[_ E]]; rewrite <- Hin, E;
        [right; left; reflexivity|left; reflexivity].
    + intros x [E|[E|Hx]].
      * specialize (Hle (Z.max a y) (or_introl eq_refl)). lia.
      * specialize (Hle (Z.max a y) (or_introl eq_refl)). lia.
      * apply Hle. right. exact Hx.
Qed.

Lemma fold_Math_max : forall l a,
  In a [1; 2; 3] -> Forall (fun x => In x [1; 2; 3]) l ->
  fold_left Math_max (map Z2F l) (Z2F a) = Z2F (fold_left Z.max l a).
Proof.
  induction l as [|y l IH]; intros a Ha Hl; [reflexivity|].
  inversion Hl as [|? ? Hy Hl']; subst. cbn [map fold_left].
  assert (E : Math_max (Z2F a) (Z2F y) = Z2F (Z.max a y)
              /\ In (Z.max a y) [1; 2; 3]).
  { destruct Ha as [<-|[<-|[<-|[]]]], Hy as [<-|[<-|[<-|[]]]];
      split; (reflexivity || (cbn; auto)). }
  destruct E as [-> Hm]. apply IH; assumption.
Qed.

Lemma step_levels : forall m o,
  In (currentLevel m) [1; 2; 3] ->
  Forall (fun x => In x [1; 2; 3]) (levelHistory m) ->
  In (currentLevel (step m o)) [1; 2; 3]
  /\ Forall (fun x => In x [1; 2; 3]) (levelHistory (step m o)).
Proof.
  intros m o Hl Hh. destruct o as [score|score q a|]; cbn [step].
  - destruct (recordScore_fields m score Hl) as (H1 & _ & _ & H4).
    cbv zeta in H1, H4. split; [exact H1|]. rewrite H4.
    apply Forall_app. split; [exact Hh|]. constructor; [exact H1|constructor].
  - unfold shouldFollowUp.
    repeat match goal with |- context [if ?c then _ else _] => destruct c end;
      cbn [fst setFollowUp currentLevel levelHistory]; auto.
  - unfold getNextQuestionConfig.
    destruct (followUpPending m), (followUpContext m),
      (levelConfig (currentLevel m));
      cbn [fst setFollowUp currentLevel levelHistory]; auto.
Qed.

Lemma run_levels : forall ops m,
  In (currentLevel m) [1; 2; 3] ->
  Forall (fun x => In x [1; 2; 3]) (levelHistory m) ->
  Forall (fun x => In x [1; 2; 3]) (levelHistory (run m ops)).
Proof.
  induction ops as [|o ops IH]; intros m Hl Hh; [exact Hh|].
  destruct (step_levels m o Hl Hh) as [H1 H2]. apply (IH (step m o) H1 H2).
Qed.

(** X4.  For a manager built with a start level in {1,2,3} and driven by
    any operations, the peak level of the report ([Math.max] over the
    level history) is the largest level the history holds: a level in
    {1,2,3} that occurs in the history and is at least the report's start
    level and end level; it is never the -Infinity of an empty
    history. *)
Theorem report_peak_level :
  forall (startLevel : Z) (window : option Z) (ops : list Op),
    In startLevel [1; 2; 3] ->
    let m := run (create (Some startLevel) window) ops in
    let p := Feedback.difficultyProgression m in
    let peak := peakOf (levelHistory m) in
    Feedback.peaked p = Z2F peak
    /\ In peak [1; 2; 3]
    /\ In peak (levelHistory m)
    /\ (forall level, In level (levelHistory m) -> level <= peak)
    /\ Feedback.startLevel p <= peak
    /\ Feedback.endLevel p <= peak.
Proof.
  intros startLevel window ops HL m p peak.
  assert (H0 : Spec.wellFormed startLevel (create (Some startLevel) window)).
  { unfold Spec.wellFormed, create, orDefault.
    cbn [currentLevel levelHistory scoreHistory].
    destruct HL as [H|[H|[H|[]]]]; subst startLevel; cbn; auto 10. }
  destruct (run_wellFormed startLevel ops _ H0) as (Hl & Hn & Hh & Ht).
  fold m in Hl, Hn, Hh, Ht.
  assert (Hall : Forall (fun x => In x [1; 2; 3]) (levelHistory m)).
  { apply run_levels.
    - destruct H0 as [H0 _]. exact H0.
    - unfold create, orDefault. cbn [levelHistory].
      destruct HL as [H|[H|[H|[]]]]; subst startLevel;
        (constructor; [cbn; auto|constructor]). }
  unfold peak, peakOf, p, Feedback.difficultyProgression.
  cbn [Feedback.peaked Feedback.startLevel Feedback.endLevel].
  destruct (levelHistory m) as [|x l] eqn:E; [discriminate|].
  cbn in Hh. injection Hh as ->.
  inversion Hall as [|? ? Hx Hl']; subst.
  assert (Ex : Z.max 0 startLevel = startLevel)
    by (destruct Hx as [<-|[<-|[<-|[]]]]; reflexivity).
  cbn [fold_left map nth_error]. rewrite Ex.
  destruct (fold_max_spec l startLevel) as [Hin Hle].
  assert (Hpk : In (fold_left Z.max l startLevel) [1; 2; 3]).
  { rewrite Forall_forall in Hall. apply Hall. exact Hin. }
  assert (Est : Math_max neg_infinity (Z2F startLevel) = Z2F startLevel)
    by (destruct Hx as [<-|[<-|[<-|[]]]]; reflexivity).
  rewrite Est, (fold_Math_max l startLevel Hx Hl').
  repeat split; try assumption.
  - unfold orDefault. destruct (Z.eqb_spec startLevel 0) as [->|_];
      [destruct Hx as [?|[?|[?|[]]]]; discriminate|].
    apply Hle. now left.
  - rewrite <- Ht. apply Hle.
    destruct l as [|y l0]; [left; reflexivity|].
    right. change (List.last (startLevel :: y :: l0) 0)
             with (List.last (y :: l0) 0).
    destruct (@exists_last _ (y :: l0) ltac:(discriminate)) as (l1 & z & Ez).
    rewrite Ez, last_last. apply in_or_app. right. now left.
Qed.

Lemma report_peak_level_witness :
  In 1 [1; 2; 3]
  /\ Feedback.peaked
       (Feedback.difficultyProgression
          (run (create (Some 1) None)
             [OpRecordScore 9; OpRecordScore 9; OpRecordScore 2;
              OpRecordScore 2])) = 2%float.
Proof.
  split; [simpl; auto|].
  destruct (report_peak_level 1 None
              [OpRecordScore 9; OpRecordScore 9; OpRecordScore 2;
               OpRecordScore 2] (or_introl eq_refl)) as (E & _).
  rewrite E. vm_compute. reflexivity.
Defined.

End PeakLevel.

(* ------------------------------------------------------------------ *)
(** ** Answer evaluation: keywords, confidence, blank answers *)

Section EvaluationMore.

Import Evaluation.

Lemma dedupeFrom_complete : forall l seen x,
  In x l -> In x (dedupeFrom seen l) \/ In x seen.
Proof.
  induction l as [|a l IH]; intros seen x H; [destruct H|].
  cbn [dedupeFrom]. destruct (existsb (String.eqb a) seen) eqn:E.
  - destruct H as [->|H]; [|apply IH, H].
    right. apply strIn_In. exact E.
  - destruct H as [->|H]; [left; now left|].
    destruct (IH (a :: seen) x H) as [H1|[->|H1]].
    + left. now right.
    + left. now left.
    + now right.
Qed.

Lemma in_flat_map_keywords : forall t ts x,
  In t ts -> In x (keywordsOf t) -> In x (flat_map keywordsOf ts).
Proof. intros t ts x Ht Hx. apply in_flat_map. exists t. auto. Qed.

(** The general and the behavioral keywords are always relevant. *)
Lemma base_keywords_relevant : forall ts,
  incl (keywordsOf "general" ++ keywordsOf "behavioral")
    (relevantKeywordsOf ts).
Proof.
  intros ts x Hx. unfold relevantKeywordsOf, dedupe.
  destruct (dedupeFrom_complete
              (flat_map keywordsOf ts
               ++ (if strIn "general" ts then [] else keywordsOf "general")
               ++ (if strIn "behavioral" ts then []
                   else keywordsOf "behavioral")) [] x) as [H|[]]; [|exact H].
  rewrite !in_app_iff. apply in_app_iff in Hx. destruct Hx as [Hx|Hx].
  - destruct (strIn "general" ts) eqn:E.
    + left. apply strIn_In in E. eapply in_flat_map_keywords; eauto.
    + right. left. exact Hx.
  - destruct (strIn "behavioral" ts) eqn:E.
    + left. apply strIn_In in E. eapply in_flat_map_keywords; eauto.
    + right. right. exact Hx.
Qed.

Lemma relevantKeywords_at_least_30 : forall ts,
  30 <= len (relevantKeywordsOf ts).
Proof.
  intros ts. unfold len.
  change 30 with (Z.of_nat (List.length
                              (keywordsOf "general" ++ keywordsOf "behavioral"))).
  apply Nat2Z.inj_le, NoDup_incl_length; [|apply base_keywords_relevant].
  assert (H : dedupe (keywordsOf "general" ++ keywordsOf "behavioral")
              = keywordsOf "general" ++ keywordsOf "behavioral")
    by (vm_compute; reflexivity).
  rewrite <- H. apply dedupeFrom_spec.
Qed.

Lemma coverage_formula : forall m, 0 <= m <= 119 -> coverageFormula m = true.
Proof. apply (all1_range coverageFormula). vm_compute. reflexivity. Qed.

Lemma detectRelevantTopics_spec : forall q,
  detectRelevantTopics q <> []
  /\ (In "general" (detectRelevantTopics q)
      -> detectRelevantTopics q = ["general"])
  /\ NoDup (detectRelevantTopics q).
Proof.
  intros q. unfold detectRelevantTopics.
  set (f := fun ti : string * list string =>
              existsb (fun ind => includes ind q) (snd ti)).
  assert (Hsub : forall x, In x (map fst (filter f topicIndicators)) ->
                           In x (map fst topicIndicators)).
  { intros x Hx. apply in_map_iff in Hx. destruct Hx as (ti & <- & Hti).
    apply filter_In in Hti. apply in_map. tauto. }
  assert (Hnd : NoDup (map fst (filter f topicIndicators))).
  { assert (G : forall l : list (string * list string),
               NoDup (map fst l) -> NoDup (map fst (filter f l))).
    { induction l as [|a l IH]; intros Hn; [constructor|].
      cbn [map] in Hn. inversion Hn as [|? ? Hna Hnl]; subst.
      cbn [filter]. destruct (f a); [|apply IH, Hnl].
      cbn [map]. constructor; [|apply IH, Hnl].
      intros Hin. apply Hna. apply in_map_iff in Hin.
      destruct Hin as (ti & E & Hti). apply filter_In in Hti.
      rewrite <- E. apply in_map. tauto. }
    apply G. vm_compute. repeat (constructor; [cbn; intuition discriminate|]).
    constructor. }
  destruct (map fst (filter f topicIndicators)) as [|t ts] eqn:E.
  - split; [discriminate|]. split; [reflexivity|].
    constructor; [intros []|constructor].
  - split; [discriminate|]. split; [|exact Hnd].
    intros Hg. apply Hsub in Hg. exfalso. revert Hg. vm_compute.
    intuition discriminate.
Qed.

(** X5.  Whatever the answer and the question, between 30 and 119
    keywords are relevant (the general and the behavioral ones always
    are), so the coverage ratio is always taken over 8: the score is
    min(10, round(1.25 * matches)), it is 10 exactly from 8 matched
    keywords on and 0 exactly when none matches.  The detected topics are
    never empty, are distinct, and "general" stands only alone; the
    matched keywords are distinct keywords of the table. *)
Theorem keyword_score_by_matches :
  forall answer question : string,
    let k := evaluateKeywordCoverage answer question in
    30 <= totalRelevant k <= 119
    /\ 0 <= matchCount k <= totalRelevant k
    /\ matchCount k = len (matchedKeywords k)
    /\ kw_score k = Z.min 10 ((5 * matchCount k + 2) / 4)
    /\ (kw_score k = 10 <-> 8 <= matchCount k)
    /\ (kw_score k = 0 <-> matchCount k = 0)
    /\ topics k <> []
    /\ (In "general" (topics k) -> topics k = ["general"])
    /\ NoDup (topics k)
    /\ NoDup (matchedKeywords k)
    /\ incl (matchedKeywords k) allKeywords.
Proof.
  intros answer question k. unfold k, evaluateKeywordCoverage.
  cbn [totalRelevant matchCount matchedKeywords kw_score topics].
  set (ts := detectRelevantTopics (toLowerCase question)).
  set (rel := relevantKeywordsOf ts).
  set (matched := filter (fun kw => includes kw (toLowerCase answer)) rel).
  pose proof (relevantKeywords_length ts) as Hr. fold rel in Hr.
  pose proof (relevantKeywords_at_least_30 ts) as H30. fold rel in H30.
  pose proof (len_filter_le _ (fun kw => includes kw (toLowerCase answer)) rel)
    as Hm. fold matched in Hm.
  assert (E : coverageScoreOf (len matched) (len rel)
              = coverageScoreOf (len matched) 8).
  { rewrite coverageScoreOf_cap by lia. f_equal. lia. }
  pose proof (coverage_formula (len matched) ltac:(lia)) as F.
  unfold coverageFormula in F. rewrite !andb_true_iff in F.
  destruct F as [[F1 F2] F3].
  apply Z.eqb_eq in F1. apply eqb_prop in F2, F3.
  destruct (detectRelevantTopics_spec (toLowerCase question))
    as (T1 & T2 & T3). fold ts in T1, T2, T3.
  rewrite E.
  assert (I1 : coverageScoreOf (len matched) 8 = 10 <-> 8 <= len matched).
  { rewrite <- Z.eqb_eq, F2. lia. }
  assert (I2 : coverageScoreOf (len matched) 8 = 0 <-> len matched = 0).
  { rewrite <- Z.eqb_eq, F3. lia. }
  split; [lia|]. split; [lia|]. split; [reflexivity|]. split; [exact F1|].
  split; [exact I1|]. split; [exact I2|]. split; [exact T1|].
  split; [exact T2|]. split; [exact T3|]. split.
  - apply NoDup_filter. apply dedupeFrom_spec.
  - intros x Hx. apply filter_In in Hx.
    apply (relevantKeywords_incl ts). tauto.
Qed.

Lemma confidence_capped : forall h f a,
  0 <= h <= 20 -> 0 <= f <= 10 -> 0 <= a <= 15 ->
  confidenceScoreOf h f a
  = confidenceScoreOf (Z.min h 3) (Z.min f 4) (Z.min a 3).
Proof.
  assert (H : all4 confidenceCapped (Zrange 0 20) (Zrange 0 10) (Zrange 0 15)
                (Zrange 0 0) = true) by (vm_compute; reflexivity).
  intros h f a Hh Hf Ha. apply Z.eqb_eq.
  apply (all4_range confidenceCapped _ _ _ _ _ _ _ _ H h f a 0); lia.
Qed.

Lemma confidence_monotone_capped : forall h f a h' f' a',
  0 <= h <= 3 -> 0 <= f <= 4 -> 0 <= a <= 3 ->
  0 <= h' <= 3 -> 0 <= f' <= 4 -> 0 <= a' <= 3 ->
  h <= h' -> f <= f' -> a' <= a ->
  confidenceScoreOf h' f' a' <= confidenceScoreOf h f a.
Proof.
  assert (H0 : all4 confidenceMonotone (Zrange 0 3) (Zrange 0 4) (Zrange 0 3)
                 (Zrange 0 3) = true) by (vm_compute; reflexivity).
  intros h f a h' f' a' Hh Hf Ha Hh' Hf' Ha' L1 L2 L3.
  pose proof (all4_range confidenceMonotone _ _ _ _ _ _ _ _ H0
                h f a h' Hh Hf Ha Hh') as H.
  unfold confidenceMonotone in H.
  pose proof (all2_range _ 0 4 0 3 H f' a' Hf' Ha') as G. cbv beta in G.
  replace ((h <=? h') && (f <=? f') && (a' <=? a)) with true in G by lia.
  cbn [implb] in G. lia.
Qed.

Lemma evaluateConfidence_counts : forall answer,
  let c := evaluateConfidence answer in
  conf_score c
  = confidenceScoreOf (len (hedgingPhrases c)) (len (fillerWords c))
      (len (assertiveLanguage c))
  /\ 0 <= len (hedgingPhrases c) <= 20
  /\ 0 <= len (fillerWords c) <= 10
  /\ 0 <= len (assertiveLanguage c) <= 15.
Proof.
  intros answer. cbv zeta. unfold evaluateConfidence.
  cbn [conf_score hedgingPhrases fillerWords assertiveLanguage].
  split; [reflexivity|]. split; [|split].
  - apply (len_filter_le _ _ HEDGING_PHRASES).
  - apply (len_filter_le _ _ FILLER_WORDS).
  - apply (len_filter_le _ _ assertiveIndicators).
Qed.

(** X6.  The confidence score is a function of three counts: the hedging
    phrases found (of 20), the filler words found (of 10) and the
    assertive phrases found (of 15).  Only the first 3 hedging phrases, 4
    filler words and 3 assertive phrases count; finding more hedging
    phrases or filler words never raises the score and finding more
    assertive phrases never lowers it; an answer without hedging phrases
    and filler words scores at least 7 and one without assertive phrases
    at most 7. *)
Theorem confidence_by_counts :
  forall answer : string,
    let c := evaluateConfidence answer in
    let h := len (hedgingPhrases c) in
    let f := len (fillerWords c) in
    let a := len (assertiveLanguage c) in
    (0 <= h <= 20 /\ 0 <= f <= 10 /\ 0 <= a <= 15)
    /\ conf_score c = confidenceScoreOf (Z.min h 3) (Z.min f 4) (Z.min a 3)
    /\ (forall h' f' a',
           h <= h' <= 20 -> f <= f' <= 10 -> 0 <= a' <= a ->
           confidenceScoreOf h' f' a' <= conf_score c)
    /\ (h = 0 -> f = 0 -> 7 <= conf_score c)
    /\ (a = 0 -> conf_score c <= 7).
Proof.
  intros answer c h f a.
  destruct (evaluateConfidence_counts answer) as (E & Hh & Hf & Ha).
  fold c in E, Hh, Hf, Ha. fold h in E, Hh. fold f in E, Hf. fold a in E, Ha.
  clearbody h f a. clearbody c.
  rewrite E, (confidence_capped h f a Hh Hf Ha).
  split; [auto|]. split; [reflexivity|]. split; [|split].
  - intros h' f' a' Lh Lf La.
    rewrite (confidence_capped h' f' a') by lia.
    apply confidence_monotone_capped; lia.
  - intros -> ->.
    apply (Z.le_trans _ (confidenceScoreOf 0 0 0)); [vm_compute; discriminate|].
    apply confidence_monotone_capped; lia.
  - intros ->.
    apply (Z.le_trans _ (confidenceScoreOf 0 0 0)); [|vm_compute; discriminate].
    apply confidence_monotone_capped; lia.
Qed.

Lemma confidence_by_counts_witness :
  conf_score (evaluateConfidence "Um, maybe. I guess it is kind of like that.")
  = confidenceScoreOf 3 2 0.
Proof.
  destruct (confidence_by_counts "Um, maybe. I guess it is kind of like that.")
    as (_ & E & _).
  rewrite E. vm_compute. reflexivity.
Defined.

End EvaluationMore.

(* ------------------------------------------------------------------ *)
(** ** Strengths, weaknesses and tips of one evaluation *)

Section EvaluationLists.

Import Evaluation.

Lemma In_pushIf : forall c s x, In x (pushIf c s) <-> c = true /\ x = s.
Proof.
  intros c s x. destruct c; cbn; split.
  - intros [E|[]]. auto.
  - intros [_ E]. auto.
  - intros [].
  - intros [E _]. discriminate.
Qed.

Lemma In_pushIf_app : forall c s x r,
  In x (pushIf c s ++ r) <-> (c = true /\ x = s) \/ In x r.
Proof. intros c s x r. rewrite in_app_iff, In_pushIf. tauto. Qed.

Ltac member :=
  intros;
  unfold identifyStrengths, identifyWeaknesses, generateImprovementTips;
  split;
  [ let H := fresh "H" in
    let Hc := fresh "Hc" in
    let He := fresh "He" in
    intros H;
    repeat (apply In_pushIf_app in H;
            destruct H as [[Hc He]|H];
            [first [discriminate He | exact Hc]|]);
    apply In_pushIf in H; destruct H as [Hc He];
    first [discriminate He | exact Hc]
  | let H := fresh "H" in
    intros H;
    repeat (first [ (apply In_pushIf; split; [exact H | reflexivity])
                  | (apply In_pushIf_app;
                     first [ (left; split; [exact H | reflexivity])
                           | right ]) ]) ].

Lemma strength_technical : forall k c f ai,
  In "Strong technical understanding" (identifyStrengths k c f ai)
  <-> (7 <=? ai) = true.
Proof. member. Qed.

Lemma strength_terms : forall k c f ai,
  In "Good use of technical terminology" (identifyStrengths k c f ai)
  <-> (7 <=? kw_score k) = true.
Proof. member. Qed.

Lemma strength_examples : forall k c f ai,
  In "Provided concrete examples" (identifyStrengths k c f ai)
  <-> hasExamples c = true.
Proof. member. Qed.

Lemma strength_confident : forall k c f ai,
  In "Confident and assertive communication" (identifyStrengths k c f ai)
  <-> (7 <=? conf_score f) = true.
Proof. member. Qed.

Lemma strength_star : forall k c f ai,
  In "Good STAR method structure" (identifyStrengths k c f ai)
  <-> (3 <=? coveredCount (starCoverage c)) = true.
Proof. member. Qed.

Lemma weakness_accuracy : forall k c f ai,
  In "Answer lacks technical accuracy" (identifyWeaknesses k c f ai)
  <-> (ai <? 5) = true.
Proof. member. Qed.

Lemma weakness_terms : forall k c f ai,
  In "Missing key technical terms" (identifyWeaknesses k c f ai)
  <-> (kw_score k <? 4) = true.
Proof. member. Qed.

Lemma weakness_brief : forall k c f ai,
  In "Response is too brief" (identifyWeaknesses k c f ai)
  <-> (wordCount c <? 20) = true.
Proof. member. Qed.

Lemma weakness_verbose : forall k c f ai,
  In "Response is too verbose" (identifyWeaknesses k c f ai)
  <-> (200 <? wordCount c) = true.
Proof. member. Qed.

Lemma weakness_examples : forall k c f ai,
  In "No concrete examples provided" (identifyWeaknesses k c f ai)
  <-> negb (hasExamples c) = true.
Proof. member. Qed.

Lemma weakness_structure : forall k c f ai,
  In "Answer lacks structure" (identifyWeaknesses k c f ai)
  <-> (structureScore c <? 5) = true.
Proof. member. Qed.

Lemma weakness_uncertain : forall k c f ai,
  In "Sounds uncertain or hesitant" (identifyWeaknesses k c f ai)
  <-> (conf_score f <? 5) = true.
Proof. member. Qed.

Lemma weakness_hedging : forall k c f ai,
  In "Excessive hedging language" (identifyWeaknesses k c f ai)
  <-> (3 <? len (hedgingPhrases f)) = true.
Proof. member. Qed.

Lemma weakness_fillers : forall k c f ai,
  In "Too many filler words" (identifyWeaknesses k c f ai)
  <-> (2 <? len (fillerWords f)) = true.
Proof. member. Qed.

Lemma tip_terms : forall k c f ai,
  In "Use more specific technical terms relevant to the topic"
    (generateImprovementTips k c f ai)
  <-> (kw_score k <? 5) = true.
Proof. member. Qed.

Lemma tip_elaborate : forall k c f ai,
  In "Elaborate more - aim for 30-60 words per response"
    (generateImprovementTips k c f ai)
  <-> (wordCount c <? 20) = true.
Proof. member. Qed.

Lemma tip_fillers : forall k c f ai,
  In "Reduce filler words (um, uh, like) - pause instead"
    (generateImprovementTips k c f ai)
  <-> (2 <? len (fillerWords f)) = true.
Proof. member. Qed.

Lemma tip_star : forall k c f ai,
  In "Structure behavioral answers using STAR: Situation, Task, Action, Result"
    (generateImprovementTips k c f ai)
  <-> (coveredCount (starCoverage c) <? 2) = true.
Proof. member. Qed.

Lemma tip_sentences : forall k c f ai,
  In "Use multiple sentences to structure your answer clearly"
    (generateImprovementTips k c f ai)
  <-> (structureScore c <? 5) = true.
Proof. member. Qed.

Lemma tip_review : forall k c f ai,
  In "Review core concepts in this topic area before the next attempt"
    (generateImprovementTips k c f ai)
  <-> (ai <? 5) = true.
Proof. member. Qed.

(** With more than three hedging phrases the confidence score is at most
    6. *)
Lemma hedged_confidence : forall answer,
  3 < len (hedgingPhrases (evaluateConfidence answer)) ->
  conf_score (evaluateConfidence answer) <= 6.
Proof.
  intros answer H.
  destruct (evaluateConfidence_counts answer) as (E & Hh & Hf & Ha).
  cbv zeta in E, Hh, Hf, Ha. rewrite E.
  rewrite confidence_capped by assumption.
  apply (Z.le_trans _ (confidenceScoreOf 3 0 3)); [|vm_compute; discriminate].
  replace (Z.min (len (hedgingPhrases (evaluateConfidence answer))) 3)
    with 3 by lia.
  apply confidence_monotone_capped; lia.
Qed.

(** X7.  The strengths, weaknesses and tips of one evaluation never
    contradict each other: technical strength and lack of accuracy, good
    and missing terminology, confident and uncertain, confident and
    excessive hedging (more than three hedging phrases cap the confidence
    score at 6), too brief and too verbose, good STAR structure and the
    STAR tip are never reported together; concrete examples are a
    strength exactly when their absence is not a weakness; and the
    weaknesses on brevity, accuracy, filler words and structure come
    with their tips, the one on missing terms implies its tip. *)
Theorem evaluation_lists_consistent :
  forall (answer question : string) (aiScore : Z),
    let e := evaluateAnswer answer question aiScore in
    ~ (In "Strong technical understanding" (strengths e)
       /\ In "Answer lacks technical accuracy" (weaknesses e))
    /\ ~ (In "Good use of technical terminology" (strengths e)
          /\ In "Missing key technical terms" (weaknesses e))
    /\ ~ (In "Confident and assertive communication" (strengths e)
          /\ In "Sounds uncertain or hesitant" (weaknesses e))
    /\ ~ (In "Confident and assertive communication" (strengths e)
          /\ In "Excessive hedging language" (weaknesses e))
    /\ ~ (In "Response is too brief" (weaknesses e)
          /\ In "Response is too verbose" (weaknesses e))
    /\ ~ (In "Good STAR method structure" (strengths e)
          /\ In "Structure behavioral answers using STAR: Situation, Task, Action, Result"
               (tips e))
    /\ (In "Provided concrete examples" (strengths e)
        <-> ~ In "No concrete examples provided" (weaknesses e))
    /\ (In "Response is too brief" (weaknesses e)
        <-> In "Elaborate more - aim for 30-60 words per response" (tips e))
    /\ (In "Answer lacks technical accuracy" (weaknesses e)
        <-> In "Review core concepts in this topic area before the next attempt"
              (tips e))
    /\ (In "Too many filler words" (weaknesses e)
        <-> In "Reduce filler words (um, uh, like) - pause instead" (tips e))
    /\ (In "Answer lacks structure" (weaknesses e)
        <-> In "Use multiple sentences to structure your answer clearly"
              (tips e))
    /\ (In "Missing key technical terms" (weaknesses e)
        -> In "Use more specific technical terms relevant to the topic"
             (tips e)).
Proof.
  intros answer question aiScore e. unfold e, evaluateAnswer.
  cbn [strengths weaknesses tips].
  pose proof (hedged_confidence answer) as Hh.
  set (k := evaluateKeywordCoverage answer question).
  set (c := evaluateCompleteness answer).
  set (f := evaluateConfidence answer) in *.
  clearbody k c f.
  rewrite strength_technical, strength_terms, strength_examples,
    strength_confident, strength_star, weakness_accuracy, weakness_terms,
    weakness_brief, weakness_verbose, weakness_examples, weakness_structure,
    weakness_uncertain, weakness_hedging, weakness_fillers, tip_terms,
    tip_elaborate, tip_fillers, tip_star, tip_sentences, tip_review.
  repeat split; try tauto; try lia.
  - intros H. rewrite H. discriminate.
  - destruct (hasExamples c); [reflexivity|]. intros H. elim H. reflexivity.
Qed.

End EvaluationLists.

(* ------------------------------------------------------------------ *)
(** ** Answers of whitespace only *)

Section BlankAnswers.

Import Evaluation.

Lemma space_chars : forall c, isSpace c = true ->
  isSpace (lowerChar c) = true /\ isDigit c = false
  /\ isSentenceEnd c = false.
Proof.
  intros [[] [] [] [] [] [] [] []]; vm_compute; intros H;
    try discriminate H; auto.
Qed.

Lemma blank_cons : forall c r, blank (String c r) = true ->
  isSpace c = true /\ blank r = true.
Proof. intros c r H. cbn [blank] in H. apply andb_true_iff in H. exact H. Qed.

Lemma blank_lower : forall s, blank s = true -> blank (toLowerCase s) = true.
Proof.
  induction s as [|c r IH]; intros H; [reflexivity|].
  apply blank_cons in H. destruct H as [Hc Hr].
  cbn [toLowerCase blank]. rewrite (IH Hr).
  destruct (space_chars c Hc) as (-> & _). reflexivity.
Qed.

Lemma prefix_blank : forall p s,
  startsVisible p = true -> blank s = true -> prefix p s = false.
Proof.
  intros [|a p] s Hp Hs; [discriminate Hp|].
  destruct s as [|b s]; [reflexivity|].
  cbn [prefix]. destruct (ascii_dec a b) as [->|_]; [|reflexivity].
  apply blank_cons in Hs. cbn [startsVisible] in Hp.
  destruct Hs as [Hb _]. rewrite Hb in Hp. discriminate Hp.
Qed.

Lemma includes_blank : forall p s,
  startsVisible p = true -> blank s = true -> includes p s = false.
Proof.
  intros p s Hp. induction s as [|c r IH]; intros Hs.
  - cbn [includes]. rewrite (prefix_blank p "" Hp eq_refl). reflexivity.
  - cbn [includes]. rewrite (prefix_blank _ _ Hp Hs).
    apply blank_cons in Hs. apply IH. tauto.
Qed.

Lemma wordSearch_blank : forall w s prev,
  startsVisible w = true -> blank s = true -> wordSearch w prev s = false.
Proof.
  intros w s prev Hw. revert prev. induction s as [|c r IH]; intros prev Hs.
  - cbn [wordSearch]. rewrite (prefix_blank w "" Hw eq_refl). reflexivity.
  - cbn [wordSearch]. rewrite (prefix_blank _ _ Hw Hs).
    apply blank_cons in Hs. cbn [andb orb]. apply IH. tauto.
Qed.

Lemma filter_blank : forall (test : string -> string -> bool) l s,
  (forall p, startsVisible p = true -> test p s = false) ->
  forallb startsVisible l = true ->
  filter (fun p => test p s) l = [].
Proof.
  intros test l s Ht Hl. apply filter_none. intros p Hp.
  rewrite forallb_forall in Hl. apply Ht, Hl, Hp.
Qed.

Lemma existsb_blank : forall l s,
  forallb startsVisible l = true -> blank s = true ->
  existsb (fun p => includes p s) l = false.
Proof.
  induction l as [|p l IH]; intros s Hl Hs; [reflexivity|].
  cbn [forallb] in Hl. apply andb_true_iff in Hl. destruct Hl as [Hp Hl].
  cbn [existsb]. rewrite (includes_blank p s Hp Hs). apply IH; assumption.
Qed.

Lemma existsChar_blank : forall s, blank s = true ->
  existsChar isDigit s = false.
Proof.
  induction s as [|c r IH]; intros H; [reflexivity|].
  apply blank_cons in H. destruct H as [Hc Hr].
  cbn [existsChar]. rewrite (IH Hr).
  destruct (space_chars c Hc) as (_ & -> & _). reflexivity.
Qed.

Lemma trimStart_blank : forall s, blank s = true -> trimStart s = "".
Proof.
  induction s as [|c r IH]; intros H; [reflexivity|].
  apply blank_cons in H. destruct H as [Hc Hr].
  cbn [trimStart]. rewrite Hc. apply IH, Hr.
Qed.

Lemma trim_blank : forall s, blank s = true -> trim s = "".
Proof. intros s H. unfold trim. rewrite (trimStart_blank s H). reflexivity. Qed.

Lemma blank_rev : forall s acc,
  blank s = true -> blank acc = true -> blank (rev_string s acc) = true.
Proof.
  induction s as [|c r IH]; intros acc Hs Ha; [exact Ha|].
  apply blank_cons in Hs. destruct Hs as [Hc Hr].
  cbn [rev_string]. apply IH; [exact Hr|].
  cbn [blank]. rewrite Hc, Ha. reflexivity.
Qed.

(** A blank answer has two empty pieces around its one run of
    whitespace. *)
Lemma split_space_blank : forall c r, blank (String c r) = true ->
  split isSpace (String c r) = [""; ""].
Proof.
  intros c r H. apply blank_cons in H. destruct H as [Hc Hr].
  unfold split. cbn [split_runs]. rewrite Hc. cbn [rev_string]. f_equal.
  induction r as [|d r IH]; [reflexivity|].
  apply blank_cons in Hr. destruct Hr as [Hd Hr].
  cbn [split_runs]. rewrite Hd. apply IH, Hr.
Qed.

(** A blank answer is one blank sentence. *)
Lemma split_sentences_blank : forall s cur,
  blank s = true -> blank cur = true ->
  filter (fun p => nonEmpty (trim p)) (split_runs isSentenceEnd s cur false)
  = [].
Proof.
  induction s as [|c r IH]; intros cur Hs Hc.
  - cbn [split_runs filter].
    rewrite (trim_blank _ (blank_rev cur "" Hc eq_refl)). reflexivity.
  - apply blank_cons in Hs. destruct Hs as [Hsp Hr].
    cbn [split_runs]. destruct (space_chars c Hsp) as (_ & _ & ->).
    apply IH; [exact Hr|]. cbn [blank]. rewrite Hsp, Hc. reflexivity.
Qed.

Lemma sentences_blank : forall s, blank s = true ->
  filter (fun p => nonEmpty (trim p)) (split isSentenceEnd s) = [].
Proof. intros s H. apply (split_sentences_blank s "" H eq_refl). Qed.

Lemma tables_visible :
  forallb startsVisible allKeywords = true
  /\ forallb startsVisible HEDGING_PHRASES = true
  /\ forallb startsVisible FILLER_WORDS = true
  /\ forallb startsVisible assertiveIndicators = true
  /\ forallb (fun ck => forallb startsVisible (snd ck)) STAR_KEYWORDS = true.
Proof. vm_compute. auto. Qed.

Lemma keywordCoverage_blank : forall s question, blank s = true ->
  evaluateKeywordCoverage s question = evaluateKeywordCoverage "" question.
Proof.
  intros s question Hs. unfold evaluateKeywordCoverage.
  set (ts := detectRelevantTopics (toLowerCase question)).
  assert (E : forall t, blank t = true ->
            filter (fun kw => includes kw t) (relevantKeywordsOf ts) = []).
  { intros t Ht. apply filter_none. intros kw Hk.
    apply includes_blank; [|exact Ht].
    destruct tables_visible as (Hv & _). rewrite forallb_forall in Hv.
    apply Hv. eapply relevantKeywords_incl; eauto. }
  rewrite (E _ (blank_lower s Hs)), (E (toLowerCase "") eq_refl).
  reflexivity.
Qed.

Lemma STAR_blank : forall s, blank s = true ->
  evaluateSTARMethod s = evaluateSTARMethod "".
Proof.
  intros s Hs. unfold evaluateSTARMethod.
  assert (E : forall t, blank t = true ->
            map (fun ck : string * list string =>
                   (fst ck, existsb (fun kw => includes kw t) (snd ck)))
              STAR_KEYWORDS
            = map (fun ck => (fst ck, false)) STAR_KEYWORDS).
  { intros t Ht. apply map_ext_in. intros ck Hck. f_equal.
    apply existsb_blank; [|exact Ht].
    destruct tables_visible as (_ & _ & _ & _ & Hv).
    rewrite forallb_forall in Hv. apply (Hv ck Hck). }
  rewrite (E _ (blank_lower s Hs)), (E (toLowerCase "") eq_refl).
  reflexivity.
Qed.

Lemma completeness_blank : forall s, blank s = true ->
  evaluateCompleteness s = evaluateCompleteness "".
Proof.
  intros s Hs.
  assert (E : forall t, blank t = true ->
            evaluateCompleteness t
            = {| c_score := Z.min 10 (overallScoreOf 2 4 4
                                        (star_score (evaluateSTARMethod "")));
                 wordCount := 0;
                 sentenceCount := 0;
                 lengthScore := 2;
                 structureScore := 4;
                 specificityScore := 4;
                 starCoverage := evaluateSTARMethod "";
                 hasExamples := false;
                 hasNumbers := false |}).
  { intros t Ht. unfold evaluateCompleteness.
    rewrite (trim_blank t Ht), (existsChar_blank t Ht), (STAR_blank t Ht).
    rewrite (sentences_blank t Ht).
    rewrite (existsb_blank
               ["for example"; "for instance"; "such as"; "like when";
                "one time"] _ eq_refl (blank_lower t Ht)).
    rewrite (existsb_blank
               ["specifically"; "in particular"; "the key"; "the main";
                "because"; "the reason"] _ eq_refl (blank_lower t Ht)).
    reflexivity. }
  rewrite (E s Hs), (E "" eq_refl). reflexivity.
Qed.

Lemma confidence_blank : forall s, blank s = true ->
  evaluateConfidence s = evaluateConfidence "".
Proof.
  intros s Hs. destruct s as [|c r]; [reflexivity|].
  pose proof (blank_lower _ Hs) as Hl.
  unfold evaluateConfidence at 1.
  change (toLowerCase (String c r))
    with (String (lowerChar c) (toLowerCase r)) in *.
  rewrite (split_space_blank _ _ Hl).
  destruct tables_visible as (_ & Hh & Hf & Ha & _).
  rewrite (filter_blank includes HEDGING_PHRASES _
             (fun p Hp => includes_blank p _ Hp Hl) Hh).
  rewrite (filter_blank includes assertiveIndicators _
             (fun p Hp => includes_blank p _ Hp Hl) Ha).
  rewrite (filter_blank testWord FILLER_WORDS _
             (fun p Hp => wordSearch_blank p _ None Hp Hl) Hf).
  vm_compute. reflexivity.
Qed.

(** X8.  An answer of whitespace only (spaces, tabs, line breaks) is
    evaluated exactly like the empty answer, whatever the question and
    the AI score: no keyword matches, no word and no sentence counted,
    completeness 3, confidence 7, and the composite is the weighted sum
    of the AI score with 0, 3 and 7. *)
Theorem blank_answer_like_empty :
  forall (answer question : string) (aiScore : Z),
    blank answer = true ->
    let e := evaluateAnswer answer question aiScore in
    e = evaluateAnswer "" question aiScore
    /\ matchedKeywords (keywordCoverage e) = []
    /\ kw_score (keywordCoverage e) = 0
    /\ wordCount (completeness e) = 0
    /\ sentenceCount (completeness e) = 0
    /\ c_score (completeness e) = 3
    /\ conf_score (confidence e) = 7
    /\ compositeScore e = Z.min 10 (weightedComposite aiScore 0 3 7).
Proof.
  intros answer question aiScore Hb e.
  assert (E : e = evaluateAnswer "" question aiScore).
  { unfold e, evaluateAnswer.
    rewrite (keywordCoverage_blank answer question Hb),
      (completeness_blank answer Hb), (confidence_blank answer Hb).
    reflexivity. }
  split; [exact E|]. rewrite E.
  assert (Hk : kw_score (keywordCoverage (evaluateAnswer "" question aiScore))
               = 0) by apply coverage_of_empty_answer.
  assert (Hm : matchedKeywords
                 (keywordCoverage (evaluateAnswer "" question aiScore)) = []).
  { unfold evaluateAnswer, evaluateKeywordCoverage.
    cbn [keywordCoverage matchedKeywords].
    apply filter_none. intros kw Hkw. apply allKeywords_nonEmpty.
    eapply relevantKeywords_incl; eauto. }
  split; [exact Hm|]. split; [exact Hk|].
  split; [vm_compute; reflexivity|]. split; [vm_compute; reflexivity|].
  split; [vm_compute; reflexivity|]. split; [vm_compute; reflexivity|].
  unfold evaluateAnswer in Hk |- *. cbn [compositeScore keywordCoverage] in *.
  rewrite Hk. reflexivity.
Qed.

Lemma blank_answer_like_empty_witness :
  compositeScore
    (evaluateAnswer ("  " ++ String (ascii_of_N 9) EmptyString ++ " ")%string
       "What is a closure?" 6)
  = 4.
Proof.
  destruct (blank_answer_like_empty
              ("  " ++ String (ascii_of_N 9) EmptyString ++ " ")%string
              "What is a closure?" 6 eq_refl)
    as (_ & _ & _ & _ & _ & _ & _ & E).
  rewrite E. vm_compute. reflexivity.
Defined.

End BlankAnswers.

(* ------------------------------------------------------------------ *)
(** ** Integrity monitor: samples, flags and the suspicion score *)

Section AntiCheatMore.

Import AntiCheat Session.

Lemma check3_early : forall l w, len l < 3 -> check3 l w = [].
Proof.
  intros l w H. unfold check3, MIN_ANSWERS_FOR_ANALYSIS.
  replace (3 <=? len l) with false by lia. reflexivity.
Qed.

Lemma check4_early : forall l c, len l < 3 -> check4 l c = [].
Proof.
  intros l c H. unfold check4, MIN_ANSWERS_FOR_ANALYSIS.
  replace (3 <=? len l) with false by lia. reflexivity.
Qed.

(** Before the third answer the points of one answer are at most 65. *)
Lemma early_points : forall t w l1 l2 c s a,
  len l1 < 3 -> len l2 < 3 ->
  exists q,
    0 <= q <= 13
    /\ pointsOf (check1 t w ++ check2 t w ++ check3 l1 w ++ check4 l2 c
                 ++ check5 t s w ++ check6 a) = 5 * q.
Proof.
  intros t w l1 l2 c s a H1 H2.
  rewrite (check3_early l1 w H1), (check4_early l2 c H2), !pointsOf_app.
  destruct (check1_cases t w) as [-> | ->], (check2_cases t w) as [-> | ->],
    (check5_cases t s w) as [-> | ->], (check6_cases a) as [-> | ->];
    cbn [pointsOf fold_left points];
    match goal with
    | |- exists q, _ /\ ?n = _ => exists (n / 5); cbn; lia
    end.
Qed.

Lemma len_app1 : forall A (l : list A) x, len (l ++ [x]) = len l + 1.
Proof. intros A l x. unfold len. rewrite length_app. cbn. lia. Qed.

Lemma flags_count : forall t w l1 l2 c s a,
  len (check1 t w ++ check2 t w ++ check3 l1 w ++ check4 l2 c
       ++ check5 t s w ++ check6 a) <= 6.
Proof.
  intros t w l1 l2 c s a.
  destruct (check1_cases t w) as [-> | ->], (check2_cases t w) as [-> | ->],
    (check3_cases l1 w) as [-> | ->], (check4_cases l2 c) as [-> | ->],
    (check5_cases t s w) as [-> | ->], (check6_cases a) as [-> | ->];
    cbn; lia.
Qed.

Lemma growth : forall p q, 0 <= p <= 90 -> 0 <= q <= 18 ->
  growthChecked p q = true.
Proof.
  apply (all2_range growthChecked 0 90 0 18). vm_compute. reflexivity.
Qed.

Lemma ceiling_le_90 : forall n, 0 <= suspicionCeiling n <= 90.
Proof.
  intros n. unfold suspicionCeiling.
  destruct (n <=? 0), (n <=? 1), (n <=? 2), (n <=? 3); lia.
Qed.

Lemma analyzeAnswer_inStep : forall n m now answer score,
  0 <= n -> inStep n m ->
  inStep (n + 1) (fst (analyzeAnswer m now answer score)).
Proof.
  intros n m now answer score Hn (L1 & L2 & L3 & L4 & L5).
  destruct (analyzeAnswer_shape m now answer score)
    as (t & w & c & _ & _ & Hl & Hc & Hti & _ & _ & Hfl & _ & Hs & _ & _).
  set (m' := fst (analyzeAnswer m now answer score)) in *.
  pose proof (ceiling_le_90 n) as C90.
  assert (Hl' : len (responseLengths m') = n + 1)
    by (rewrite Hl, len_app1; lia).
  assert (Hc' : len (vocabularyComplexities m') = n + 1)
    by (rewrite Hc, len_app1; lia).
  unfold inStep. split; [exact Hl'|]. split; [exact Hc'|]. split; [|split].
  - rewrite Hti. destruct t; [rewrite len_app1|]; lia.
  - rewrite Hfl. unfold len in *. rewrite length_app.
    pose proof (flags_count t w (responseLengths m') (vocabularyComplexities m')
                  c score answer) as F. unfold len in F. lia.
  - rewrite Hs.
    destruct (answer_points t w (responseLengths m')
                (vocabularyComplexities m') c score answer) as (q & Hq & E).
    rewrite E.
    pose proof (growth (overallSuspicionScore m) q ltac:(lia) Hq) as G.
    pose proof (decay_range (overallSuspicionScore m) q ltac:(lia) Hq)
      as [R _].
    unfold growthChecked in G. cbv zeta in G.
    rewrite !andb_true_iff in G. destruct G as [[[G1 G2] G3] G4].
    split; [lia|].
    assert (Early : n + 1 < 3 -> 0 <= q <= 13).
    { intros Hlt.
      destruct (early_points t w (responseLengths m')
                  (vocabularyComplexities m') c score answer) as (q' & Hq' & E');
        [lia|lia|]. rewrite E in E'. lia. }
    unfold suspicionCeiling in L5 |- *.
    destruct (Z.leb_spec n 0), (Z.leb_spec n 1), (Z.leb_spec n 2),
      (Z.leb_spec n 3), (Z.leb_spec (n + 1) 0), (Z.leb_spec (n + 1) 1),
      (Z.leb_spec (n + 1) 2), (Z.leb_spec (n + 1) 3); lia.
Qed.

Lemma answered_nonneg : forall ops, 0 <= answered ops.
Proof. intros ops. unfold answered, len. lia. Qed.

Lemma monitorRun_inStep : forall ops n m,
  0 <= n -> inStep n m -> inStep (n + answered ops) (monitorRun m ops).
Proof.
  unfold monitorRun.
  induction ops as [|o ops IH]; intros n m Hn Hm.
  - cbn [fold_left]. replace (n + answered []) with n by (cbn; lia). exact Hm.
  - cbn [fold_left]. destruct o as [now|now answer score].
    + replace (n + answered (Asked now :: ops)) with (n + answered ops)
        by reflexivity.
      apply IH; [exact Hn|]. exact Hm.
    + replace (n + answered (Answered now answer score :: ops))
        with ((n + 1) + answered ops).
      * apply IH; [lia|]. cbn [monitorStep].
        apply analyzeAnswer_inStep; assumption.
      * unfold answered. cbn [filter]. unfold len. cbn [List.length]. lia.
Qed.

(** X9.  A fresh monitor stays in step with its answers: after any
    sequence of questions stamped and answers analyzed it holds one word
    count and one complexity ratio per answer, at most one timing per
    answer and at most six flags per answer. *)
Theorem monitor_samples_in_step : forall ops : list MonitorOp,
  let m := monitorRun create ops in
  let n := answered ops in
  len (responseLengths m) = n
  /\ len (vocabularyComplexities m) = n
  /\ len (responseTimings m) <= n
  /\ len (flags m) <= 6 * n.
Proof.
  intros ops m n.
  destruct (monitorRun_inStep ops 0 create ltac:(lia)) as (H1 & H2 & H3 & H4 & _).
  - unfold inStep. cbn. lia.
  - change (0 + answered ops) with n in *. fold m in H1, H2, H3, H4. auto.
Qed.

(** X10.  The suspicion score of a fresh monitor never exceeds 90, so
    the clamp to 100 never acts; it is at most 20 after one answer, 34
    after two and 51 after three.  A monitor therefore cannot be at level
    high before its fourth answer nor at level medium before its
    third. *)
Theorem suspicion_growth : forall ops : list MonitorOp,
  let m := monitorRun create ops in
  let n := answered ops in
  0 <= overallSuspicionScore m <= 90
  /\ (n = 0 -> overallSuspicionScore m = 0)
  /\ (n <= 1 -> overallSuspicionScore m <= 20)
  /\ (n <= 2 -> overallSuspicionScore m <= 34)
  /\ (n <= 3 -> overallSuspicionScore m <= 51)
  /\ (_getSuspicionLevel m = lvl_medium -> 3 <= n)
  /\ (_getSuspicionLevel m = lvl_high -> 4 <= n).
Proof.
  intros ops m n.
  destruct (monitorRun_inStep ops 0 create ltac:(lia)) as (_ & _ & _ & _ & H).
  - unfold inStep. cbn. lia.
  - change (0 + answered ops) with n in H. fold m in H.
    pose proof (answered_nonneg ops) as Hn. fold n in Hn.
    pose proof (ceiling_le_90 n) as C.
    unfold _getSuspicionLevel, suspicionLevelOf, HIGH_SUSPICION,
      MEDIUM_SUSPICION, LOW_SUSPICION.
    unfold suspicionCeiling in H.
    destruct (Z.leb_spec n 0), (Z.leb_spec n 1), (Z.leb_spec n 2),
      (Z.leb_spec n 3),
      (Z.leb_spec 60 (overallSuspicionScore m)),
      (Z.leb_spec 40 (overallSuspicionScore m)),
      (Z.leb_spec 20 (overallSuspicionScore m));
      repeat split; intros; try lia; try discriminate.
Qed.

Lemma decay_between : forall p q, 0 <= p <= 100 -> 0 <= q <= 18 ->
  decayBetween p q = true.
Proof.
  apply (all2_range decayBetween 0 100 0 18). vm_compute. reflexivity.
Qed.

(** X11.  One analysis moves the suspicion score to a value between the
    old score and the points of the answer.  Without a flag the score
    does not rise, and falls when it was at least 2; with a flag it is at
    least 2 afterwards; and a positive score stays positive, so the score
    of a monitor that ever raised a flag never returns to 0. *)
Theorem suspicion_decay :
  forall (m : Monitor) (now : Z) (answer : string) (score : Z),
    0 <= overallSuspicionScore m <= 100 ->
    let m' := fst (analyzeAnswer m now answer score) in
    let r := snd (analyzeAnswer m now answer score) in
    let old := overallSuspicionScore m in
    let new := overallSuspicionScore m' in
    Z.min old (answerSuspicionPoints r) <= new
      <= Z.max old (answerSuspicionPoints r)
    /\ (a_flags r = [] -> new <= old /\ (2 <= old -> new < old))
    /\ (a_flags r <> [] -> 2 <= new)
    /\ (1 <= old -> 1 <= new).
Proof.
  intros m now answer score Hp m' r old new.
  destruct (analyzeAnswer_shape m now answer score)
    as (t & w & c & _ & _ & _ & _ & _ & _ & Hf & _ & Ha & Hs & _ & _).
  fold m' in Hf, Ha, Hs. fold r in Hf, Ha. fold new in Hs.
  fold old in Hs, Hp.
  rewrite <- Hf in Ha, Hs. rewrite <- Ha in Hs.
  destruct (answer_points t w (responseLengths m')
              (vocabularyComplexities m') c score answer) as (q & Hq & E).
  rewrite <- Hf, <- Ha in E.
  pose proof (decay_between old q Hp Hq) as D.
  unfold decayBetween in D. cbv zeta in D. rewrite <- E, <- Hs in D.
  rewrite !andb_true_iff in D. destruct D as [[[D1 D2] D3] D4].
  apply between_true in D1.
  assert (P5 : a_flags r <> [] -> 5 <= pointsOf (a_flags r)).
  { rewrite Hf.
    destruct (check1_cases t w) as [-> | ->],
      (check2_cases t w) as [-> | ->],
      (check3_cases (responseLengths m') w) as [-> | ->],
      (check4_cases (vocabularyComplexities m') c) as [-> | ->],
      (check5_cases t score w) as [-> | ->],
      (check6_cases answer) as [-> | ->];
      cbn [app pointsOf fold_left points]; intros Hne;
      first [lia | exfalso; apply Hne; reflexivity]. }
  assert (Q : a_flags r = [] <-> q = 0).
  { split.
    - intros F. rewrite F in Ha. change (pointsOf []) with 0 in Ha. lia.
    - intros ->. destruct (a_flags r) as [|f fl]; [reflexivity|].
      specialize (P5 ltac:(discriminate)). lia. }
  split; [lia|]. split; [|split].
  - intros F. apply Q in F. subst q.
    replace (answerSuspicionPoints r) with 0 in * by lia.
    split; [lia|]. intros H2.
    replace ((0 =? 0) && (2 <=? old)) with true in D4 by lia.
    cbn [implb] in D4. lia.
  - intros F. assert (q <> 0) by (intros Hq0; apply F, Q, Hq0).
    replace (1 <=? q) with true in D3 by lia. cbn [implb] in D3. lia.
  - intros H1. replace (1 <=? old) with true in D2 by lia.
    cbn [implb] in D2. lia.
Qed.

Lemma suspicion_decay_witness :
  overallSuspicionScore
    (fst (analyzeAnswer
            (fst (analyzeAnswer (questionAsked create 1000) 2000 hurried 9))
            9000 "yes it is" 5))
  < 12.
Proof.
  pose (m := fst (analyzeAnswer (questionAsked create 1000) 2000 hurried 9)).
  assert (E : overallSuspicionScore m = 12) by (vm_compute; reflexivity).
  destruct (suspicion_decay m 9000 "yes it is" 5 ltac:(rewrite E; lia))
    as (_ & H & _).
  rewrite E in H. apply H; [vm_compute; reflexivity|lia].
Defined.

End AntiCheatMore.

(* ------------------------------------------------------------------ *)
(** ** Integrity monitor: what a flag tells *)

Section FlagMeaning.

Import AntiCheat Session.

Lemma check1_meaning : forall t w,
  check1 t w = []
  \/ (check1 t w
      = [{| type := fast_response; severity := medium; points := 15 |}]
      /\ 20 < w /\ t <> None).
Proof.
  intros [t|] w; unfold check1; [|auto].
  destruct (t <? MIN_RESPONSE_TIME_SEC)%float; cbn [andb]; [|auto].
  destruct (Z.ltb_spec 20 w); [|auto].
  right. repeat split; [lia|discriminate].
Qed.

Lemma check2_meaning : forall t w,
  check2 t w = []
  \/ (check2 t w = [{| type := high_wpm; severity := high; points := 25 |}]
      /\ 15 < w /\ t <> None).
Proof.
  intros [t|] w; unfold check2; [|auto].
  destruct (truthy t && (0 <? t)%float); [|auto]. cbv zeta.
  destruct (MAX_NATURAL_WPM <? Z2F w / t * 60)%float; cbn [andb]; [|auto].
  destruct (Z.ltb_spec 15 w); [|auto].
  right. repeat split; [lia|discriminate].
Qed.

Lemma check3_meaning : forall l w,
  check3 l w = []
  \/ (check3 l w
      = [{| type := length_spike; severity := medium; points := 15 |}]
      /\ 50 < w /\ 3 <= len l).
Proof.
  intros l w. unfold check3, MIN_ANSWERS_FOR_ANALYSIS.
  destruct (Z.leb_spec 3 (len l)); [|auto]. cbv zeta.
  match goal with |- context [(?a && ?b && (50 <? w))] => destruct (a && b) end;
    cbn [andb]; [|auto].
  destruct (Z.ltb_spec 50 w); [|auto].
  right. repeat split; lia.
Qed.

Lemma check4_meaning : forall l c,
  check4 l c = []
  \/ (check4 l c
      = [{| type := complexity_spike; severity := low; points := 10 |}]
      /\ 3 <= len l).
Proof.
  intros l c. unfold check4, MIN_ANSWERS_FOR_ANALYSIS.
  destruct (Z.leb_spec 3 (len l)); [|auto]. cbv zeta.
  match goal with |- context [if ?c then _ else _] => destruct c end; auto.
Qed.

Lemma check5_meaning : forall t s w,
  check5 t s w = []
  \/ (check5 t s w
      = [{| type := score_timing_mismatch; severity := high; points := 20 |}]
      /\ 30 < w /\ 9 <= s /\ t <> None).
Proof.
  intros [t|] s w; unfold check5; [|auto].
  destruct (t <? 5)%float; cbn [andb]; [|auto].
  destruct (Z.leb_spec 9 s); cbn [andb]; [|auto].
  destruct (Z.ltb_spec 30 w); [|auto].
  right. repeat split; [lia|lia|discriminate].
Qed.

Lemma totalCount_bump : forall tri counts,
  totalCount (bump tri counts) = totalCount counts + 1
  /\ (Forall (fun kc => 1 <= snd kc) counts ->
      Forall (fun kc => 1 <= snd kc) (bump tri counts)).
Proof.
  intros tri counts. unfold totalCount.
  induction counts as [|[k n] r [IH1 IH2]]; cbn [bump].
  - split; [reflexivity|]. intros _. constructor; [cbn; lia|constructor].
  - destruct (String.eqb tri k); cbn [map fold_right snd].
    + split; [lia|]. intros H. inversion H; subst.
      constructor; [cbn in *; lia|assumption].
    + split; [rewrite IH1; lia|]. intros H. inversion H; subst.
      constructor; [assumption|auto].
Qed.

Lemma totalCount_fold : forall l counts,
  Forall (fun kc => 1 <= snd kc) counts ->
  totalCount (fold_left (fun acc tri => bump tri acc) l counts)
  = totalCount counts + len l
  /\ Forall (fun kc => 1 <= snd kc)
       (fold_left (fun acc tri => bump tri acc) l counts).
Proof.
  induction l as [|tri l IH]; intros counts H; cbn [fold_left].
  - split; [unfold len; cbn; lia|exact H].
  - destruct (totalCount_bump tri counts) as [E P].
    destruct (IH (bump tri counts) (P H)) as [E' P'].
    split; [|exact P']. rewrite E', E. unfold len. cbn [List.length]. lia.
Qed.

Lemma repeated_twice : forall counts,
  Forall (fun kc : string * Z => 1 <= snd kc) counts ->
  2 * len (filter (fun kc => 1 <? snd kc) counts) <= totalCount counts.
Proof.
  unfold totalCount, len. intros counts H.
  induction H as [|[k n] r Hn Hr IH]; [cbn; lia|].
  cbn [filter map fold_right snd] in *.
  destruct (Z.ltb_spec 1 n); cbn [List.length]; lia.
Qed.

Lemma trigrams_length : forall words,
  List.length (trigrams words) = (List.length words - 2)%nat.
Proof.
  induction words as [|a r IH]; [reflexivity|].
  cbn [trigrams]. destruct r as [|b [|c r']]; [reflexivity|reflexivity|].
  cbn [List.length] in *. rewrite IH. lia.
Qed.

(** Three repeated three-word phrases need eight pieces of text. *)
Lemma check6_meaning : forall answer,
  check6 answer = []
  \/ (check6 answer
      = [{| type := repetitive_pattern; severity := low; points := 5 |}]
      /\ 8 <= len (split isSpace (toLowerCase answer))).
Proof.
  intros answer. unfold check6.
  destruct (Z.ltb_spec 2 (len (detectRepetitivePatterns answer))) as [H|H];
    [|auto].
  right. split; [reflexivity|].
  unfold detectRepetitivePatterns in H.
  set (words := split isSpace (toLowerCase answer)) in *.
  destruct (totalCount_fold (trigrams words) [] (Forall_nil _)) as [E P].
  apply repeated_twice in P. rewrite E in P.
  unfold len in *. rewrite length_map in H. rewrite trigrams_length in P.
  change (totalCount []) with 0 in P. lia.
Qed.

(** X12.  What the flags of one answer tell.  They have distinct types,
    each type has its severity and its points, and a flag is raised only
    beyond its threshold: the three timing flags need a stamped question
    and more than 20, 15 and 30 words (the score/timing one a score of at
    least 9 as well), the length spike more than 50 words and two earlier
    answers, the complexity spike two earlier answers, and the repetition
    flag a text of at least eight pieces. *)
Theorem flags_meaning :
  forall (m : Monitor) (now : Z) (answer : string) (score : Z),
    let r := snd (analyzeAnswer m now answer score) in
    let w := m_wordCount (metrics r) in
    NoDup (map type (a_flags r))
    /\ Forall
         (fun f =>
            match type f with
            | fast_response =>
                severity f = medium /\ points f = 15
                /\ 20 < w /\ lastQuestionTime m <> None
            | high_wpm =>
                severity f = high /\ points f = 25
                /\ 15 < w /\ lastQuestionTime m <> None
            | length_spike =>
                severity f = medium /\ points f = 15
                /\ 50 < w /\ 2 <= len (responseLengths m)
            | complexity_spike =>
                severity f = low /\ points f = 10
                /\ 2 <= len (vocabularyComplexities m)
            | score_timing_mismatch =>
                severity f = high /\ points f = 20
                /\ 30 < w /\ 9 <= score /\ lastQuestionTime m <> None
            | repetitive_pattern =>
                severity f = low /\ points f = 5
                /\ 8 <= len (split isSpace (toLowerCase answer))
            end) (a_flags r).
Proof.
  intros m now answer score r w.
  destruct (analyzeAnswer_shape m now answer score)
    as (t & w' & c & Ht & Hw & Hl & Hc & _ & _ & Hf & _).
  set (m' := fst (analyzeAnswer m now answer score)) in *.
  fold r in Hw, Hf. fold w in Hw. subst w'.
  assert (Hl' : len (responseLengths m') = len (responseLengths m) + 1)
    by (rewrite Hl; apply len_app1).
  assert (Hc' : len (vocabularyComplexities m')
                = len (vocabularyComplexities m) + 1)
    by (rewrite Hc; apply len_app1).
  assert (Hq : t <> None -> lastQuestionTime m <> None).
  { intros Hn Hq. apply Hn. rewrite Ht, Hq. reflexivity. }
  rewrite Hf. clear Hf. split.
  - destruct (check1_cases t w) as [-> | ->],
      (check2_cases t w) as [-> | ->],
      (check3_cases (responseLengths m') w) as [-> | ->],
      (check4_cases (vocabularyComplexities m') c) as [-> | ->],
      (check5_cases t score w) as [-> | ->],
      (check6_cases answer) as [-> | ->];
      cbn [app map type];
      repeat (constructor; [cbn [In]; intuition discriminate|]);
      constructor.
  - rewrite !Forall_app. repeat split.
    + destruct (check1_meaning t w) as [-> | (-> & H1 & H2)];
        constructor; [|constructor].
      cbn [type severity points]. repeat split; auto.
    + destruct (check2_meaning t w) as [-> | (-> & H1 & H2)];
        constructor; [|constructor].
      cbn [type severity points]. repeat split; auto.
    + destruct (check3_meaning (responseLengths m') w)
        as [-> | (-> & H1 & H2)]; constructor; [|constructor].
      cbn [type severity points]. repeat split; lia.
    + destruct (check4_meaning (vocabularyComplexities m') c)
        as [-> | (-> & H1)]; constructor; [|constructor].
      cbn [type severity points]. repeat split; lia.
    + destruct (check5_meaning t score w) as [-> | (-> & H1 & H2 & H3)];
        constructor; [|constructor].
      cbn [type severity points]. repeat split; auto.
    + destruct (check6_meaning answer) as [-> | (-> & H1)];
        constructor; [|constructor].
      cbn [type severity points]. repeat split; auto.
Qed.

End FlagMeaning.

(* ------------------------------------------------------------------ *)
(** ** Skill-gap detector: the score tables *)

Section SkillGapTables.

Import SkillGap Session.

Lemma NoDup_snoc : forall (l : list string) k,
  NoDup l -> ~ In k l -> NoDup (l ++ [k]).
Proof.
  induction l as [|a l IH]; intros k Hn Hk; cbn [app].
  - constructor; [intros []|constructor].
  - inversion Hn as [|? ? Ha Hl]; subst. constructor.
    + rewrite in_app_iff. intros [H|[H|[]]]; [auto|].
      apply Hk. left. auto.
    + apply IH; [exact Hl|]. intros H. apply Hk. right. exact H.
Qed.

Lemma strIn_iff : forall k l, strIn k l = true <-> In k l.
Proof.
  intros k l. unfold strIn. rewrite existsb_exists. split.
  - intros (x & Hx & E). apply String.eqb_eq in E. subst. exact Hx.
  - intros H. exists k. split; [exact H|apply String.eqb_refl].
Qed.

Lemma pushScore_keys : forall k v s,
  map fst (pushScore k v s)
  = if strIn k (map fst s) then map fst s else map fst s ++ [k].
Proof.
  intros k v s. induction s as [|[k0 l] r IH]; [reflexivity|].
  cbn [pushScore map fst strIn existsb]. fold (strIn k (map fst r)).
  destruct (String.eqb k k0); cbn [orb map fst]; [reflexivity|].
  rewrite IH. destruct (strIn k (map fst r)); reflexivity.
Qed.

Lemma pushScore_NoDup : forall k v s,
  NoDup (map fst s) -> NoDup (map fst (pushScore k v s)).
Proof.
  intros k v s H. rewrite pushScore_keys.
  destruct (strIn k (map fst s)) eqn:E; [exact H|].
  apply NoDup_snoc; [exact H|]. intros Hin. apply strIn_iff in Hin. congruence.
Qed.

Lemma pushScore_incl : forall k v s names,
  In k names -> incl (map fst s) names ->
  incl (map fst (pushScore k v s)) names.
Proof.
  intros k v s names Hk Hs. rewrite pushScore_keys.
  destruct (strIn k (map fst s)); [exact Hs|].
  intros x Hx. apply in_app_iff in Hx. destruct Hx as [Hx|[<-|[]]]; auto.
Qed.

Lemma pushScore_nonEmpty : forall k v s,
  Forall (fun ks : string * list Z => snd ks <> []) s ->
  Forall (fun ks => snd ks <> []) (pushScore k v s).
Proof.
  intros k v s H. induction H as [|[k0 l] r H0 Hr IH]; cbn [pushScore].
  - constructor; [discriminate|constructor].
  - destruct (String.eqb k k0).
    + constructor; [|exact Hr]. cbn [snd]. intros E.
      apply app_eq_nil in E. destruct E as [_ E]. discriminate.
    + constructor; assumption.
Qed.

Lemma pushScore_entries : forall k v s,
  entries (pushScore k v s) = entries s + 1.
Proof.
  intros k v s. unfold entries.
  induction s as [|[k0 l] r IH]; [reflexivity|].
  cbn [pushScore]. destruct (String.eqb k k0); cbn [map fold_right snd].
  - rewrite len_app1. lia.
  - rewrite IH. lia.
Qed.

Lemma pushScore_count : forall k' k v s,
  countOf k' (pushScore k v s)
  = countOf k' s + (if String.eqb k' k then 1 else 0).
Proof.
  intros k' k v s. unfold countOf.
  induction s as [|[k0 l] r IH]; cbn [pushScore lookup].
  - destruct (String.eqb k' k); reflexivity.
  - destruct (String.eqb k k0) eqn:E0; cbn [lookup].
    + apply String.eqb_eq in E0. subst k0.
      destruct (String.eqb k' k); [rewrite len_app1|]; lia.
    + destruct (String.eqb k' k0) eqn:E1; [|exact IH].
      apply String.eqb_eq in E1. subst k0.
      rewrite String.eqb_sym, E0. lia.
Qed.

Lemma countOf_nonneg : forall k s, 0 <= countOf k s.
Proof.
  intros k s. unfold countOf. destruct (lookup k s); unfold len; lia.
Qed.

(** Filing one score under distinct topics. *)
Lemma pushTopics : forall v topics s names,
  NoDup topics -> incl topics names ->
  NoDup (map fst s) -> incl (map fst s) names ->
  Forall (fun ks : string * list Z => snd ks <> []) s ->
  let s' := fold_left (fun acc topic => pushScore topic v acc) topics s in
  NoDup (map fst s')
  /\ incl (map fst s') names
  /\ Forall (fun ks => snd ks <> []) s'
  /\ entries s' = entries s + len topics
  /\ (forall k, countOf k s' = countOf k s + (if strIn k topics then 1 else 0)).
Proof.
  intros v topics. induction topics as [|t ts IH];
    intros s names Hnt Hit Hn Hi Hf; cbn [fold_left].
  - repeat split; try assumption; [unfold len; cbn; lia|].
    intros k. cbn. lia.
  - inversion Hnt as [|? ? Ht Hts]; subst.
    destruct (IH (pushScore t v s) names Hts
                (fun x Hx => Hit x (or_intror Hx))
                (pushScore_NoDup t v s Hn)
                (pushScore_incl t v s names (Hit t (or_introl eq_refl)) Hi)
                (pushScore_nonEmpty t v s Hf))
      as (I1 & I2 & I3 & I4 & I5).
    repeat split; try assumption.
    + rewrite I4, pushScore_entries. unfold len. cbn [List.length]. lia.
    + intros k. rewrite I5, pushScore_count.
      cbn [strIn existsb]. fold (strIn k ts).
      destruct (String.eqb k t) eqn:E; cbn [orb]; [|lia].
      apply String.eqb_eq in E. subst k.
      destruct (strIn t ts) eqn:E'; [|lia].
      apply strIn_iff in E'. contradiction.
Qed.

Lemma detectTopics_spec : forall question,
  NoDup (_detectTopics question)
  /\ incl (_detectTopics question) topicNames
  /\ 1 <= len (_detectTopics question).
Proof.
  intros question. unfold _detectTopics. cbv zeta.
  set (f := fun tp : string * list string =>
              existsb (fun p => includes p (toLowerCase question)) (snd tp)).
  assert (Hnd : NoDup (map fst (filter f TOPIC_PATTERNS))).
  { assert (G : forall l : list (string * list string),
               NoDup (map fst l) -> NoDup (map fst (filter f l))).
    { induction l as [|a l IH]; intros Hn; [constructor|].
      cbn [map] in Hn. inversion Hn as [|? ? Hna Hnl]; subst.
      cbn [filter]. destruct (f a); [|apply IH, Hnl].
      cbn [map]. constructor; [|apply IH, Hnl].
      intros Hin. apply Hna. apply in_map_iff in Hin.
      destruct Hin as (ti & E & Hti). apply filter_In in Hti.
      rewrite <- E. apply in_map. tauto. }
    apply G. vm_compute. repeat (constructor; [cbn; intuition discriminate|]).
    constructor. }
  assert (Hsub : incl (map fst (filter f TOPIC_PATTERNS)) topicNames).
  { intros x Hx. apply in_map_iff in Hx. destruct Hx as (ti & <- & Hti).
    apply filter_In in Hti. unfold topicNames. apply in_app_iff. left.
    apply in_map. tauto. }
  destruct (map fst (filter f TOPIC_PATTERNS)) as [|t ts].
  - split; [constructor; [intros []|constructor]|]. split; [|cbn; lia].
    intros x [<-|[]]. unfold topicNames. apply in_app_iff. right. now left.
  - split; [exact Hnd|]. split; [exact Hsub|].
    unfold len. cbn [List.length]. lia.
Qed.

Lemma track_tracked : forall n d a,
  0 <= n -> tracked n d -> tracked (n + 1) (track d a).
Proof.
  intros n d a Hn (T1 & T2 & T3 & T4 & T5 & T6 & T7 & T8 & T9).
  destruct (detectTopics_spec (question a)) as (D1 & D2 & D3).
  destruct (pushTopics (score a) (_detectTopics (question a)) (topicScores d)
              topicNames D1 D2 T2 T4 T5) as (P1 & P2 & P3 & P4 & P5).
  unfold tracked, track, trackAnswer.
  cbn [fst questionsAnalyzed topicScores questionTypeScores].
  split; [lia|]. split; [exact P1|].
  split; [apply pushScore_NoDup, T3|]. split; [exact P2|].
  split; [exact P3|]. split; [apply pushScore_nonEmpty, T6|].
  split; [|split].
  - intros topic. rewrite P5. specialize (T7 topic).
    destruct (strIn topic (_detectTopics (question a))); lia.
  - rewrite pushScore_entries. lia.
  - rewrite P4. lia.
Qed.

Lemma trackAll_tracked : forall l n d,
  0 <= n -> tracked n d -> tracked (n + len l) (trackAll d l).
Proof.
  unfold trackAll. induction l as [|a l IH]; intros n d Hn Ht.
  - cbn [fold_left]. replace (n + len []) with n by (unfold len; cbn; lia).
    exact Ht.
  - cbn [fold_left].
    replace (n + len (a :: l)) with ((n + 1) + len l)
      by (unfold len; cbn [List.length]; lia).
    apply IH; [lia|]. apply track_tracked; assumption.
Qed.

Lemma create_tracked : forall role, tracked 0 (create role).
Proof.
  intros role. unfold tracked, create.
  cbn [questionsAnalyzed topicScores questionTypeScores map].
  split; [reflexivity|]. split; [constructor|]. split; [constructor|].
  split; [intros x []|]. split; [constructor|]. split; [constructor|].
  split; [|split]; [|reflexivity|cbn; lia].
  intros topic. cbn. lia.
Qed.

Lemma trackAll_role : forall l d,
  roleLevel (trackAll d l) = roleLevel d
  /\ baseline (trackAll d l) = baseline d.
Proof.
  unfold trackAll. induction l as [|a l IH]; intros d; [auto|].
  cbn [fold_left]. destruct (IH (track d a)) as [-> ->].
  apply track_baseline.
Qed.

(** X13.  The tables of a detector after any sequence of answers whose
    question types are plain keys: the counter is the number of answers,
    the role and the baseline are those of the start, no topic and no
    question type has two entries, every topic is one of the thirteen of
    the pattern table or General, no entry has an empty score list (so
    no average divides by zero), no topic holds more scores than there
    were answers, the question types hold one score per answer and the
    topics at least one. *)
Theorem tracking_invariants :
  forall (role : string) (answers : list Answer),
    plainTypes answers = true ->
    let d := trackAll (create role) answers in
    let n := len answers in
    questionsAnalyzed d = n
    /\ roleLevel d = role
    /\ baseline d = baseline (create role)
    /\ NoDup (map fst (topicScores d))
    /\ NoDup (map fst (questionTypeScores d))
    /\ incl (map fst (topicScores d)) topicNames
    /\ Forall (fun ks => snd ks <> []) (topicScores d)
    /\ Forall (fun ks => snd ks <> []) (questionTypeScores d)
    /\ (forall topic, 0 <= countOf topic (topicScores d) <= n)
    /\ entries (questionTypeScores d) = n
    /\ n <= entries (topicScores d).
Proof.
  intros role answers _ d n.
  destruct (trackAll_tracked answers 0 (create role) ltac:(lia)
              (create_tracked role))
    as (T1 & T2 & T3 & T4 & T5 & T6 & T7 & T8 & T9).
  change (0 + len answers) with n in *.
  fold d in T1, T2, T3, T4, T5, T6, T7, T8, T9.
  destruct (trackAll_role answers (create role)) as [B1 B2].
  fold d in B1, B2.
  split; [exact T1|]. split; [exact B1|]. split; [exact B2|].
  split; [exact T2|]. split; [exact T3|]. split; [exact T4|].
  split; [exact T5|]. split; [exact T6|]. split; [|auto].
  intros topic. split; [apply countOf_nonneg|apply T7].
Qed.

Lemma tracking_invariants_witness :
  map fst (topicScores (trackAll (create "mid") twoAnswers))
  = ["JavaScript/TypeScript"; "Leadership"]
  /\ entries (questionTypeScores (trackAll (create "mid") twoAnswers)) = 2.
Proof.
  split; [vm_compute; reflexivity|].
  destruct (tracking_invariants "mid" twoAnswers eq_refl)
    as (_ & _ & _ & _ & _ & _ & _ & _ & _ & E & _).
  exact E.
Defined.

End SkillGapTables.

(* ------------------------------------------------------------------ *)
(** ** Skill-gap detector: the analysis *)

Section SkillGapAnalysis.

Import SkillGap Session.

Lemma firstn_In : forall A n (l : list A) x, In x (firstn n l) -> In x l.
Proof.
  intros A n l x H. rewrite <- (firstn_skipn n l). apply in_app_iff. now left.
Qed.

Lemma insertDesc_perm : forall A (key : A -> float) x l,
  Permutation (insertDesc key x l) (x :: l).
Proof.
  intros A key x l. induction l as [|y r IH]; cbn [insertDesc].
  - apply Permutation_refl.
  - destruct (0 <? key y - key x)%float; [|apply Permutation_refl].
    eapply Permutation_trans; [apply perm_skip, IH|apply perm_swap].
Qed.

Lemma sortDesc_perm : forall A (key : A -> float) l,
  Permutation (sortDesc key l) l.
Proof.
  intros A key l. unfold sortDesc. induction l as [|x l IH]; cbn [fold_right].
  - apply Permutation_refl.
  - eapply Permutation_trans; [apply insertDesc_perm|apply perm_skip, IH].
Qed.

(** At most one record per topic comes out of a table without double
    keys. *)
Lemma keyed_NoDup : forall B (f : string * float -> list B) (key : B -> string)
    (table : list (string * float)),
  (forall ta b, In b (f ta) -> key b = fst ta) ->
  (forall ta, (List.length (f ta) <= 1)%nat) ->
  NoDup (map fst table) ->
  NoDup (map key (flat_map f table))
  /\ incl (map key (flat_map f table)) (map fst table).
Proof.
  intros B f key table Hk H1. induction table as [|ta r IH]; intros Hn.
  - split; [constructor|intros x []].
  - cbn [map] in Hn. inversion Hn as [|? ? Ha Hr]; subst.
    destruct (IH Hr) as [I1 I2]. cbn [flat_map map].
    rewrite map_app. specialize (H1 ta). pose proof (Hk ta) as Hk'.
    destruct (f ta) as [|b [|b' l]]; cbn [map app].
    + split; [exact I1|]. intros x Hx. right. apply I2, Hx.
    + rewrite (Hk' b (or_introl eq_refl)). split.
      * constructor; [|exact I1]. intros Hin. apply Ha, I2, Hin.
      * intros x [<-|Hx]; [now left|right; apply I2, Hx].
    + cbn in H1. lia.
Qed.

Lemma gapOf_spec : forall d topic avg g,
  In g (gapOf d (topic, avg)) ->
  g_topic g = topic
  /\ g_expectedScore g = _getBaselineForTopic d topic
  /\ questionsAsked g = countOf topic (topicScores d)
  /\ recommendation g = _getTopicRecommendation topic.
Proof.
  intros d topic avg g. unfold gapOf. cbv zeta.
  destruct (0 <? Z2F (_getBaselineForTopic d topic) - avg)%float;
    [|intros []].
  intros [<-|[]]. cbn [g_topic g_expectedScore questionsAsked recommendation].
  auto.
Qed.

Lemma gapOf_length : forall d ta, (List.length (gapOf d ta) <= 1)%nat.
Proof.
  intros d [topic avg]. unfold gapOf. cbv zeta.
  destruct (0 <? Z2F (_getBaselineForTopic d topic) - avg)%float; cbn; lia.
Qed.

Lemma strengthOf_spec : forall d topic avg s,
  In s (strengthOf d (topic, avg)) ->
  st_topic s = topic /\ st_expectedScore s = _getBaselineForTopic d topic.
Proof.
  intros d topic avg s. unfold strengthOf. cbv zeta.
  destruct (geb (avg - Z2F (_getBaselineForTopic d topic)) 1); [|intros []].
  intros [<-|[]]. cbn [st_topic st_expectedScore]. auto.
Qed.

Lemma strengthOf_length : forall d ta, (List.length (strengthOf d ta) <= 1)%nat.
Proof.
  intros d [topic avg]. unfold strengthOf. cbv zeta.
  destruct (geb (avg - Z2F (_getBaselineForTopic d topic)) 1); cbn; lia.
Qed.

Lemma averages_keys : forall s, map fst (averages s) = map fst s.
Proof.
  intros s. unfold averages. rewrite map_map. reflexivity.
Qed.

(** Every expected score of the three role levels is between 3 and 8. *)
Lemma expectation_range : forall role category,
  3 <= expectation (baselineOf role) category <= 8.
Proof.
  intros role category. unfold baselineOf, ROLE_BASELINES, midBaseline.
  cbn [lookup].
  destruct (String.eqb role "junior"); [|destruct (String.eqb role "mid");
    [|destruct (String.eqb role "senior")]];
    unfold expectation; cbn [lookup];
    destruct (String.eqb category "technical");
    try destruct (String.eqb category "behavioral");
    try destruct (String.eqb category "problem_solving");
    try destruct (String.eqb category "system_design");
    try destruct (String.eqb category "communication");
    cbn; lia.
Qed.

Lemma countOf_positive : forall k s,
  In k (map fst s) -> Forall (fun ks : string * list Z => snd ks <> []) s ->
  1 <= countOf k s.
Proof.
  intros k s Hk Hf. unfold countOf.
  induction Hf as [|[k0 l] r H0 Hr IH]; [destruct Hk|].
  cbn [lookup]. destruct (String.eqb k k0) eqn:E.
  - cbn [snd] in H0. destruct l; [congruence|]. unfold len.
    cbn [List.length]. lia.
  - apply IH. destruct Hk as [Hk|Hk]; [|exact Hk].
    cbn [fst] in Hk. subst k0. rewrite String.eqb_refl in E. discriminate.
Qed.

Lemma numberFrom_spec : forall A (l : list A) i,
  map fst (numberFrom i l) = Zseq i (List.length l)
  /\ map snd (numberFrom i l) = l.
Proof.
  intros A l. induction l as [|x r IH]; intros i; [auto|].
  cbn [numberFrom map fst snd List.length Zseq].
  destruct (IH (i + 1)) as [-> ->]. auto.
Qed.

Lemma learningPath_topics : forall gaps,
  map l_topic (_generateLearningPath gaps)
  = map g_topic (firstn 5 (serious gaps)).
Proof.
  intros gaps. unfold _generateLearningPath. fold (serious gaps).
  rewrite map_map. cbn [l_topic].
  rewrite <- (map_map snd g_topic).
  destruct (numberFrom_spec _ (firstn 5 (serious gaps)) 0) as [_ ->].
  reflexivity.
Qed.

(** X14.  The learning path of any list of gaps: it takes the first
    five gaps that are not minor, in their order, numbers them from 1,
    and gives each the gap's topic, scores and recommendation and 20
    hours if the gap is critical, 10 otherwise.  So a path has at most
    five steps and asks for at most 100 hours. *)
Theorem learningPath_shape : forall gaps : list Gap,
  let path := _generateLearningPath gaps in
  len path = Z.min 5 (len (serious gaps))
  /\ map priority path = Zseq 1 (List.length path)
  /\ Forall2
       (fun step gap =>
          g_severity gap <> minor
          /\ l_topic step = g_topic gap
          /\ l_currentLevel step = g_currentScore gap
          /\ targetLevel step = g_expectedScore gap
          /\ action step = recommendation gap
          /\ estimatedHours step
             = (match g_severity gap with critical => 20 | _ => 10 end))
       path (firstn 5 (serious gaps))
  /\ fold_right Z.add 0 (map estimatedHours path) <= 100.
Proof.
  intros gaps path. unfold path, _generateLearningPath. fold (serious gaps).
  set (top := firstn 5 (serious gaps)).
  assert (Hlen : (List.length top <= 5)%nat) by apply firstn_le_length.
  assert (Hlen' : len top = Z.min 5 (len (serious gaps))).
  { unfold top, len. rewrite length_firstn. lia. }
  assert (Hser : Forall (fun g => g_severity g <> minor) top).
  { apply Forall_forall. intros g Hg. apply firstn_In in Hg.
    unfold serious in Hg. apply filter_In in Hg. destruct Hg as [_ Hg].
    intros E. rewrite E in Hg. discriminate Hg. }
  clearbody top.
  assert (G : forall i l,
             Forall (fun g => g_severity g <> minor) l ->
             let p := map (fun ig : Z * Gap =>
                             {| priority := fst ig + 1;
                                l_topic := g_topic (snd ig);
                                l_currentLevel := g_currentScore (snd ig);
                                targetLevel := g_expectedScore (snd ig);
                                action := recommendation (snd ig);
                                estimatedHours :=
                                  match g_severity (snd ig) with
                                  | critical => 20
                                  | _ => 10
                                  end |}) (numberFrom i l) in
             List.length p = List.length l
             /\ map priority p = Zseq (i + 1) (List.length l)
             /\ Forall2
                  (fun step gap =>
                     g_severity gap <> minor
                     /\ l_topic step = g_topic gap
                     /\ l_currentLevel step = g_currentScore gap
                     /\ targetLevel step = g_expectedScore gap
                     /\ action step = recommendation gap
                     /\ estimatedHours step
                        = (match g_severity gap with
                           | critical => 20
                           | _ => 10
                           end)) p l
             /\ fold_right Z.add 0 (map estimatedHours p)
                <= 20 * Z.of_nat (List.length l)).
  { intros i l Hl. revert i. induction Hl as [|g l Hg Hl IH]; intros i.
    - cbn. repeat split; [constructor|lia].
    - cbv zeta. cbn [numberFrom map List.length Zseq fold_right priority
                      estimatedHours fst snd].
      destruct (IH (i + 1)) as (I1 & I2 & I3 & I4). cbv zeta in I1, I2, I3, I4.
      split; [rewrite I1; reflexivity|]. split; [rewrite I2; reflexivity|].
      split.
      + constructor; [|exact I3].
        cbn [l_topic l_currentLevel targetLevel action estimatedHours].
        repeat split. exact Hg.
      + destruct (g_severity g); lia. }
  destruct (G 0 top Hser) as (G1 & G2 & G3 & G4). cbv zeta in G1, G2, G3, G4.
  split; [unfold len in *; rewrite G1; exact Hlen'|].
  split; [rewrite G1; exact G2|]. split; [exact G3|]. lia.
Qed.

Lemma tracked_analysis : forall n d,
  tracked n d ->
  let r := getAnalysis d in
  NoDup (map g_topic (gaps r))
  /\ NoDup (map st_topic (strengths r))
  /\ Forall (fun g =>
               In (g_topic g) topicNames
               /\ g_expectedScore g = _getBaselineForTopic d (g_topic g)
               /\ 1 <= questionsAsked g <= n
               /\ recommendation g = _getTopicRecommendation (g_topic g))
       (gaps r)
  /\ Forall (fun s =>
               In (st_topic s) topicNames
               /\ st_expectedScore s = _getBaselineForTopic d (st_topic s))
       (strengths r).
Proof.
  intros n d (T1 & T2 & T3 & T4 & T5 & T6 & T7 & T8 & T9) r.
  unfold r, getAnalysis. cbn [gaps strengths]. unfold _getTopicAverages.
  pose proof (averages_keys (topicScores d)) as K.
  set (avgs := averages (topicScores d)) in *.
  assert (Kn : NoDup (map fst avgs)) by (rewrite K; exact T2).
  destruct (keyed_NoDup Gap (gapOf d) g_topic avgs) as [N1 N2];
    [|apply gapOf_length|exact Kn|].
  { intros [topic avg] g Hg. apply gapOf_spec in Hg. cbn [fst]. tauto. }
  destruct (keyed_NoDup Strength (strengthOf d) st_topic avgs) as [S1 S2];
    [|apply strengthOf_length|exact Kn|].
  { intros [topic avg] s Hs. apply strengthOf_spec in Hs. cbn [fst]. tauto. }
  pose proof (sortDesc_perm Gap deficit (flat_map (gapOf d) avgs)) as PG.
  pose proof (sortDesc_perm Strength surplus (flat_map (strengthOf d) avgs))
    as PS.
  split; [|split; [|split]].
  - eapply Permutation_NoDup; [|exact N1].
    apply Permutation_map, Permutation_sym, PG.
  - eapply Permutation_NoDup; [|exact S1].
    apply Permutation_map, Permutation_sym, PS.
  - apply Forall_forall. intros g Hg.
    apply (Permutation_in _ PG) in Hg.
    assert (Hk : In (g_topic g) (map fst (topicScores d))).
    { rewrite <- K. apply N2. apply in_map, Hg. }
    apply in_flat_map in Hg. destruct Hg as ([topic avg] & _ & Hg).
    apply gapOf_spec in Hg. destruct Hg as (E1 & E2 & E3 & E4).
    rewrite E1 in *. split; [apply T4, Hk|]. split; [exact E2|].
    split; [|exact E4]. rewrite E3. split; [|apply T7].
    apply countOf_positive; assumption.
  - apply Forall_forall. intros s Hs.
    apply (Permutation_in _ PS) in Hs.
    assert (Hk : In (st_topic s) (map fst (topicScores d))).
    { rewrite <- K. apply S2. apply in_map, Hs. }
    apply in_flat_map in Hs. destruct Hs as ([topic avg] & _ & Hs).
    apply strengthOf_spec in Hs. destruct Hs as (E1 & E2).
    rewrite E1 in *. split; [apply T4, Hk|exact E2].
Qed.

(** X15.  The analysis of a session tracked from a fresh detector, role
    and question types being plain keys.  It reports the number of
    answers and one average per topic and one entry per question type,
    in the order of first appearance.  No topic appears twice among the
    gaps or among the strengths, so each list has at most fourteen
    entries; every gap and every strength is on one of the known topics
    with an expected score between 3 and 8; a gap counts at least one and
    at most all of the answers; and the learning path only names topics
    of the gaps. *)
Theorem analysis_topics :
  forall (role : string) (answers : list Answer),
    plainKey role = true ->
    plainTypes answers = true ->
    let d := trackAll (create role) answers in
    let r := getAnalysis d in
    r_questionsAnalyzed r = len answers
    /\ r_roleLevel r = role
    /\ map fst (r_topicScores r) = map fst (topicScores d)
    /\ map fst (typeAnalysis r) = map fst (questionTypeScores d)
    /\ NoDup (map g_topic (gaps r))
    /\ NoDup (map st_topic (strengths r))
    /\ len (gaps r) <= 14
    /\ len (strengths r) <= 14
    /\ Forall (fun g =>
                 In (g_topic g) topicNames
                 /\ 3 <= g_expectedScore g <= 8
                 /\ 1 <= questionsAsked g <= len answers
                 /\ recommendation g = _getTopicRecommendation (g_topic g))
         (gaps r)
    /\ Forall (fun s =>
                 In (st_topic s) topicNames /\ 3 <= st_expectedScore s <= 8)
         (strengths r)
    /\ incl (map l_topic (prioritizedLearningPath r)) (map g_topic (gaps r)).
Proof.
  intros role answers _ _ d r.
  pose proof (trackAll_tracked answers 0 (create role) ltac:(lia)
                (create_tracked role)) as T.
  change (0 + len answers) with (len answers) in T. fold d in T.
  destruct (trackAll_role answers (create role)) as [B1 B2].
  fold d in B1, B2. cbn [create roleLevel baseline] in B1, B2.
  destruct (tracked_analysis _ _ T) as (A1 & A2 & A3 & A4). fold r in A1, A2, A3, A4.
  assert (Hb : forall topic, 3 <= _getBaselineForTopic d topic <= 8).
  { intros topic. unfold _getBaselineForTopic. rewrite B2.
    apply expectation_range. }
  assert (L : forall (l : list string),
             NoDup l -> incl l topicNames -> len l <= 14).
  { intros l Hn Hi. unfold len.
    change 14 with (Z.of_nat (List.length topicNames)).
    apply Nat2Z.inj_le, NoDup_incl_length; assumption. }
  destruct T as (T1 & _).
  split; [exact T1|]. split; [exact B1|].
  split; [apply averages_keys|].
  split.
  { unfold r, getAnalysis. cbn [typeAnalysis]. unfold _getTypeAverages.
    rewrite map_map. rewrite <- (averages_keys (questionTypeScores d)).
    apply map_ext. intros [type avg]. reflexivity. }
  split; [exact A1|]. split; [exact A2|]. split; [|split; [|split; [|split]]].
  - replace (len (gaps r)) with (len (map g_topic (gaps r)))
      by (unfold len; rewrite length_map; reflexivity).
    apply L; [exact A1|]. intros x Hx. apply in_map_iff in Hx.
    destruct Hx as (g & <- & Hg). rewrite Forall_forall in A3.
    apply (A3 g Hg).
  - replace (len (strengths r)) with (len (map st_topic (strengths r)))
      by (unfold len; rewrite length_map; reflexivity).
    apply L; [exact A2|]. intros x Hx. apply in_map_iff in Hx.
    destruct Hx as (s & <- & Hs). rewrite Forall_forall in A4.
    apply (A4 s Hs).
  - eapply Forall_impl; [|exact A3]. cbv beta.
    intros g (G1 & G2 & G3 & G4). rewrite G2. auto.
  - eapply Forall_impl; [|exact A4]. cbv beta.
    intros s (S1 & S2). rewrite S2. auto.
  - unfold r, getAnalysis. cbn [prioritizedLearningPath gaps].
    rewrite learningPath_topics. intros x Hx. apply in_map_iff in Hx.
    destruct Hx as (g & <- & Hg). apply in_map.
    apply firstn_In in Hg. unfold serious in Hg. apply filter_In in Hg.
    tauto.
Qed.

Lemma analysis_topics_witness :
  map g_topic (gaps (getAnalysis (trackAll (create "mid") twoAnswers)))
  = ["JavaScript/TypeScript"]
  /\ len (strengths (getAnalysis (trackAll (create "mid") twoAnswers))) <= 14.
Proof.
  split; [vm_compute; reflexivity|].
  destruct (analysis_topics "mid" twoAnswers eq_refl eq_refl)
    as (_ & _ & _ & _ & _ & _ & _ & E & _).
  exact E.
Defined.

End SkillGapAnalysis.

(* ------------------------------------------------------------------ *)
(** ** Feedback report: counting and ranking statements *)

Section ReportLists.

Import Evaluation Report.

Lemma insertDescZ_perm : forall A (key : A -> Z) x l,
  Permutation (insertDescZ key x l) (x :: l).
Proof.
  intros A key x l. induction l as [|y r IH]; cbn [insertDescZ].
  - apply Permutation_refl.
  - destruct (0 <? key y - key x); [|apply Permutation_refl].
    eapply Permutation_trans; [apply perm_skip, IH|apply perm_swap].
Qed.

Lemma sortDescZ_perm : forall A (key : A -> Z) l,
  Permutation (sortDescZ key l) l.
Proof.
  intros A key l. unfold sortDescZ. induction l as [|x l IH]; cbn [fold_right].
  - apply Permutation_refl.
  - eapply Permutation_trans; [apply insertDescZ_perm|apply perm_skip, IH].
Qed.

Lemma insertDescZ_descending : forall A (key : A -> Z) x l,
  descending key l -> descending key (insertDescZ key x l).
Proof.
  unfold descending. intros A key x l H.
  induction H as [|y r Hr IH Hy]; cbn [insertDescZ].
  - constructor; [constructor|constructor].
  - destruct (Z.ltb_spec 0 (key y - key x)) as [Hlt|Hge].
    + constructor; [exact IH|].
      apply Forall_forall. intros z Hz.
      apply (Permutation_in _ (insertDescZ_perm A key x r)) in Hz.
      destruct Hz as [<-|Hz]; [lia|].
      rewrite Forall_forall in Hy. apply Hy, Hz.
    + constructor; [constructor; assumption|].
      constructor; [lia|].
      eapply Forall_impl; [|exact Hy]. cbv beta. intros z Hz. lia.
Qed.

Lemma sortDescZ_descending : forall A (key : A -> Z) l,
  descending key (sortDescZ key l).
Proof.
  intros A key l. unfold sortDescZ. induction l as [|x l IH]; cbn [fold_right].
  - constructor.
  - apply insertDescZ_descending, IH.
Qed.

(** The first [n] of a descending list are descending and no smaller
    than the rest. *)
Lemma descending_firstn : forall A (key : A -> Z) n l,
  descending key l ->
  descending key (firstn n l)
  /\ (forall x y, In x (firstn n l) -> In y (skipn n l) -> key y <= key x).
Proof.
  unfold descending. intros A key n l H. revert n.
  induction H as [|a l Hl IH Ha]; intros n.
  - rewrite firstn_nil, skipn_nil. split; [constructor|intros x y []].
  - destruct n as [|n]; cbn [firstn skipn].
    + split; [constructor|intros x y []].
    + destruct (IH n) as [I1 I2]. split.
      * constructor; [exact I1|].
        apply Forall_forall. intros z Hz. rewrite Forall_forall in Ha.
        apply Ha. eapply firstn_In, Hz.
      * intros x y [<-|Hx] Hy; [|apply I2; assumption].
        rewrite Forall_forall in Ha. apply Ha.
        rewrite <- (firstn_skipn n l). apply in_app_iff. now right.
Qed.

Lemma bump_keys : forall t c,
  map fst (AntiCheat.bump t c)
  = if strIn t (map fst c) then map fst c else map fst c ++ [t].
Proof.
  intros t c. induction c as [|[k n] r IH]; [reflexivity|].
  cbn [AntiCheat.bump map fst strIn existsb]. fold (strIn t (map fst r)).
  destruct (String.eqb t k); cbn [orb map fst]; [reflexivity|].
  rewrite IH. destruct (strIn t (map fst r)); reflexivity.
Qed.

Lemma bump_tallyOf : forall k t c,
  tallyOf k (AntiCheat.bump t c)
  = tallyOf k c + (if String.eqb k t then 1 else 0).
Proof.
  intros k t c. unfold tallyOf.
  induction c as [|[k0 n] r IH]; cbn [AntiCheat.bump lookup].
  - destruct (String.eqb k t); reflexivity.
  - destruct (String.eqb t k0) eqn:E0; cbn [lookup].
    + apply String.eqb_eq in E0. subst k0.
      destruct (String.eqb k t); lia.
    + destruct (String.eqb k k0) eqn:E1; [|exact IH].
      apply String.eqb_eq in E1. subst k0.
      rewrite String.eqb_sym, E0. lia.
Qed.

Lemma countIn_cons : forall k t l,
  countIn k (t :: l) = (if String.eqb k t then 1 else 0) + countIn k l.
Proof.
  intros k t l. unfold countIn, len. cbn [filter].
  destruct (String.eqb k t); cbn [List.length]; lia.
Qed.

Lemma countIn_nonneg : forall k l, 0 <= countIn k l.
Proof. intros k l. unfold countIn, len. lia. Qed.

Lemma countIn_positive : forall k l, In k l <-> 1 <= countIn k l.
Proof.
  intros k l. induction l as [|t l IH].
  - unfold countIn, len. cbn. split; [intros []|lia].
  - rewrite countIn_cons. pose proof (countIn_nonneg k l) as Hn.
    destruct (String.eqb_spec k t) as [->|Hne].
    + split; [lia|intros _; now left].
    + split.
      * intros [E|H]; [congruence|]. apply IH in H. lia.
      * intros H. right. apply IH. lia.
Qed.

(** What a tally holds: every statement once, with the number of its
    occurrences, in the order of first occurrence. *)
Lemma tally_from : forall l c,
  NoDup (map fst c) ->
  let c' := fold_left (fun counts s => AntiCheat.bump s counts) l c in
  NoDup (map fst c')
  /\ (forall k, In k (map fst c') <-> In k (map fst c) \/ In k l)
  /\ (forall k, tallyOf k c' = tallyOf k c + countIn k l).
Proof.
  induction l as [|t l IH]; intros c Hn; cbn [fold_left].
  - split; [exact Hn|]. split; [intros k; cbn [In]; tauto|].
    intros k. unfold countIn, len. cbn. lia.
  - assert (Hn' : NoDup (map fst (AntiCheat.bump t c))).
    { rewrite bump_keys. destruct (strIn t (map fst c)) eqn:E; [exact Hn|].
      apply NoDup_snoc; [exact Hn|]. intros Hin. apply strIn_iff in Hin.
      congruence. }
    destruct (IH (AntiCheat.bump t c) Hn') as (I1 & I2 & I3).
    split; [exact I1|]. split.
    + intros k. rewrite I2, bump_keys.
      destruct (strIn t (map fst c)) eqn:E.
      * apply strIn_iff in E. cbn [In]. split; [tauto|].
        intros [H|[<-|H]]; auto.
      * rewrite in_app_iff. cbn [In]. tauto.
    + intros k. rewrite I3, bump_tallyOf, countIn_cons. lia.
Qed.

Lemma lookup_entry : forall (c : list (string * Z)) k n,
  NoDup (map fst c) -> In (k, n) c -> lookup k c = Some n.
Proof.
  induction c as [|[k0 n0] r IH]; intros k n Hn Hin; [destruct Hin|].
  cbn [map fst] in Hn. inversion Hn as [|? ? Hk Hr]; subst.
  cbn [lookup]. destruct Hin as [E|Hin].
  - inversion E; subst. rewrite String.eqb_refl. reflexivity.
  - destruct (String.eqb_spec k k0) as [->|_]; [|apply IH; assumption].
    exfalso. apply Hk. apply in_map_iff. exists (k0, n). auto.
Qed.

Lemma tally_spec : forall l,
  NoDup (map fst (tally l))
  /\ (forall k n, In (k, n) (tally l) -> In k l /\ n = countIn k l)
  /\ (forall k, In k l -> In (k, countIn k l) (tally l)).
Proof.
  intros l. unfold tally.
  destruct (tally_from l [] (NoDup_nil _)) as (T1 & T2 & T3).
  cbv zeta in T1, T2, T3.
  set (c := fold_left (fun counts s => AntiCheat.bump s counts) l []) in *.
  split; [exact T1|]. split.
  - intros k n Hin. split.
    + destruct (T2 k) as [H _]. destruct H as [[]|H]; [|exact H].
      apply in_map_iff. exists (k, n). auto.
    + pose proof (T3 k) as E. unfold tallyOf in E.
      rewrite (lookup_entry c k n T1 Hin) in E. cbn in E. lia.
  - intros k Hk. destruct (T2 k) as [_ H]. specialize (H (or_intror Hk)).
    apply in_map_iff in H. destruct H as ([k' n] & E & Hin).
    cbn [fst] in E. subst k'.
    pose proof (T3 k) as E. unfold tallyOf in E.
    rewrite (lookup_entry c k n T1 Hin) in E. cbn in E.
    replace (countIn k l) with n by lia. exact Hin.
Qed.

(** The statements of one evaluation are different ones of the list. *)
Lemma pushIf_sublist : forall c s r full,
  NoDup (s :: full) -> NoDup r /\ incl r full ->
  NoDup (pushIf c s ++ r) /\ incl (pushIf c s ++ r) (s :: full).
Proof.
  intros c s r full Hn [Hr Hi]. inversion Hn as [|? ? Hs Hf]; subst.
  destruct c; cbn [pushIf app].
  - split; [constructor; [intros H; apply Hs, Hi, H|exact Hr]|].
    intros x [<-|Hx]; [now left|right; apply Hi, Hx].
  - split; [exact Hr|]. intros x Hx. right. apply Hi, Hx.
Qed.

Lemma pushIf_last : forall c s,
  NoDup (pushIf c s) /\ incl (pushIf c s) [s].
Proof.
  intros c s. destruct c; cbn [pushIf].
  - split; [constructor; [intros []|constructor]|apply incl_refl].
  - split; [constructor|intros x []].
Qed.

Lemma NoDup_tail : forall (x : string) l, NoDup (x :: l) -> NoDup l.
Proof. intros x l H. inversion H; assumption. Qed.

Ltac distinct_statements H :=
  repeat (apply pushIf_sublist; [exact H|apply NoDup_tail in H]);
  apply pushIf_last.

Lemma weaknesses_distinct : forall k c f ai,
  NoDup (identifyWeaknesses k c f ai)
  /\ incl (identifyWeaknesses k c f ai) weaknessTexts.
Proof.
  intros k c f ai. unfold identifyWeaknesses.
  assert (H : NoDup weaknessTexts).
  { unfold weaknessTexts.
    repeat (constructor; [cbn [In]; intuition discriminate|]). constructor. }
  unfold weaknessTexts in *. distinct_statements H.
Qed.

Lemma strengths_distinct : forall k c f ai,
  NoDup (identifyStrengths k c f ai)
  /\ incl (identifyStrengths k c f ai) strengthTexts.
Proof.
  intros k c f ai. unfold identifyStrengths.
  assert (H : NoDup strengthTexts).
  { unfold strengthTexts.
    repeat (constructor; [cbn [In]; intuition discriminate|]). constructor. }
  unfold strengthTexts in *. distinct_statements H.
Qed.

Lemma NoDup_firstn : forall (l : list string) n,
  NoDup l -> NoDup (firstn n l).
Proof.
  intros l n H. revert n. induction H as [|x l Hx Hl IH]; intros n.
  - rewrite firstn_nil. constructor.
  - destruct n as [|n]; cbn [firstn]; [constructor|].
    constructor; [|apply IH]. intros Hin. apply Hx. eapply firstn_In, Hin.
Qed.

Lemma firstn_mapped : forall A B (f : A -> B) n l,
  map f (firstn n l) = firstn n (map f l).
Proof.
  intros A B f n. induction n as [|n IH]; intros l; [reflexivity|].
  destruct l as [|x l]; [reflexivity|]. cbn [firstn map]. rewrite IH.
  reflexivity.
Qed.

Lemma descending_map : forall A B (f : A -> B) (key : A -> Z) (key' : B -> Z) l,
  (forall x, key' (f x) = key x) ->
  descending key l -> descending key' (map f l).
Proof.
  unfold descending. intros A B f key key' l Hk H.
  induction H as [|a l Hl IH Ha]; cbn [map]; constructor; [exact IH|].
  apply Forall_forall. intros y Hy. apply in_map_iff in Hy.
  destruct Hy as (x & <- & Hx). rewrite !Hk.
  rewrite Forall_forall in Ha. apply Ha, Hx.
Qed.

Lemma countIn_app : forall k l1 l2,
  countIn k (l1 ++ l2) = countIn k l1 + countIn k l2.
Proof.
  intros k l1 l2. unfold countIn, len. rewrite filter_app, length_app. lia.
Qed.

Lemma countIn_NoDup : forall k l, NoDup l -> countIn k l <= 1.
Proof.
  intros k l H. induction H as [|x l Hx Hl IH].
  - unfold countIn, len. cbn. lia.
  - rewrite countIn_cons. destruct (String.eqb_spec k x) as [->|_]; [|lia].
    pose proof (countIn_nonneg x l) as Hn.
    destruct (Z.eq_dec (countIn x l) 0) as [E|E]; [lia|].
    exfalso. apply Hx. apply countIn_positive. lia.
Qed.

Lemma countIn_flat_map : forall A (g : A -> list string) k l,
  (forall e, In e l -> NoDup (g e)) ->
  countIn k (flat_map g l) <= len l.
Proof.
  intros A g k l H. induction l as [|e l IH].
  - unfold countIn, len. cbn. lia.
  - cbn [flat_map]. rewrite countIn_app.
    pose proof (countIn_NoDup k (g e) (H e (or_introl eq_refl))) as H1.
    specialize (IH (fun e' He' => H e' (or_intror He'))).
    unfold len in *. cbn [List.length]. lia.
Qed.

(** The ranking both lists of the report share: the five most frequent
    statements of a collection, most frequent first. *)
Lemma ranking : forall statements : list string,
  let top := firstn 5 (sortDescZ snd (tally statements)) in
  len top <= 5
  /\ NoDup (map fst top)
  /\ descending snd top
  /\ (forall k n, In (k, n) top ->
        In k statements /\ n = countIn k statements /\ 1 <= n)
  /\ (forall w, In w statements ->
        In w (map fst top)
        \/ (len top = 5
            /\ forall k n, In (k, n) top -> countIn w statements <= n)).
Proof.
  intros statements top.
  destruct (tally_spec statements) as (T1 & T2 & T3).
  pose proof (sortDescZ_perm _ snd (tally statements)) as P.
  pose proof (sortDescZ_descending _ snd (tally statements)) as D.
  destruct (descending_firstn _ snd 5 _ D) as [D1 D2]. fold top in D1, D2.
  set (sorted := sortDescZ snd (tally statements)) in *.
  split; [|split; [|split; [|split]]].
  - unfold top, len. pose proof (firstn_le_length 5 sorted). lia.
  - unfold top. rewrite firstn_mapped. apply NoDup_firstn.
    eapply Permutation_NoDup; [|exact T1].
    apply Permutation_map, Permutation_sym, P.
  - exact D1.
  - intros k n Hin. unfold top in Hin. apply firstn_In in Hin.
    apply (Permutation_in _ P) in Hin. destruct (T2 k n Hin) as [H1 H2].
    split; [exact H1|]. split; [exact H2|]. rewrite H2.
    apply countIn_positive, H1.
  - intros w Hw. specialize (T3 w Hw).
    apply (Permutation_in _ (Permutation_sym P)) in T3.
    rewrite <- (firstn_skipn 5 sorted) in T3. apply in_app_iff in T3.
    fold top in T3. destruct T3 as [Hin|Hin].
    + left. apply in_map_iff. exists (w, countIn w statements). auto.
    + right. split.
      * unfold top, len. rewrite length_firstn.
        assert (5 < List.length sorted)%nat; [|lia].
        destruct (Nat.le_gt_cases (List.length sorted) 5) as [Hle|Hgt];
          [|exact Hgt].
        rewrite skipn_all2 in Hin by exact Hle. destruct Hin.
      * intros k n Hk. apply (D2 (k, n) (w, countIn w statements) Hk Hin).
Qed.

Lemma evaluateAll_weaknesses : forall exchanges e,
  In e (evaluateAll exchanges) ->
  NoDup (weaknesses e) /\ incl (weaknesses e) weaknessTexts.
Proof.
  intros exchanges e He. unfold evaluateAll in He. apply in_map_iff in He.
  destruct He as (x & <- & _). unfold evaluateAnswer. cbn [weaknesses].
  apply weaknesses_distinct.
Qed.

Lemma evaluateAll_strengths : forall exchanges e,
  In e (evaluateAll exchanges) ->
  NoDup (strengths e) /\ incl (strengths e) strengthTexts.
Proof.
  intros exchanges e He. unfold evaluateAll in He. apply in_map_iff in He.
  destruct He as (x & <- & _). unfold evaluateAnswer. cbn [strengths].
  apply strengths_distinct.
Qed.

(** X16.  The improvement areas of a report are the five most frequent
    weaknesses of the evaluations, most frequent first: at most five
    items on different weaknesses; the frequency of an item is the number
    of evaluations that state the weakness, at least 1 and at most the
    number of evaluations; the priority is high from three evaluations
    on, medium for two, low for one; and a weakness that is left out was
    stated no more often than any of the five items. *)
Theorem improvements_ranked :
  forall exchanges : list (string * string * Z),
    let evaluations := evaluateAll exchanges in
    let stated := flat_map weaknesses evaluations in
    let items := extractImprovements evaluations in
    len items <= 5
    /\ NoDup (map i_text items)
    /\ descending i_frequency items
    /\ Forall (fun it =>
                 In (i_text it) weaknessTexts
                 /\ i_frequency it = countIn (i_text it) stated
                 /\ 1 <= i_frequency it <= len evaluations
                 /\ (i_priority it = high <-> 3 <= i_frequency it)
                 /\ (i_priority it = low <-> i_frequency it = 1))
         items
    /\ (forall w, In w stated ->
          In w (map i_text items)
          \/ (len items = 5
              /\ Forall (fun it => countIn w stated <= i_frequency it) items)).
Proof.
  intros exchanges evaluations stated items.
  destruct (ranking stated) as (R1 & R2 & R3 & R4 & R5).
  unfold items, extractImprovements. fold stated.
  set (top := firstn 5 (sortDescZ snd (tally stated))) in *.
  set (mk := fun wc : string * Z =>
               {| i_text := fst wc; i_frequency := snd wc;
                  i_priority :=
                    if 3 <=? snd wc then high
                    else if 2 <=? snd wc then medium else low |}).
  assert (Et : map i_text (map mk top) = map fst top)
    by (rewrite map_map; reflexivity).
  assert (El : len (map mk top) = len top)
    by (unfold len; rewrite length_map; reflexivity).
  split; [rewrite El; exact R1|]. split; [rewrite Et; exact R2|].
  split; [apply (descending_map _ _ mk snd); [reflexivity|exact R3]|].
  split.
  - apply Forall_forall. intros it Hit. apply in_map_iff in Hit.
    destruct Hit as ([k n] & <- & Hin). cbn [mk i_text i_frequency i_priority fst snd].
    destruct (R4 k n Hin) as (H1 & H2 & H3).
    assert (Hle : n <= len evaluations).
    { rewrite H2. apply countIn_flat_map. intros e He.
      apply (evaluateAll_weaknesses exchanges e He). }
    split.
    { unfold stated in H1. apply in_flat_map in H1.
      destruct H1 as (e & He & Hk).
      apply (evaluateAll_weaknesses exchanges e He), Hk. }
    split; [exact H2|]. split; [lia|].
    destruct (Z.leb_spec 3 n), (Z.leb_spec 2 n); split;
      split; intros; try lia; try discriminate; reflexivity.
  - intros w Hw. destruct (R5 w Hw) as [H|[H1 H2]].
    + left. rewrite Et. exact H.
    + right. split; [rewrite El; exact H1|].
      apply Forall_forall. intros it Hit. apply in_map_iff in Hit.
      destruct Hit as ([k n] & <- & Hin). cbn [mk i_frequency snd].
      apply (H2 k n Hin).
Qed.

Lemma strengthTexts_plain :
  forallb (fun t => negb (includes "confident" t))
    ("Consistent technical accuracy" :: strengthTexts) = true
  /\ includes "technical" "Strong technical understanding" = true
  /\ includes "technical" "Good use of technical terminology" = true
  /\ ~ In "Consistent technical accuracy" strengthTexts
  /\ ~ In "Strong professional demeanor" strengthTexts.
Proof.
  split; [vm_compute; reflexivity|]. split; [vm_compute; reflexivity|].
  split; [vm_compute; reflexivity|].
  split; unfold strengthTexts; cbn [In]; intuition discriminate.
Qed.

Lemma firstn_whole_or_full : forall A n (l : list A),
  firstn n l = l \/ List.length (firstn n l) = n.
Proof.
  intros A n l. destruct (Nat.le_gt_cases (List.length l) n) as [H|H].
  - left. apply firstn_all2, H.
  - right. rewrite length_firstn. lia.
Qed.

(** X17.  The top strengths of a report: at most five items with
    different texts.  An item is either one of the five most frequent
    strengths of the evaluations, with the number of evaluations that
    state it, or one of the two dimension-level strengths, with
    frequency 0.  "Consistent technical accuracy" is only listed when the
    AI judgment averages at least 7 and neither counted strength that
    mentions the word technical is listed.  "Strong professional
    demeanor" is listed whenever the confidence averages at least 7 and
    there is room among the five, also beside "Confident and assertive
    communication": the test for the word confident is case sensitive and
    no counted strength contains it in lower case. *)
Theorem topStrengths_shape :
  forall (exchanges : list (string * string * Z)) (aggregated : Aggregated),
    let evaluations := evaluateAll exchanges in
    let stated := flat_map strengths evaluations in
    let items := extractTopStrengths evaluations aggregated in
    len items <= 5
    /\ NoDup (map s_text items)
    /\ Forall (fun it =>
                 (In (s_text it) strengthTexts
                  /\ s_frequency it = countIn (s_text it) stated
                  /\ 1 <= s_frequency it <= len evaluations)
                 \/ (In (s_text it)
                       ["Consistent technical accuracy";
                        "Strong professional demeanor"]
                     /\ s_frequency it = 0 /\ s_consistency it = 0))
         items
    /\ (In "Consistent technical accuracy" (map s_text items) ->
        geb (agg_aiJudgment aggregated) 7 = true
        /\ ~ In "Strong technical understanding" (map s_text items)
        /\ ~ In "Good use of technical terminology" (map s_text items))
    /\ (In "Strong professional demeanor" (map s_text items) ->
        geb (agg_confidence aggregated) 7 = true)
    /\ (geb (agg_confidence aggregated) 7 = true ->
        In "Strong professional demeanor" (map s_text items)
        \/ len items = 5).
Proof.
  intros exchanges aggregated evaluations stated items.
  destruct (ranking stated) as (R1 & R2 & R3 & R4 & _).
  destruct strengthTexts_plain as (P1 & P2 & P3 & P4 & P5).
  unfold items, extractTopStrengths. fold stated. cbv zeta.
  set (top0 := firstn 5 (sortDescZ snd (tally stated))) in *.
  set (mk := fun sc : string * Z =>
               {| s_text := fst sc; s_frequency := snd sc;
                  s_consistency :=
                    Math_round_Z
                      (Z2F (snd sc) / Z2F (Z.max (len evaluations) 1) * 100) |}).
  set (top := map mk top0).
  set (tech := {| s_text := "Consistent technical accuracy";
                  s_frequency := 0; s_consistency := 0 |}).
  set (dem := {| s_text := "Strong professional demeanor";
                 s_frequency := 0; s_consistency := 0 |}).
  assert (Et : map s_text top = map fst top0)
    by (unfold top; rewrite map_map; reflexivity).
  assert (Hsub : incl (map s_text top) strengthTexts).
  { rewrite Et. intros k Hk. apply in_map_iff in Hk.
    destruct Hk as ([k' n] & E & Hin). cbn [fst] in E. subst k'.
    destruct (R4 k n Hin) as (H1 & _). unfold stated in H1.
    apply in_flat_map in H1. destruct H1 as (e & He & Hk).
    apply (evaluateAll_strengths exchanges e He), Hk. }
  set (c1 := geb (agg_aiJudgment aggregated) 7
             && negb (existsb (fun s => includes "technical" (s_text s)) top)).
  set (X := if c1 then [tech] else []).
  assert (EX : (if c1 then top ++ [tech] else top) = top ++ X).
  { unfold X. destruct c1; [reflexivity|]. rewrite app_nil_r. reflexivity. }
  rewrite EX.
  assert (Hplain : existsb (fun s => includes "confident" (s_text s)) (top ++ X)
                   = false).
  { apply not_true_is_false. intros H. apply existsb_exists in H.
    destruct H as (it & Hit & Hc).
    rewrite forallb_forall in P1.
    assert (Hin : In (s_text it) ("Consistent technical accuracy" :: strengthTexts)).
    { apply in_app_iff in Hit. destruct Hit as [Hit|Hit].
      - right. apply Hsub. apply in_map, Hit.
      - unfold X in Hit. destruct c1; [|destruct Hit].
        destruct Hit as [<-|[]]. now left. }
    apply P1 in Hin. rewrite Hc in Hin. discriminate. }
  rewrite Hplain, andb_true_r.
  set (Y := if geb (agg_confidence aggregated) 7 then [dem] else []).
  assert (EY : (if geb (agg_confidence aggregated) 7 then (top ++ X) ++ [dem]
                else top ++ X) = top ++ X ++ Y).
  { unfold Y. destruct (geb (agg_confidence aggregated) 7).
    - rewrite app_assoc. reflexivity.
    - rewrite app_nil_r. reflexivity. }
  rewrite EY.
  set (whole := top ++ X ++ Y).
  assert (Htexts : forall k, In k (map s_text whole) ->
             In k (map s_text top)
             \/ (k = "Consistent technical accuracy" /\ c1 = true)
             \/ (k = "Strong professional demeanor"
                 /\ geb (agg_confidence aggregated) 7 = true)).
  { intros k Hk. unfold whole in Hk. rewrite !map_app, !in_app_iff in Hk.
    destruct Hk as [Hk|[Hk|Hk]]; [auto| |].
    - unfold X in Hk. destruct c1; [|destruct Hk].
      destruct Hk as [<-|[]]. auto.
    - unfold Y in Hk. destruct (geb (agg_confidence aggregated) 7);
        [|destruct Hk]. destruct Hk as [<-|[]]. auto. }
  assert (Hnd : NoDup (map s_text whole)).
  { unfold whole. rewrite !map_app.
    assert (N1 : NoDup (map s_text X ++ map s_text Y)).
    { unfold X, Y. destruct c1, (geb (agg_confidence aggregated) 7);
        cbn [map app s_text tech dem];
        repeat (constructor; [cbn [In]; intuition discriminate|]);
        constructor. }
    assert (N0 : NoDup (map s_text top)) by (rewrite Et; exact R2).
    clear - N0 N1 Hsub P4 P5.
    assert (Hout : forall k, In k (map s_text X ++ map s_text Y) ->
                             ~ In k strengthTexts).
    { intros k Hk. apply in_app_iff in Hk. unfold X, Y in Hk.
      destruct Hk as [Hk|Hk].
      - destruct c1; [|destruct Hk]. destruct Hk as [<-|[]]. exact P4.
      - destruct (geb (agg_confidence aggregated) 7); [|destruct Hk].
        destruct Hk as [<-|[]]. exact P5. }
    induction N0 as [|k l Hk Hl IH]; [exact N1|].
    cbn [app]. constructor.
    - rewrite in_app_iff. intros [H|H]; [auto|].
      apply (Hout k H). apply Hsub. now left.
    - apply IH. intros x Hx. apply Hsub. now right. }
  assert (Hres : forall k, In k (map s_text (firstn 5 whole)) ->
                           In k (map s_text whole)).
  { intros k Hk. rewrite firstn_mapped in Hk. eapply firstn_In, Hk. }
  split; [|split; [|split; [|split; [|split]]]].
  - unfold len. pose proof (firstn_le_length 5 whole). lia.
  - rewrite firstn_mapped. apply NoDup_firstn, Hnd.
  - apply Forall_forall. intros it Hit. apply firstn_In in Hit.
    unfold whole in Hit. rewrite !in_app_iff in Hit.
    destruct Hit as [Hit|[Hit|Hit]].
    + left. unfold top in Hit. apply in_map_iff in Hit.
      destruct Hit as ([k n] & <- & Hin). cbn [mk s_text s_frequency fst snd].
      destruct (R4 k n Hin) as (H1 & H2 & H3).
      split; [apply Hsub; rewrite Et; apply in_map_iff; exists (k, n); auto|].
      split; [exact H2|]. split; [exact H3|]. rewrite H2.
      apply countIn_flat_map. intros e He.
      apply (evaluateAll_strengths exchanges e He).
    + right. unfold X in Hit. destruct c1; [|destruct Hit].
      destruct Hit as [<-|[]]. cbn. auto.
    + right. unfold Y in Hit. destruct (geb (agg_confidence aggregated) 7);
        [|destruct Hit]. destruct Hit as [<-|[]]. cbn. auto.
  - intros Hin. apply Hres in Hin.
    destruct (Htexts _ Hin) as [H|[[_ H]|[H _]]];
      [exfalso; apply P4, Hsub, H| |discriminate H].
    unfold c1 in H. apply andb_true_iff in H. destruct H as [H1 H2].
    split; [exact H1|].
    apply negb_true_iff in H2.
    assert (Hno : forall k, includes "technical" k = true ->
                            k <> "Consistent technical accuracy" ->
                            ~ In k (map s_text (firstn 5 whole))).
    { intros k Hk Hne Hk'. apply Hres in Hk'.
      destruct (Htexts _ Hk') as [H|[[E _]|[E _]]].
      - apply in_map_iff in H. destruct H as (it & <- & Hit).
        assert (existsb (fun s => includes "technical" (s_text s)) top = true)
          by (apply existsb_exists; exists it; auto).
        congruence.
      - exact (Hne E).
      - subst k. vm_compute in Hk. discriminate Hk. }
    split; apply Hno; try assumption; discriminate.
  - intros Hin. apply Hres in Hin.
    destruct (Htexts _ Hin) as [H|[[H _]|[_ H]]];
      [exfalso; apply P5, Hsub, H|discriminate H|exact H].
  - intros Hc.
    destruct (firstn_whole_or_full _ 5 whole) as [E|E].
    + left. rewrite E. unfold whole, Y. rewrite Hc, !map_app, !in_app_iff.
      right. right. now left.
    + right. unfold len. rewrite E. reflexivity.
Qed.

Lemma nth_error_last : forall A (l : list A) d,
  l <> [] -> nth_error l (List.length l - 1) = Some (List.last l d).
Proof.
  intros A l d. induction l as [|x l IH]; intros H; [congruence|].
  destruct l as [|y l]; [reflexivity|].
  cbn [List.length] in *. replace (S (S (List.length l)) - 1)%nat
    with (S (List.length l)) by lia.
  cbn [nth_error]. change (List.last (x :: y :: l) d) with (List.last (y :: l) d).
  rewrite <- IH by discriminate. f_equal. lia.
Qed.

Lemma descending_ends : forall A (key : A -> Z) x l d,
  descending key (x :: l) ->
  Forall (fun e => key (List.last (x :: l) d) <= key e <= key x) (x :: l).
Proof.
  unfold descending. intros A key x l d. revert x.
  induction l as [|y l IH]; intros x H.
  - constructor; [cbn; lia|constructor].
  - inversion H as [|? ? Hl Hx]; subst.
    specialize (IH y Hl).
    change (List.last (x :: y :: l) d) with (List.last (y :: l) d).
    rewrite Forall_forall in IH, Hx.
    assert (Hlast : key (List.last (y :: l) d) <= key y)
      by (apply (IH y); now left).
    pose proof (Hx y (or_introl eq_refl)) as Hy.
    apply Forall_forall. intros e [<-|He]; [lia|].
    specialize (IH e He). specialize (Hx e He). lia.
Qed.

(** X18.  The answer highlights of a report rank the evaluations by
    composite score, highest first: the list has one entry per
    evaluation, numbered from 1, with the scores of the evaluations in
    descending order and at most two strengths and two weaknesses each;
    the best answer has the highest and the worst the lowest composite
    score of all; without evaluations there is no best and no worst. *)
Theorem highlights_ranked : forall evaluations : list Evaluation,
  let h := generateAnswerHighlights evaluations in
  (evaluations = [] -> best h = None /\ worst h = None /\ all h = [])
  /\ (evaluations <> [] ->
      exists b w,
        best h = Some b /\ worst h = Some w
        /\ In b evaluations /\ In w evaluations
        /\ Forall (fun e => compositeScore w <= compositeScore e
                           <= compositeScore b) evaluations)
  /\ len (all h) = len evaluations
  /\ map h_index (all h) = Zseq 1 (List.length evaluations)
  /\ descending h_score (all h)
  /\ Permutation (map h_score (all h)) (map compositeScore evaluations)
  /\ Forall (fun x => len (h_strengths x) <= 2 /\ len (h_weaknesses x) <= 2)
       (all h).
Proof.
  intros evaluations h.
  split; [intros ->; cbn; auto|].
  unfold h, generateAnswerHighlights.
  destruct evaluations as [|e0 evals].
  - cbn. split; [congruence|]. unfold descending. repeat split; constructor.
  - set (evaluations := e0 :: evals) in *.
    pose proof (sortDescZ_perm _ compositeScore evaluations) as P.
    pose proof (sortDescZ_descending _ compositeScore evaluations) as D.
    set (sorted := sortDescZ compositeScore evaluations) in *.
    assert (Hlen : List.length sorted = List.length evaluations)
      by apply (Permutation_length P).
    assert (E0 : (len evaluations =? 0) = false).
    { apply Z.eqb_neq. unfold len. subst evaluations. cbn [List.length]. lia. }
    rewrite E0.
    cbn [best worst all].
    set (mk := fun ie : Z * Evaluation =>
                 {| h_index := fst ie + 1;
                    h_score := compositeScore (snd ie);
                    h_strengths := firstn 2 (strengths (snd ie));
                    h_weaknesses := firstn 2 (weaknesses (snd ie)) |}).
    destruct (numberFrom_spec _ sorted 0) as [N1 N2].
    assert (Hscore : map h_score (map mk (SkillGap.numberFrom 0 sorted))
                     = map compositeScore sorted).
    { rewrite map_map. cbn [mk h_score].
      rewrite <- (map_map snd compositeScore), N2. reflexivity. }
    split; [|split; [|split; [|split; [|split]]]].
    + intros _. destruct sorted as [|b rest] eqn:Es;
        [cbn in Hlen; discriminate|].
      exists b, (List.last (b :: rest) b).
      split; [reflexivity|].
      split; [apply nth_error_last; discriminate|].
      assert (Hb : In b evaluations)
        by (apply (Permutation_in _ P); now left).
      assert (Hw : In (List.last (b :: rest) b) evaluations).
      { apply (Permutation_in _ P).
        destruct (exists_last (l := b :: rest) ltac:(discriminate))
          as (l' & a & E). rewrite E, last_last.
        apply in_app_iff. right. now left. }
      split; [exact Hb|]. split; [exact Hw|].
      pose proof (descending_ends _ compositeScore b rest b D) as F.
      rewrite Forall_forall in F |- *. intros e He.
      apply F. apply (Permutation_in _ (Permutation_sym P)), He.
    + unfold len. rewrite length_map.
      rewrite <- (length_map fst), N1.
      assert (forall i n, List.length (Zseq i n) = n) as Z.
      { intros i n. revert i. induction n as [|n IH]; intros i;
          [reflexivity|]. cbn [Zseq List.length]. rewrite IH. reflexivity. }
      rewrite Z, Hlen. reflexivity.
    + rewrite map_map. cbn [mk h_index].
      rewrite <- Hlen.
      assert (G : forall i (l : list Evaluation),
                 map (fun x : Z * Evaluation => fst x + 1)
                   (SkillGap.numberFrom i l)
                 = Zseq (i + 1) (List.length l)).
      { intros i l. revert i. induction l as [|x l IH]; intros i;
          [reflexivity|].
        cbn [SkillGap.numberFrom map fst List.length Zseq]. rewrite IH.
        reflexivity. }
      apply (G 0 sorted).
    + assert (G : forall i (l : list Evaluation),
                 descending compositeScore l ->
                 descending h_score (map mk (SkillGap.numberFrom i l))).
      { unfold descending. intros i l Hl. revert i.
        induction Hl as [|x l Hl IH Hx]; intros i;
          cbn [SkillGap.numberFrom map]; constructor; [apply IH|].
        apply Forall_forall. intros y Hy. apply in_map_iff in Hy.
        destruct Hy as ([j z] & <- & Hz). cbn [mk h_score snd].
        rewrite Forall_forall in Hx. apply Hx.
        destruct (numberFrom_spec _ l (i + 1)) as [_ E].
        rewrite <- E. apply in_map_iff. exists (j, z). auto. }
      apply G, D.
    + rewrite Hscore. apply Permutation_map, P.
    + apply Forall_forall. intros x Hx. apply in_map_iff in Hx.
      destruct Hx as (ie & <- & _). cbn [mk h_strengths h_weaknesses].
      unfold len. split.
      * pose proof (firstn_le_length 2 (strengths (snd ie))). lia.
      * pose proof (firstn_le_length 2 (weaknesses (snd ie))). lia.
Qed.

End ReportLists.

(* ------------------------------------------------------------------ *)
(** ** The final score: pass mark and performance tier *)

Section FinalScore.

Import Feedback Server.

Lemma above_mantissa : forall c c' m : positive,
  (c' <= c)%positive ->
  match (c ?= m)%positive with Gt => false | _ => true end = true ->
  match (c' ?= m)%positive with Gt => false | _ => true end = true.
Proof.
  intros c c' m Hle H.
  assert (Hc : (c <= m)%positive)
    by (unfold Pos.le; destruct (c ?= m)%positive; congruence).
  pose proof (Pos.le_trans _ _ _ Hle Hc) as Ht. unfold Pos.le in Ht.
  destruct (c' ?= m)%positive; congruence.
Qed.

(** A number that is at least [x] is at least the smaller [y], read off
    the binary representations of the two constants. *)
Ltac above_six :=
  let a := fresh "a" in
  intros a; unfold geb; rewrite !leb_spec;
  match goal with
  | |- SFleb (Prim2SF ?x) _ = true -> SFleb (Prim2SF ?y) _ = true =>
      let vx := eval vm_compute in (Prim2SF x) in
      let vy := eval vm_compute in (Prim2SF y) in
      change (Prim2SF x) with vx; change (Prim2SF y) with vy
  end;
  destruct (Prim2SF a) as [?|?| |? ? ?];
  try match goal with s : bool |- _ => destruct s end;
  cbv [SFleb SFcompare]; try congruence;
  change (PosDef.Pos.compare_cont Eq) with Pos.compare;
  repeat match goal with
         | |- context [(?x ?= ?y)%Z] => destruct (Z.compare_spec x y)
         end;
  try reflexivity; try congruence; try lia;
  apply above_mantissa; vm_compute; discriminate.

Lemma geb_9_6 : forall a : float, geb a 9 = true -> geb a 6 = true.
Proof. above_six. Qed.

Lemma geb_75_6 : forall a : float, geb a 7.5 = true -> geb a 6 = true.
Proof. above_six. Qed.

(** X19.  The pass mark of the server and the tiers of the report
    agree: whatever the final score, the interview is passed exactly when
    the tier is exceptional, strong or competent; and the tier is always
    one of the five. *)
Theorem passed_iff_tier : forall avg : float,
  let tier := getPerformanceTier avg in
  (passes avg = true
   <-> In (key tier) ["exceptional"; "strong"; "competent"])
  /\ In tier PERFORMANCE_TIERS.
Proof.
  intros avg tier.
  unfold tier, getPerformanceTier, PERFORMANCE_TIERS, passes, beginner.
  cbn [find min].
  pose proof (geb_9_6 avg) as H96. pose proof (geb_75_6 avg) as H756.
  destruct (geb avg 9) eqn:E9.
  { rewrite (H96 eq_refl). cbn [key In]. split; [tauto|auto]. }
  destruct (geb avg 7.5) eqn:E75.
  { rewrite (H756 eq_refl). cbn [key In]. split; [tauto|auto]. }
  destruct (geb avg 6) eqn:E6.
  { cbn [key In]. split; [tauto|auto]. }
  destruct (geb avg 4) eqn:E4.
  { cbn [key In]. split; [|do 3 right; left; reflexivity].
    split; [discriminate|]. intros [H|[H|[H|[]]]]; discriminate H. }
  destruct (geb avg 0) eqn:E0; cbn [key In];
    (split; [|do 4 right; left; reflexivity]);
    (split; [discriminate|]); intros [H|[H|[H|[]]]]; discriminate H.
Qed.

End FinalScore.

(* ------------------------------------------------------------------ *)
(** ** The chat endpoint: a session and its engines *)

Section Sessions.

Import Evaluation Server.

Lemma extractScore_range : forall response,
  0 <= aiScore (extractScore response) <= 10
  /\ (scoreMatch (extractScore response) = false ->
      aiScore (extractScore response) = 0).
Proof.
  intros response. unfold extractScore.
  destruct (findScoreMarker response "") as [[[n before] rest]|];
    cbn [aiScore scoreMatch]; split; try lia; try discriminate; auto.
Qed.

Lemma compositeScore_range : forall answer question ai,
  0 <= ai <= 10 ->
  0 <= compositeScore (evaluateAnswer answer question ai) <= 10.
Proof.
  intros answer question ai Ha. unfold evaluateAnswer. cbn [compositeScore].
  pose proof (kw_score_range answer question) as Hk.
  pose proof (c_score_range answer) as Hc.
  pose proof (conf_score_range answer) as Hf.
  pose proof (weightedComposite_range ai
                (kw_score (evaluateKeywordCoverage answer question))
                (c_score (evaluateCompleteness answer))
                (conf_score (evaluateConfidence answer))
                Ha Hk ltac:(lia) ltac:(lia)).
  lia.
Qed.

Lemma sumZ_snoc : forall l x, sumZ (l ++ [x]) = sumZ l + x.
Proof. intros l x. unfold sumZ. rewrite fold_left_app. reflexivity. Qed.

Lemma getNextQuestionConfig_some : forall m,
  In (Adaptive.currentLevel m) [1; 2; 3] ->
  exists config, snd (Adaptive.getNextQuestionConfig m) = Some config.
Proof.
  intros m Hl. destruct (levelConfig_defined _ Hl) as (lv & E).
  unfold Adaptive.getNextQuestionConfig. cbv zeta. rewrite E.
  destruct (Adaptive.followUpPending m), (Adaptive.followUpContext m);
    eexists; reflexivity.
Qed.

(** [getNextQuestionConfig] moves the rotation and the follow-up flag
    only. *)
Lemma getNextQuestionConfig_fields : forall m,
  let m' := fst (Adaptive.getNextQuestionConfig m) in
  Adaptive.currentLevel m' = Adaptive.currentLevel m
  /\ Adaptive.scoreHistory m' = Adaptive.scoreHistory m
  /\ Adaptive.levelHistory m' = Adaptive.levelHistory m
  /\ Adaptive.questionIndex m <= Adaptive.questionIndex m'
     <= Adaptive.questionIndex m + 1.
Proof.
  intros m. cbv zeta. unfold Adaptive.getNextQuestionConfig. cbv zeta.
  destruct (Adaptive.followUpPending m), (Adaptive.followUpContext m),
    (Adaptive.levelConfig (Adaptive.currentLevel m));
    cbn [fst Adaptive.setFollowUp Adaptive.currentLevel Adaptive.scoreHistory
         Adaptive.levelHistory Adaptive.questionIndex];
    repeat split; lia.
Qed.

Lemma shouldFollowUp_fields : forall m score question answer,
  let m' := fst (Adaptive.shouldFollowUp m score question answer) in
  Adaptive.currentLevel m' = Adaptive.currentLevel m
  /\ Adaptive.scoreHistory m' = Adaptive.scoreHistory m
  /\ Adaptive.levelHistory m' = Adaptive.levelHistory m
  /\ Adaptive.questionIndex m' = Adaptive.questionIndex m.
Proof.
  intros m score question answer. cbv zeta. unfold Adaptive.shouldFollowUp.
  cbv zeta.
  repeat match goal with |- context [if ?c then _ else _] => destruct c end;
    cbn [fst Adaptive.setFollowUp Adaptive.currentLevel Adaptive.scoreHistory
         Adaptive.levelHistory Adaptive.questionIndex];
    repeat split.
Qed.

Lemma recordScore_entry : forall m score,
  In (Adaptive.currentLevel m) [1; 2; 3] ->
  exists m1 entry,
    Adaptive.recordScore m score = (m1, Some entry)
    /\ Adaptive.scoreHistory m1 = Adaptive.scoreHistory m ++ [score]
    /\ Adaptive.questionIndex m1 = Adaptive.questionIndex m.
Proof.
  intros m score H.
  destruct (recordScore_nextLevel m score H) as (entry & E & _).
  cbv zeta in E. eexists. exists entry.
  split; [exact E|split; reflexivity].
Qed.

Lemma questionAsked_inStep : forall n m now,
  inStep n m -> inStep n (AntiCheat.questionAsked m now).
Proof. intros n m now H. exact H. Qed.

Lemma wellFormed_levelled : forall m, Spec.wellFormed 1 m -> levelled m.
Proof. intros m (H1 & H2 & _). split; assumption. Qed.

Lemma levelled_fields : forall m m',
  levelled m ->
  In (Adaptive.currentLevel m') [1; 2; 3] ->
  len (Adaptive.scoreHistory m') = len (Adaptive.scoreHistory m) ->
  len (Adaptive.levelHistory m') = len (Adaptive.levelHistory m) ->
  levelled m'.
Proof. intros m m' (H1 & H2) Hl Hs Hh. split; [exact Hl|lia]. Qed.

Lemma getNextQuestionConfig_levelled : forall m,
  levelled m -> levelled (fst (Adaptive.getNextQuestionConfig m)).
Proof.
  intros m H. destruct (getNextQuestionConfig_fields m) as (E1 & E2 & E3 & _).
  apply (levelled_fields m); [exact H| | |].
  - rewrite E1. apply H.
  - rewrite E2. reflexivity.
  - rewrite E3. reflexivity.
Qed.

Lemma shouldFollowUp_levelled : forall m score question answer,
  levelled m -> levelled (fst (Adaptive.shouldFollowUp m score question answer)).
Proof.
  intros m score question answer H.
  destruct (shouldFollowUp_fields m score question answer) as (E1 & E2 & E3 & _).
  apply (levelled_fields m); [exact H| | |].
  - rewrite E1. apply H.
  - rewrite E2. reflexivity.
  - rewrite E3. reflexivity.
Qed.

Lemma recordScore_levelled : forall m score,
  levelled m -> levelled (fst (Adaptive.recordScore m score)).
Proof.
  intros m score (Hl & Hn).
  destruct (recordScore_fields m score Hl) as (H1 & _ & H3 & H4).
  cbv zeta in H1, H3, H4. split; [exact H1|].
  rewrite H3, H4, !len_app1. lia.
Qed.

Ltac fields :=
  cbn [questionCount totalScore scoredCount completed finalScore
       adaptiveManager antiCheat skillGap answerEvaluations
       questionAnswerPairs resumePrompt domainPrompt lastQuestionConfig
       history fst snd].

Ltac fields_in H :=
  cbn [questionCount totalScore scoredCount completed finalScore
       adaptiveManager antiCheat skillGap answerEvaluations
       questionAnswerPairs resumePrompt domainPrompt lastQuestionConfig
       history fst snd]
    in H.

(** The engines are in step as a matter of five fields of the session,
    the counters as a matter of six. *)
Lemma engines_fields : forall s s',
  engines s ->
  adaptiveManager s' = adaptiveManager s ->
  antiCheat s' = antiCheat s ->
  skillGap s' = skillGap s ->
  answerEvaluations s' = answerEvaluations s ->
  questionAnswerPairs s' = questionAnswerPairs s ->
  engines s'.
Proof.
  intros s s' H E1 E2 E3 E4 E5. unfold engines in *.
  rewrite E1, E2, E3, E4, E5. exact H.
Qed.

Lemma counters_fields : forall s s',
  counters s -> sameRecords s s' -> counters s'.
Proof.
  intros s s' H (E1 & E2 & E3 & E4 & E5 & E6 & E7). unfold counters in *.
  rewrite E1, E2, E3, E4, E5, E6. exact H.
Qed.

Lemma evaluatedCounters_fields : forall s s',
  evaluatedCounters s -> sameRecords s s' -> evaluatedCounters s'.
Proof.
  intros s s' H (E1 & E2 & E3 & E4 & E5 & E6 & E7).
  unfold evaluatedCounters in *. rewrite E2, E3, E6. exact H.
Qed.

Lemma sameRecords_refl : forall s, sameRecords s s.
Proof. intros s. repeat split. Qed.

Lemma sameRecords_trans : forall s1 s2 s3,
  sameRecords s1 s2 -> sameRecords s2 s3 -> sameRecords s1 s3.
Proof.
  intros s1 s2 s3 (A1 & A2 & A3 & A4 & A5 & A6 & A7)
    (B1 & B2 & B3 & B4 & B5 & B6 & B7).
  repeat split; congruence.
Qed.

(** [buildSystemPrompt] returns a prompt when the level has a
    configuration, and changes the manager and the remembered
    configuration only. *)
Lemma buildSystemPrompt_spec : forall s,
  In (Adaptive.currentLevel (adaptiveManager s)) [1; 2; 3] ->
  exists m config prompt,
    Adaptive.getNextQuestionConfig (adaptiveManager s) = (m, Some config)
    /\ buildSystemPrompt s = (setManager s m (Some config), Some prompt).
Proof.
  intros s Hl. destruct (getNextQuestionConfig_some _ Hl) as (config & Ec).
  unfold buildSystemPrompt.
  destruct (Adaptive.getNextQuestionConfig (adaptiveManager s)) as [m c].
  cbn [snd] in Ec. subst c. do 3 eexists. split; reflexivity.
Qed.

(** What the resume branch changes. *)
Lemma applyResume_spec : forall s r sr,
  (if isWord "__start__" (message r) then applyResume s (resume r)
   else Some s) = Some sr ->
  sameRecords s sr
  /\ antiCheat sr = antiCheat s
  /\ history sr = history s
  /\ lastQuestionConfig sr = lastQuestionConfig s
  /\ Adaptive.scoreHistory (adaptiveManager sr)
     = Adaptive.scoreHistory (adaptiveManager s)
  /\ Adaptive.levelHistory (adaptiveManager sr)
     = Adaptive.levelHistory (adaptiveManager s)
  /\ Adaptive.questionIndex (adaptiveManager sr)
     = Adaptive.questionIndex (adaptiveManager s)
  /\ Adaptive.followUpPending (adaptiveManager sr)
     = Adaptive.followUpPending (adaptiveManager s)
  /\ (In (Adaptive.currentLevel (adaptiveManager s)) [1; 2; 3] ->
      In (Adaptive.currentLevel (adaptiveManager sr)) [1; 2; 3])
  /\ (skillGap sr = skillGap s
      \/ exists role, skillGap sr = SkillGap.create role)
  /\ (resumeApplied r = false ->
      adaptiveManager sr = adaptiveManager s /\ skillGap sr = skillGap s)
  /\ (Adaptive.currentLevel (adaptiveManager s) = 1 ->
      Adaptive.currentLevel (adaptiveManager sr) = openingLevel r)
  /\ negb (isWord "__start__" (message r) && unreadable (resume r)) = true.
Proof.
  intros s r sr. unfold resumeApplied, openingLevel.
  destruct (isWord "__start__" (message r)); cbn [andb].
  - destruct (resume r) as [| |parsed]; cbn [applyResume unreadable negb];
      intros E; try discriminate; injection E as <-.
    + split; [apply sameRecords_refl|]. repeat split; auto.
    + unfold generateResumeBasedPrompt.
      destruct (skillCount parsed =? 0);
        cbn [difficultyOverride pd_experienceLevel systemPromptAddition negb];
        fields.
      * split; [repeat split|]. repeat split; auto.
      * assert (L : In (match experienceLevel parsed with
                        | senior => 2 | mid => 2 | junior => 1 end) [1; 2; 3]
                    /\ (match experienceLevel parsed with
                        | senior => 2 | mid => 2 | junior => 1 end =? 0) = false)
          by (destruct (experienceLevel parsed); cbn; auto).
        destruct L as [L1 L2]. rewrite L2.
        cbn [setLevel Adaptive.currentLevel Adaptive.scoreHistory
             Adaptive.levelHistory Adaptive.questionIndex
             Adaptive.followUpPending].
        split; [repeat split|].
        repeat split; auto; try discriminate. right. eexists. reflexivity.
  - intros E. injection E as <-.
    split; [apply sameRecords_refl|]. repeat split; auto.
Qed.

(** The handler up to the call of the language model, on a session whose
    level has a configuration. *)
Lemma beforeResponse_spec : forall s r,
  In (Adaptive.currentLevel (adaptiveManager s)) [1; 2; 3] ->
  match beforeResponse s r with
  | Stop s' o =>
      accepted r = false /\ s' = s /\ (o = Failed \/ o = Rejected)
      /\ (o = Rejected
          <-> printable (message r) && printable (domain r) = true
              /\ given (message r) = false)
  | Ask s3 hist =>
      accepted r = true
      /\ exists sr m1 config prompt,
           (if isWord "__start__" (message r) then applyResume s (resume r)
            else Some s) = Some sr
           /\ m1 = match history s with
                   | Some _ => adaptiveManager sr
                   | None =>
                       fst (Adaptive.getNextQuestionConfig (adaptiveManager sr))
                   end
           /\ Adaptive.getNextQuestionConfig m1
              = (adaptiveManager s3, Some config)
           /\ lastQuestionConfig s3 = Some config
           /\ sameRecords sr s3
           /\ skillGap s3 = skillGap sr
           /\ antiCheat s3
              = (if isWord "__start__" (message r) then antiCheat sr
                 else AntiCheat.questionAsked (antiCheat sr) (asked r))
           /\ history s3 = match history s with
                           | Some h => Some h
                           | None => None
                           end
           /\ hist = System prompt :: match history s with
                                      | Some h => tl h
                                      | None => []
                                      end
  end.
Proof.
  intros s r Hl. unfold beforeResponse, accepted.
  destruct (printable (message r) && printable (domain r)) eqn:Ep;
    cbn [negb].
  2:{ split; [reflexivity|]. split; [reflexivity|]. split; [auto|].
      split; [discriminate|intros [H _]; discriminate]. }
  destruct (given (message r)) eqn:Eg; cbn [negb andb].
  2:{ split; [reflexivity|]. split; [reflexivity|]. split; [auto|].
      split; auto. }
  cbv zeta.
  destruct (if isWord "__start__" (message r) then applyResume s (resume r)
            else Some s) as [sr|] eqn:Er.
  2:{ split; [|split; [reflexivity|split; [auto|]]].
      - destruct (isWord "__start__" (message r)); [|discriminate].
        destruct (resume r); cbn [applyResume] in Er; try discriminate.
        reflexivity.
      - split; [discriminate|intros [_ H]; discriminate]. }
  destruct (applyResume_spec s r sr Er)
    as (R1 & R2 & R3 & R4 & _ & _ & _ & _ & R9 & _ & _ & _ & R13).
  specialize (R9 Hl). rewrite R13.
  match goal with
  | |- context [match history ?t with Some _ => _ | None => _ end] =>
      set (s0 := t)
  end.
  assert (E0 : adaptiveManager s0 = adaptiveManager sr
               /\ history s0 = history sr
               /\ sameRecords sr s0
               /\ skillGap s0 = skillGap sr
               /\ antiCheat s0 = antiCheat sr).
  { unfold s0.
    destruct (given (domain r) && negb (isWord "general" (domain r))
              && isWord "__start__" (message r));
      fields; repeat split. }
  destruct E0 as (M0 & H0 & S0 & G0 & A0). clearbody s0.
  rewrite H0, R3.
  assert (Hl0 : In (Adaptive.currentLevel (adaptiveManager s0)) [1; 2; 3])
    by (rewrite M0; exact R9).
  destruct (history s) as [h|] eqn:Eh.
  - destruct (buildSystemPrompt_spec s0 Hl0) as (m & config & prompt & Eg' & ->).
    split; [reflexivity|]. exists sr, (adaptiveManager sr), config, prompt.
    split; [reflexivity|]. split; [reflexivity|].
    split; [rewrite <- M0, Eg';
            destruct (isWord "__start__" (message r)); reflexivity|].
    split; [destruct (isWord "__start__" (message r)); reflexivity|].
    split; [destruct S0 as (S1 & S2 & S3 & S4 & S5 & S6 & S7);
            destruct (isWord "__start__" (message r));
            unfold setManager; fields; repeat split; assumption|].
    split; [destruct (isWord "__start__" (message r));
            unfold setManager; fields; exact G0|].
    split; [destruct (isWord "__start__" (message r));
            unfold setManager; fields; rewrite A0; reflexivity|].
    split; [destruct (isWord "__start__" (message r));
            unfold setManager; fields; rewrite H0, R3; reflexivity|].
    reflexivity.
  - destruct (buildSystemPrompt_spec s0 Hl0) as (m & c0 & p0 & Eg0 & ->).
    set (s1 := setManager s0 m (Some c0)).
    assert (Em : m = fst (Adaptive.getNextQuestionConfig (adaptiveManager s0)))
      by (rewrite Eg0; reflexivity).
    assert (Hl1 : In (Adaptive.currentLevel (adaptiveManager s1)) [1; 2; 3]).
    { unfold s1, setManager. fields. rewrite Em.
      destruct (getNextQuestionConfig_fields (adaptiveManager s0)) as (E1 & _).
      rewrite E1. exact Hl0. }
    destruct (buildSystemPrompt_spec s1 Hl1) as (m' & config & prompt & Eg' & ->).
    split; [reflexivity|].
    exists sr, m, config, prompt.
    split; [reflexivity|]. split; [rewrite <- M0; exact Em|].
    split; [unfold s1, setManager in Eg'; fields_in Eg'; rewrite Eg';
            destruct (isWord "__start__" (message r)); reflexivity|].
    split; [destruct (isWord "__start__" (message r)); reflexivity|].
    split; [destruct S0 as (S1 & S2 & S3 & S4 & S5 & S6 & S7);
            destruct (isWord "__start__" (message r));
            unfold s1, setManager; fields; repeat split; assumption|].
    split; [destruct (isWord "__start__" (message r));
            unfold s1, setManager; fields; exact G0|].
    split; [destruct (isWord "__start__" (message r));
            unfold s1, setManager; fields; rewrite A0; reflexivity|].
    split; [destruct (isWord "__start__" (message r));
            unfold s1, setManager; fields; rewrite H0, R3; reflexivity|].
    reflexivity.
Qed.

Lemma scoreAnswer_steady : forall s hist message ai now,
  engines s -> 0 <= ai <= 10 ->
  let r := scoreAnswer s hist message ai now in
  let e := evaluateAnswer message (getLastQuestion hist) ai in
  engines (fst r)
  /\ (exists meta, snd r = Some meta)
  /\ answerEvaluations (fst r) = answerEvaluations s ++ [e]
  /\ questionAnswerPairs (fst r)
     = questionAnswerPairs s
       ++ [{| qa_question := getLastQuestion hist; qa_answer := message;
              qa_aiScore := ai; qa_compositeScore := compositeScore e |}]
  /\ questionCount (fst r) = questionCount s
  /\ totalScore (fst r) = totalScore s
  /\ scoredCount (fst r) = scoredCount s
  /\ completed (fst r) = completed s
  /\ finalScore (fst r) = finalScore s
  /\ lastQuestionConfig (fst r) = lastQuestionConfig s
  /\ history (fst r) = Some hist
  /\ Adaptive.questionIndex (adaptiveManager (fst r))
     = Adaptive.questionIndex (adaptiveManager s)
  /\ Adaptive.scoreHistory (adaptiveManager (fst r))
     = Adaptive.scoreHistory (adaptiveManager s) ++ [compositeScore e]
  /\ (untouched s -> untouched (fst r)).
Proof.
  intros s hist message ai now (W & E1 & E2 & E3 & E4 & E5 & (k & Hk & E6)) Ha.
  cbv zeta. unfold scoreAnswer. cbv zeta.
  set (q := getLastQuestion hist).
  pose proof (compositeScore_range message q ai Ha) as Hcomp.
  assert (Hai : aiJudgment (evaluateAnswer message q ai) = ai) by reflexivity.
  set (e := evaluateAnswer message q ai) in *.
  set (c := compositeScore e) in *.
  pose proof W as (Hl & _).
  destruct (recordScore_entry (adaptiveManager s) c Hl)
    as (m1 & entry & E & S1 & I1).
  pose proof (recordScore_levelled (adaptiveManager s) c W) as W1.
  pose proof (step_wellFormed 1 (adaptiveManager s) (Adaptive.OpRecordScore c))
    as U1.
  cbn [Adaptive.step] in U1.
  rewrite E in W1, U1 |- *. cbn [fst] in W1, U1.
  pose proof (shouldFollowUp_levelled m1 c q message W1) as W2.
  pose proof (step_wellFormed 1 m1 (Adaptive.OpShouldFollowUp c q message))
    as U2.
  cbn [Adaptive.step] in U2.
  destruct (shouldFollowUp_fields m1 c q message) as (_ & S2 & _ & I2).
  set (m2 := fst (Adaptive.shouldFollowUp m1 c q message)) in *.
  assert (Hn0 : 0 <= len (answerEvaluations s)) by (unfold len; lia).
  pose proof (analyzeAnswer_inStep (len (answerEvaluations s)) (antiCheat s)
                now message ai Hn0 E5) as A.
  destruct (AntiCheat.analyzeAnswer (antiCheat s) now message ai)
    as [monitor result].
  cbn [fst] in A.
  set (qt := match lastQuestionConfig s with
             | Some config =>
                 match Adaptive.questionType config with
                 | Some t => if nonEmpty t then t else "technical"
                 | None => "technical"
                 end
             | None => "technical"
             end).
  assert (T : forall n, 0 <= n -> tracked n (skillGap s) ->
              tracked (n + 1)
                (fst (SkillGap.trackAnswer (skillGap s) q message c qt))).
  { intros n Hn Ht.
    exact (track_tracked n (skillGap s)
             {| Session.question := q; Session.answer := message;
                Session.score := c; Session.questionType := qt |} Hn Ht). }
  fields.
  assert (Hn : len (answerEvaluations s ++ [e]) = len (answerEvaluations s) + 1)
    by apply len_app1.
  split.
  { unfold engines. fields.
    rewrite Hn, !map_app. cbn [map qa_compositeScore qa_aiScore].
    rewrite S2, S1, E1, E2, E3, Hai. fold c.
    split; [exact W2|]. split; [reflexivity|]. split; [reflexivity|].
    split; [reflexivity|]. split; [|split; [exact A|]].
    - apply Forall_app. split; [exact E4|]. constructor; [|constructor].
      fold c. rewrite Hai. lia.
    - exists (k + 1). split; [lia|]. apply T; [lia|exact E6]. }
  split; [eexists; reflexivity|].
  do 9 (split; [reflexivity|]).
  split; [rewrite I2, I1; reflexivity|].
  split; [rewrite S2, S1; reflexivity|].
  intros (V1 & V2). unfold untouched. fields. rewrite Hn.
  split; [exact (U2 (U1 V1))|apply T; [exact Hn0|exact V2]].
Qed.

Lemma shouldScore_other : forall message,
  match message with Text _ => False | _ => True end ->
  shouldScore message = true.
Proof. intros [a| |p] H; [destruct H|reflexivity|reflexivity]. Qed.

(** What follows the reply of the model, on a session whose engines are
    in step. *)
Lemma afterResponse_spec : forall s hist message response saved now,
  engines s ->
  let res := afterResponse s hist message response saved now in
  let real := shouldScore message in
  let x := extractScore response in
  let counted := scoreMatch x && real in
  let hist2 :=
    (if real then hist ++ [User message] else hist) ++ [Assistant response] in
  questionCount (fst res) = questionCount s + 1
  /\ totalScore (fst res)
     = (if counted then totalScore s + aiScore x else totalScore s)
  /\ scoredCount (fst res)
     = (if counted then scoredCount s + 1 else scoredCount s)
  /\ history (fst res) = Some hist2
  /\ lastQuestionConfig (fst res) = lastQuestionConfig s
  /\ Adaptive.questionIndex (adaptiveManager (fst res))
     = Adaptive.questionIndex (adaptiveManager s)
  /\ ((completed (fst res) = completed s
       /\ finalScore (fst res) = finalScore s)
      \/ (completed (fst res) = true /\ finalScore (fst res) <> None))
  /\ engines (fst res)
  /\ (untouched s -> untouched (fst res))
  /\ snd res <> Rejected
  /\ match message with
     | Text answer =>
         (snd res = Failed <-> completionFound response = true /\ saved = false)
         /\ if real then
              let e :=
                evaluateAnswer answer (getLastQuestion hist2) (aiScore x) in
              answerEvaluations (fst res) = answerEvaluations s ++ [e]
              /\ questionAnswerPairs (fst res)
                 = questionAnswerPairs s
                   ++ [{| qa_question := getLastQuestion hist2;
                          qa_answer := answer;
                          qa_aiScore := aiScore x;
                          qa_compositeScore := compositeScore e |}]
              /\ Adaptive.scoreHistory (adaptiveManager (fst res))
                 = Adaptive.scoreHistory (adaptiveManager s)
                   ++ [compositeScore e]
            else
              answerEvaluations (fst res) = answerEvaluations s
              /\ questionAnswerPairs (fst res) = questionAnswerPairs s
     | _ =>
         snd res = Failed
         /\ answerEvaluations (fst res) = answerEvaluations s
         /\ questionAnswerPairs (fst res) = questionAnswerPairs s
     end.
Proof.
  intros s hist message response saved now He. cbv zeta.
  unfold afterResponse. cbv zeta.
  destruct (extractScore_range response) as [Ha _].
  set (x := extractScore response) in *.
  assert (Same : forall s', adaptiveManager s' = adaptiveManager s ->
                   antiCheat s' = antiCheat s -> skillGap s' = skillGap s ->
                   answerEvaluations s' = answerEvaluations s ->
                   questionAnswerPairs s' = questionAnswerPairs s ->
                   engines s' /\ (untouched s -> untouched s')).
  { intros s' E1 E2 E3 E4 E5.
    split; [exact (engines_fields s s' He E1 E2 E3 E4 E5)|].
    unfold untouched. rewrite E1, E3, E4. auto. }
  destruct message as [answer| |p].
  - destruct (shouldScore (Text answer)) eqn:Er.
    + rewrite andb_true_r.
      match goal with
      | |- context [scoreAnswer ?s1 ?h answer (aiScore x) now] =>
          set (s' := s1); set (h' := h)
      end.
      destruct (Same s' eq_refl eq_refl eq_refl eq_refl eq_refl) as [He' Hu'].
      pose proof (scoreAnswer_steady s' h' answer (aiScore x) now He' Ha) as P.
      cbv zeta in P.
      destruct (scoreAnswer s' h' answer (aiScore x) now) as [s2 meta].
      cbn [fst snd] in P.
      destruct P as (P1 & (mt & ->) & P3 & P4 & P5 & P6 & P7 & P8 & P9 & P10
                     & P11 & P12 & P13 & P14).
      unfold s' in P3, P4, P5, P6, P7, P8, P9, P10, P12, P13.
      fields_in P3; fields_in P4; fields_in P5; fields_in P6; fields_in P7;
        fields_in P8; fields_in P9; fields_in P10; fields_in P12;
        fields_in P13.
      assert (Hu2 : untouched s -> untouched s2) by auto.
      destruct (completionFound response), saved; fields;
        (split; [exact P5|]); (split; [exact P6|]); (split; [exact P7|]);
        (split; [exact P11|]); (split; [exact P10|]); (split; [exact P12|]).
      * split; [right; split; [reflexivity|discriminate]|].
        split; [exact (engines_fields s2 _ P1 eq_refl eq_refl eq_refl eq_refl
                         eq_refl)|].
        split; [intros U; exact (Hu2 U)|]. split; [discriminate|].
        split; [split; [discriminate|intros [_ H]; discriminate]|auto].
      * split; [right; split; [reflexivity|discriminate]|].
        split; [exact (engines_fields s2 _ P1 eq_refl eq_refl eq_refl eq_refl
                         eq_refl)|].
        split; [intros U; exact (Hu2 U)|]. split; [discriminate|].
        split; [split; auto|auto].
      * split; [left; split; assumption|].
        split; [exact P1|]. split; [exact Hu2|]. split; [discriminate|].
        split; [split; [discriminate|intros [H _]; discriminate]|auto].
      * split; [left; split; assumption|].
        split; [exact P1|]. split; [exact Hu2|]. split; [discriminate|].
        split; [split; [discriminate|intros [H _]; discriminate]|auto].
    + rewrite andb_false_r.
      destruct (completionFound response), saved; fields;
        do 6 (split; [reflexivity|]).
      * split; [right; split; [reflexivity|discriminate]|].
        split; [apply Same; reflexivity|]. split; [apply Same; reflexivity|].
        split; [discriminate|].
        split; [split; [discriminate|intros [_ H]; discriminate]|auto].
      * split; [right; split; [reflexivity|discriminate]|].
        split; [apply Same; reflexivity|]. split; [apply Same; reflexivity|].
        split; [discriminate|]. split; [split; auto|auto].
      * split; [left; split; reflexivity|].
        split; [apply Same; reflexivity|]. split; [apply Same; reflexivity|].
        split; [discriminate|].
        split; [split; [discriminate|intros [H _]; discriminate]|auto].
      * split; [left; split; reflexivity|].
        split; [apply Same; reflexivity|]. split; [apply Same; reflexivity|].
        split; [discriminate|].
        split; [split; [discriminate|intros [H _]; discriminate]|auto].
  - cbn [shouldScore isWord negb andb]. rewrite andb_true_r. fields.
    do 6 (split; [reflexivity|]). split; [left; split; reflexivity|].
    split; [apply Same; reflexivity|]. split; [apply Same; reflexivity|].
    split; [discriminate|]. auto.
  - cbn [shouldScore isWord negb andb]. rewrite andb_true_r. fields.
    do 6 (split; [reflexivity|]). split; [left; split; reflexivity|].
    split; [apply Same; reflexivity|]. split; [apply Same; reflexivity|].
    split; [discriminate|]. auto.
Qed.

(** The session with which the handler turns to the language model. *)
Lemma prepared_steady : forall s r s3 hist,
  engines s ->
  beforeResponse s r = Ask s3 hist ->
  accepted r = true
  /\ engines s3
  /\ sameRecords s s3
  /\ (resumeApplied r = false -> untouched s -> untouched s3)
  /\ exists prompt,
       hist = System prompt :: match history s with
                               | Some h => tl h
                               | None => []
                               end.
Proof.
  intros s r s3 hist He Eb.
  pose proof He as (W & E1 & E2 & E3 & E4 & E5 & (k & Hk & E6)).
  pose proof W as (Hl & Hn).
  pose proof (beforeResponse_spec s r Hl) as B. rewrite Eb in B.
  destruct B as (B1 & sr & m1 & config & prompt & Er & Em & Eg & Ec & Rec
                 & Gap & Anti & _ & Eh).
  destruct (applyResume_spec s r sr Er)
    as (R1 & R2 & R3 & R4 & R5 & R6 & R7 & R8 & R9 & R10 & R11 & _ & _).
  pose proof (sameRecords_trans _ _ _ R1 Rec) as Rs.
  assert (Es3 : adaptiveManager s3 = fst (Adaptive.getNextQuestionConfig m1))
    by (rewrite Eg; reflexivity).
  split; [exact B1|]. split; [|split; [exact Rs|split; [|exists prompt; exact Eh]]].
  - assert (Lr : levelled (adaptiveManager sr)).
    { apply (levelled_fields (adaptiveManager s)); [exact W|exact (R9 Hl)| |].
      - rewrite R5. reflexivity.
      - rewrite R6. reflexivity. }
    assert (L1 : levelled m1
                 /\ Adaptive.scoreHistory m1
                    = Adaptive.scoreHistory (adaptiveManager s)).
    { rewrite Em. destruct (history s).
      - split; [exact Lr|exact R5].
      - split; [apply getNextQuestionConfig_levelled, Lr|].
        destruct (getNextQuestionConfig_fields (adaptiveManager sr))
          as (_ & F & _). rewrite F. exact R5. }
    destruct L1 as [L1 S1].
    destruct Rs as (_ & _ & _ & _ & _ & V6 & V7).
    unfold engines. rewrite V6, V7, Es3.
    split; [apply getNextQuestionConfig_levelled, L1|].
    split.
    { destruct (getNextQuestionConfig_fields m1) as (_ & F & _).
      rewrite F, S1. exact E1. }
    split; [exact E2|]. split; [exact E3|]. split; [exact E4|].
    split.
    { rewrite Anti.
      destruct (isWord "__start__" (message r)); rewrite R2; exact E5. }
    rewrite Gap. destruct R10 as [-> | (role & ->)].
    + exists k. auto.
    + exists 0. split; [lia|apply create_tracked].
  - intros Hr (U1 & U2). destruct (R11 Hr) as [Rm Rg].
    destruct Rs as (_ & _ & _ & _ & _ & V6 & _).
    unfold untouched. rewrite V6, Gap, Rg, Es3.
    split; [|exact U2].
    assert (U : Spec.wellFormed 1 m1).
    { rewrite Em, Rm. destruct (history s); [exact U1|].
      exact (step_wellFormed 1 _ Adaptive.OpGetNextQuestionConfig U1). }
    exact (step_wellFormed 1 _ Adaptive.OpGetNextQuestionConfig U).
Qed.

(** One request on a session whose engines are in step. *)
Lemma chat_steady : forall s r,
  engines s -> counters s ->
  let res := chat s r in
  engines (fst res) /\ counters (fst res)
  /\ (textual r = true -> evaluatedCounters s -> evaluatedCounters (fst res))
  /\ (resumeApplied r = false -> untouched s -> untouched (fst res))
  /\ (accepted r = false ->
      fst res = s /\ (snd res = Failed \/ snd res = Rejected)
      /\ (snd res = Rejected
          <-> printable (message r) && printable (domain r) = true
              /\ given (message r) = false))
  /\ (accepted r = true -> response r = None -> snd res = Failed)
  /\ (accepted r = true ->
      forall text, response r = Some text ->
        questionCount (fst res) = questionCount s + 1
        /\ snd res <> Rejected
        /\ (textual r = true ->
            (snd res = Failed
             <-> completionFound text = true /\ saved r = false))
        /\ (textual r = false ->
            snd res = Failed
            /\ answerEvaluations (fst res) = answerEvaluations s
            /\ scoredCount (fst res)
               = scoredCount s
                 + (if scoreMatch (extractScore text) then 1 else 0))).
Proof.
  intros s r He Hc. cbv zeta. unfold chat.
  pose proof He as (W & _). pose proof W as (Hl & _).
  pose proof (beforeResponse_spec s r Hl) as B.
  destruct (beforeResponse s r) as [s' o|s3 hist] eqn:Eb.
  - destruct B as (B1 & -> & B3 & B4). fields.
    split; [exact He|]. split; [exact Hc|]. split; [auto|]. split; [auto|].
    split; [auto|]. split; intros H; congruence.
  - clear B.
    destruct (prepared_steady s r s3 hist He Eb)
      as (B1 & He3 & Rs & Hu3 & (prompt & Eh)).
    pose proof (counters_fields s s3 Hc Rs) as Hc3.
    destruct (response r) as [text|].
    + pose proof (afterResponse_spec s3 hist (message r) text (saved r) (now r)
                    He3) as A.
      cbv zeta in A.
      set (res := afterResponse s3 hist (message r) text (saved r) (now r)) in *.
      destruct (extractScore_range text) as [Ha H0].
      set (x := extractScore text) in *.
      destruct A as (A1 & A2 & A3 & A4 & A5 & A6 & A7 & A8 & A9 & A10 & A11).
      destruct Rs as (V1 & V2 & V3 & V4 & V5 & V6 & V7).
      rewrite V1 in A1. rewrite V2 in A2. rewrite V3 in A3.
      rewrite V4, V5 in A7.
      destruct Hc as (C1 & C2 & C3 & C4).
      assert (Hlen : len (answerEvaluations (fst res))
                     <= len (answerEvaluations s) + 1
                     /\ len (answerEvaluations s)
                        <= len (answerEvaluations (fst res))).
      { destruct (message r) as [answer| |p].
        - destruct A11 as [_ A11].
          destruct (shouldScore (Text answer)).
          + destruct A11 as (-> & _). rewrite len_app1, V6. lia.
          + destruct A11 as (-> & _). rewrite V6. lia.
        - destruct A11 as (_ & -> & _). rewrite V6. lia.
        - destruct A11 as (_ & -> & _). rewrite V6. lia. }
      split; [exact A8|]. split.
      { unfold counters. rewrite A1, A2, A3.
        destruct (scoreMatch x && shouldScore (message r)).
        - split; [lia|]. split; [lia|]. split; [lia|].
          destruct A7 as [(-> & ->)|(-> & F)]; [exact C4|].
          split; auto.
        - split; [lia|]. split; [lia|]. split; [lia|].
          destruct A7 as [(-> & ->)|(-> & F)]; [exact C4|].
          split; auto. }
      split.
      { unfold textual. intros Ht (T1 & T2). unfold evaluatedCounters.
        rewrite A2, A3.
        destruct (message r) as [answer| |p] eqn:Em; [| |discriminate].
        - destruct A11 as [_ A11].
          destruct (shouldScore (Text answer)).
          + destruct A11 as (-> & _). rewrite V6, andb_true_r.
            rewrite len_app1, map_app. cbn [map]. rewrite sumZ_snoc.
            change (aiJudgment
                      (evaluateAnswer answer
                         (getLastQuestion
                            ((hist ++ [User (Text answer)])
                             ++ [Assistant text])) (aiScore x)))
              with (aiScore x).
            destruct (scoreMatch x) eqn:Es.
            * split; lia.
            * rewrite (H0 eq_refl). split; lia.
          + destruct A11 as (-> & _). rewrite V6, andb_false_r.
            split; assumption.
        - exfalso. unfold accepted in B1. rewrite Em in B1.
          cbn [given] in B1. rewrite andb_false_r in B1. discriminate. }
      split; [intros Hr U; exact (A9 (Hu3 Hr U))|].
      split; [intros H; congruence|]. split; [intros _ H; discriminate|].
      intros _ text' Et. injection Et as <-.
      split; [exact A1|]. split; [exact A10|]. unfold textual.
      destruct (message r) as [answer| |p] eqn:Em.
      * split; [intros _; apply A11|discriminate].
      * exfalso. unfold accepted in B1. rewrite Em in B1.
        cbn [given] in B1. rewrite andb_false_r in B1. discriminate.
      * split; [discriminate|]. intros _.
        destruct A11 as (F1 & F2 & _). split; [exact F1|].
        split; [rewrite F2; exact V6|].
        rewrite A3. cbn [shouldScore isWord negb andb].
        rewrite andb_true_r. fold x. destruct (scoreMatch x); lia.
    + fields. unfold setHistory.
      split; [exact (engines_fields s3 _ He3 eq_refl eq_refl eq_refl eq_refl
                       eq_refl)|].
      split; [apply (counters_fields s3); [exact Hc3|repeat split]|].
      split.
      { intros _ T. apply (evaluatedCounters_fields s); [exact T|].
        destruct Rs as (V1 & V2 & V3 & V4 & V5 & V6 & V7).
        repeat split; assumption. }
      split.
      { intros Hr U. exact (Hu3 Hr U). }
      split; [intros H; congruence|]. split; [reflexivity|].
      intros _ text H. discriminate.
Qed.

Lemma newSession_steady :
  engines newSession /\ counters newSession
  /\ evaluatedCounters newSession /\ untouched newSession.
Proof.
  assert (W : Spec.wellFormed 1 (adaptiveManager newSession))
    by (unfold Spec.wellFormed; cbn; repeat split; auto; lia).
  split; [|split; [|split]].
  - unfold engines, newSession. fields.
    split; [apply wellFormed_levelled, W|].
    split; [reflexivity|]. split; [reflexivity|]. split; [reflexivity|].
    split; [constructor|]. split.
    + unfold inStep. cbn. lia.
    + exists 0. split; [cbn; lia|apply create_tracked].
  - unfold counters, newSession. fields. cbn.
    repeat split; try lia; try discriminate. intros H. congruence.
  - unfold evaluatedCounters, newSession. fields. cbn. split; [lia|reflexivity].
  - split; [exact W|]. unfold newSession. fields. apply create_tracked.
Qed.

Lemma serveAll_steady : forall requests s,
  engines s -> counters s ->
  engines (serveAll s requests) /\ counters (serveAll s requests)
  /\ (forallb textual requests = true ->
      evaluatedCounters s -> evaluatedCounters (serveAll s requests))
  /\ (forallb (fun r => negb (resumeApplied r)) requests = true ->
      untouched s -> untouched (serveAll s requests)).
Proof.
  unfold serveAll. induction requests as [|r requests IH]; intros s He Hc.
  - cbn [fold_left]. auto.
  - cbn [fold_left forallb].
    destruct (chat_steady s r He Hc) as (H1 & H2 & H3 & H4 & _).
    destruct (IH (serve s r) H1 H2) as (I1 & I2 & I3 & I4).
    split; [exact I1|]. split; [exact I2|]. split.
    + intros Ht T. apply andb_prop in Ht. destruct Ht as [Ht1 Ht2].
      apply I3; [exact Ht2|]. apply H3; assumption.
    + intros Hr U. apply andb_prop in Hr. destruct Hr as [Hr1 Hr2].
      apply I4; [exact Hr2|]. apply H4; [|exact U].
      destruct (resumeApplied r); [discriminate|reflexivity].
Qed.

(** X20.  Whatever chat requests a new session serves, with messages,
    domains and resumes of any JSON type, its engines stay in step: the
    session holds one evaluation and one question/answer pair per
    evaluated answer; the score history of the difficulty manager is the
    list of the composite scores, its level history is one longer and
    its level is 1, 2 or 3; the monitor has analyzed as many answers and
    the detector at most as many; the AI scores and the composite scores
    are between 0 and 10; the total score is at most ten times the
    number of scored answers, which is at most the number of questions;
    and the session is completed exactly when it has a final score.
    When every message is a string or absent, the total score is the sum
    of the AI scores of the evaluations (an answer whose reply carries
    no score marker is evaluated with AI score 0) and not more answers
    are counted as scored than were evaluated.  When no request opens
    the interview with a resume in which skills are found, the detector
    has tracked every evaluated answer and the level history begins
    with 1 and ends with the current level. *)
Theorem session_in_step : forall requests : list Request,
  let s := serveAll newSession requests in
  let evaluations := answerEvaluations s in
  let n := len evaluations in
  Adaptive.scoreHistory (adaptiveManager s) = map compositeScore evaluations
  /\ len (Adaptive.levelHistory (adaptiveManager s)) = n + 1
  /\ In (Adaptive.currentLevel (adaptiveManager s)) [1; 2; 3]
  /\ map qa_compositeScore (questionAnswerPairs s)
     = map compositeScore evaluations
  /\ map qa_aiScore (questionAnswerPairs s) = map aiJudgment evaluations
  /\ len (AntiCheat.responseLengths (antiCheat s)) = n
  /\ 0 <= SkillGap.questionsAnalyzed (skillGap s) <= n
  /\ Forall (fun e => 0 <= compositeScore e <= 10
                      /\ 0 <= aiJudgment e <= 10) evaluations
  /\ 0 <= totalScore s <= 10 * scoredCount s
  /\ 0 <= scoredCount s <= questionCount s
  /\ n <= questionCount s
  /\ (completed s = true <-> finalScore s <> None)
  /\ (forallb textual requests = true ->
      totalScore s = sumZ (map aiJudgment evaluations)
      /\ scoredCount s <= n)
  /\ (forallb (fun r => negb (resumeApplied r)) requests = true ->
      SkillGap.questionsAnalyzed (skillGap s) = n
      /\ hd_error (Adaptive.levelHistory (adaptiveManager s)) = Some 1
      /\ List.last (Adaptive.levelHistory (adaptiveManager s)) 0
         = Adaptive.currentLevel (adaptiveManager s)).
Proof.
  intros requests s evaluations n.
  destruct newSession_steady as (He0 & Hc0 & Ht0 & Hu0).
  destruct (serveAll_steady requests newSession He0 Hc0) as (He & Hc & Ht & Hu).
  fold s in He, Hc, Ht, Hu.
  destruct He as ((W1 & W2) & E1 & E2 & E3 & E4 & (I1 & _) & (k & Hk & T1 & _)).
  destruct Hc as (C1 & C2 & C3 & C4).
  fold evaluations in E1, E2, E3, E4, I1, Hk, C2. fold n in I1, Hk, C2.
  split; [exact E1|]. split.
  { rewrite W2, E1. unfold n, len. rewrite length_map. reflexivity. }
  split; [exact W1|]. split; [exact E2|]. split; [exact E3|].
  split; [exact I1|]. split; [rewrite T1; exact Hk|]. split; [exact E4|].
  split; [exact C3|]. split; [exact C1|]. split; [exact C2|].
  split; [exact C4|]. split.
  - intros H. destruct (Ht H Ht0) as [T2 T3]. split; assumption.
  - intros H. destruct (Hu H Hu0) as ((_ & _ & U3 & U4) & (U5 & _)).
    split; [exact U5|]. split; assumption.
Qed.

Lemma session_in_step_witness :
  forallb textual [startRequest; answerRequest] = true
  /\ forallb (fun r => negb (resumeApplied r)) [startRequest; answerRequest]
     = true
  /\ totalScore (serveAll newSession [startRequest; answerRequest])
     = sumZ (map aiJudgment
               (answerEvaluations
                  (serveAll newSession [startRequest; answerRequest])))
  /\ SkillGap.questionsAnalyzed
       (skillGap (serveAll newSession [startRequest; answerRequest]))
     = len (answerEvaluations
              (serveAll newSession [startRequest; answerRequest])).
Proof.
  destruct (session_in_step [startRequest; answerRequest])
    as (_ & _ & _ & _ & _ & _ & _ & _ & _ & _ & _ & _ & T & U).
  split; [reflexivity|]. split; [reflexivity|].
  split; [exact (proj1 (T eq_refl))|exact (proj1 (U eq_refl))].
Defined.

(** X21.  When a chat request fails.  In a session that started as a new
    one, a request that is not accepted (its message or its domain
    cannot be printed for the log, its message is empty or absent, or it
    opens the interview with a resume that is not a text) leaves the
    session as it is and is answered with an error, which is the
    rejection exactly when the log line can be printed and the message
    is empty or absent.  An accepted request fails when the language
    model does not reply.  When the model replies, the request counts as
    one more question and is never rejected; with a text message it
    fails only if the interview is complete and the report is not
    stored, so the difficulty manager always has a configuration for
    its level and neither the prompt builder nor the score recorder
    throws; with a message that is no text it always fails, after it
    was counted as a question and, with a score marker in the reply, as
    a scored answer, and nothing is evaluated. *)
Theorem request_fails_outside_engines :
  forall (requests : list Request) (r : Request),
    let s := serveAll newSession requests in
    let result := chat s r in
    (accepted r = false ->
     fst result = s /\ (snd result = Failed \/ snd result = Rejected)
     /\ (snd result = Rejected
         <-> printable (message r) && printable (domain r) = true
             /\ given (message r) = false))
    /\ (accepted r = true -> response r = None -> snd result = Failed)
    /\ (accepted r = true ->
        forall text, response r = Some text ->
          questionCount (fst result) = questionCount s + 1
          /\ snd result <> Rejected
          /\ (textual r = true ->
              (snd result = Failed
               <-> completionFound text = true /\ saved r = false))
          /\ (textual r = false ->
              snd result = Failed
              /\ answerEvaluations (fst result) = answerEvaluations s
              /\ scoredCount (fst result)
                 = scoredCount s
                   + (if scoreMatch (extractScore text) then 1 else 0))).
Proof.
  intros requests r s result.
  destruct newSession_steady as (He0 & Hc0 & _).
  destruct (serveAll_steady requests newSession He0 Hc0) as (He & Hc & _).
  fold s in He, Hc.
  destruct (chat_steady s r He Hc) as (_ & _ & _ & _ & H1 & H2 & H3).
  split; [exact H1|]. split; [exact H2|exact H3].
Qed.

Lemma request_fails_outside_engines_witness :
  accepted answerRequest = true
  /\ snd (chat (serveAll newSession [startRequest]) answerRequest) <> Failed
  /\ accepted arrayAnswer = true
  /\ snd (chat (serveAll newSession [startRequest]) arrayAnswer) = Failed
  /\ scoredCount (fst (chat (serveAll newSession [startRequest]) arrayAnswer))
     = scoredCount (serveAll newSession [startRequest]) + 1.
Proof.
  destruct (request_fails_outside_engines [startRequest] answerRequest)
    as (_ & _ & H).
  destruct (H eq_refl "Good. What is a closure? SCORE|7/10" eq_refl)
    as (_ & _ & Ht & _).
  destruct (request_fails_outside_engines [startRequest] arrayAnswer)
    as (_ & _ & H').
  destruct (H' eq_refl "Please answer in words. SCORE|3/10" eq_refl)
    as (_ & _ & _ & Ho).
  destruct (Ho eq_refl) as (F1 & _ & F3).
  split; [reflexivity|]. split.
  - intros F. apply (proj1 (Ht eq_refl)) in F. destruct F as [F _].
    vm_compute in F. discriminate.
  - split; [reflexivity|]. split; [exact F1|exact F3].
Defined.

Lemma getLastQuestion_previous : forall h q m r,
  getLastQuestion (((h ++ [Assistant q]) ++ [User m]) ++ [Assistant r]) = q.
Proof.
  intros h q m r. unfold getLastQuestion.
  rewrite removelast_last, !rev_app_distr. reflexivity.
Qed.

Lemma realAnswer_shouldScore : forall answer,
  realAnswer answer = true -> shouldScore (Text answer) = true.
Proof.
  intros answer. unfold realAnswer, shouldScore. cbn [isWord].
  destruct (nonEmpty answer); [cbn [andb]; auto|discriminate].
Qed.

(** What one answered request leaves in the session. *)
Lemma chat_replied : forall s r text,
  engines s -> accepted r = true -> response r = Some text ->
  let s' := fst (chat s r) in
  (exists h, h <> [] /\ history s' = Some (h ++ [Assistant text]))
  /\ (forall answer h0 t0,
        message r = Text answer -> realAnswer answer = true ->
        h0 <> [] -> history s = Some (h0 ++ [Assistant t0]) ->
        let ai := aiScore (extractScore text) in
        let e := evaluateAnswer answer t0 ai in
        answerEvaluations s' = answerEvaluations s ++ [e]
        /\ questionAnswerPairs s'
           = questionAnswerPairs s
             ++ [{| qa_question := t0; qa_answer := answer;
                    qa_aiScore := ai;
                    qa_compositeScore := compositeScore e |}]
        /\ Adaptive.scoreHistory (adaptiveManager s')
           = Adaptive.scoreHistory (adaptiveManager s) ++ [compositeScore e]).
Proof.
  intros s r text He Ha Hr. cbv zeta. unfold chat.
  pose proof He as (W & E1 & _). pose proof W as (Hl & _).
  pose proof (beforeResponse_spec s r Hl) as B.
  destruct (beforeResponse s r) as [s' o|s3 hist] eqn:Eb;
    [destruct B as (B1 & _); congruence|clear B].
  destruct (prepared_steady s r s3 hist He Eb)
    as (_ & He3 & Rs & _ & (prompt & Eh)).
  rewrite Hr.
  pose proof (afterResponse_spec s3 hist (message r) text (saved r) (now r) He3)
    as A.
  cbv zeta in A.
  destruct A as (_ & _ & _ & A4 & _ & _ & _ & _ & _ & _ & A11).
  destruct Rs as (_ & _ & _ & _ & _ & V6 & V7).
  split.
  - rewrite A4.
    exists (if shouldScore (message r) then hist ++ [User (message r)]
            else hist).
    split; [|reflexivity].
    rewrite Eh. destruct (shouldScore (message r)); discriminate.
  - intros answer h0 t0 Em Hreal Hh0 Hhist.
    rewrite Em in A11. rewrite (realAnswer_shouldScore _ Hreal) in A11.
    destruct A11 as (_ & A11). cbv zeta in A11.
    assert (Etl : hist = (System prompt :: tl h0) ++ [Assistant t0]).
    { rewrite Eh, Hhist. destruct h0 as [|e0 h0]; [congruence|reflexivity]. }
    rewrite Etl, getLastQuestion_previous in A11.
    assert (Es : Adaptive.scoreHistory (adaptiveManager s3)
                 = Adaptive.scoreHistory (adaptiveManager s)).
    { destruct He3 as (_ & F & _). rewrite F, V6. symmetry. exact E1. }
    rewrite V6, V7, Es in A11. rewrite Em, Etl. exact A11.
Qed.

(** X22.  The question an answer is evaluated against.  When a session
    (reached from a new one) serves two accepted requests that the model
    answers and the second carries a text that is a real answer, that
    answer is evaluated against the raw reply to the first request,
    score marker included, with the AI score of the marker of the second
    reply; the evaluation and the question/answer pair are appended to
    the session's lists and the composite score to the score history of
    the difficulty manager. *)
Theorem answer_meets_previous_reply :
  forall (requests : list Request) (r1 r2 : Request)
    (answer text1 text2 : string),
    accepted r1 = true ->
    response r1 = Some text1 ->
    message r2 = Text answer ->
    realAnswer answer = true ->
    printable (domain r2) = true ->
    response r2 = Some text2 ->
    let s1 := serve (serveAll newSession requests) r1 in
    let s2 := serve s1 r2 in
    let ai := aiScore (extractScore text2) in
    let evaluation := evaluateAnswer answer text1 ai in
    answerEvaluations s2 = answerEvaluations s1 ++ [evaluation]
    /\ questionAnswerPairs s2
       = questionAnswerPairs s1
         ++ [{| qa_question := text1; qa_answer := answer;
                qa_aiScore := ai;
                qa_compositeScore := compositeScore evaluation |}]
    /\ Adaptive.scoreHistory (adaptiveManager s2)
       = Adaptive.scoreHistory (adaptiveManager s1)
         ++ [compositeScore evaluation].
Proof.
  intros requests r1 r2 answer text1 text2 Ha1 Hr1 Hm2 Hreal Hd2 Hr2
    s1 s2 ai evaluation.
  destruct newSession_steady as (He0 & Hc0 & _).
  destruct (serveAll_steady requests newSession He0 Hc0) as (He & Hc & _).
  set (s := serveAll newSession requests) in *.
  destruct (chat_steady s r1 He Hc) as (He1 & Hc1 & _).
  destruct (chat_replied s r1 text1 He Ha1 Hr1) as [(h & Hh & Hhist) _].
  fold (serve s r1) in He1, Hc1, Hhist. fold s1 in He1, Hc1, Hhist.
  assert (Ha2 : accepted r2 = true).
  { unfold accepted. rewrite Hm2, Hd2. cbn [printable given isWord andb].
    unfold realAnswer in Hreal.
    destruct (nonEmpty answer); [|discriminate].
    destruct (String.eqb answer "__start__"); [discriminate|reflexivity]. }
  destruct (chat_replied s1 r2 text2 He1 Ha2 Hr2) as [_ P].
  exact (P answer h text1 Hm2 Hreal Hh Hhist).
Qed.

Lemma answer_meets_previous_reply_witness :
  map qa_question
    (questionAnswerPairs
       (serve (serve (serveAll newSession []) startRequest) answerRequest))
  = ["Hello. Tell me about your background."].
Proof.
  destruct (answer_meets_previous_reply [] startRequest answerRequest
              "I have built web services for five years."
              "Hello. Tell me about your background."
              "Good. What is a closure? SCORE|7/10"
              eq_refl eq_refl eq_refl eq_refl eq_refl eq_refl) as (_ & E & _).
  rewrite E. reflexivity.
Defined.




End Sessions.

(* ------------------------------------------------------------------ *)
(** ** The score marker of a reply *)

Section ScoreMarker.

Import Server.

Lemma append_snoc : forall (x : string) c acc,
  ((x ++ String c "") ++ acc = x ++ String c acc)%string.
Proof.
  induction x as [|a x IH]; intros c acc; [reflexivity|].
  cbn [String.append]. rewrite IH. reflexivity.
Qed.

Lemma rev_string_acc : forall s acc,
  rev_string s acc = (rev_string s "" ++ acc)%string.
Proof.
  induction s as [|c r IH]; intros acc; [reflexivity|].
  cbn [rev_string]. rewrite (IH (String c acc)), (IH (String c "")).
  rewrite append_snoc. reflexivity.
Qed.

(** A pattern without a space that starts inside [t] cannot run over
    the space behind [t]. *)
Lemma prefix_before_space : forall p t r,
  existsChar isSpace p = false ->
  prefix p (t ++ String " " r) = true -> prefix p t = true.
Proof.
  induction p as [|a p IH]; intros t r Hp H; [destruct t; reflexivity|].
  cbn [existsChar] in Hp. apply orb_false_iff in Hp. destruct Hp as [Ha Hp].
  destruct t as [|b t]; cbn [String.append prefix] in H |- *.
  - destruct (ascii_dec a " ") as [->|_]; [|discriminate H].
    vm_compute in Ha. discriminate Ha.
  - destruct (ascii_dec a b); [|discriminate H]. apply (IH t r Hp H).
Qed.

Lemma marker_read : forall n, 0 <= n <= 99 -> markerRead n = true.
Proof. apply (all1_range markerRead). vm_compute. reflexivity. Qed.

Lemma findScoreMarker_here : forall s before n rest,
  scoreMarkerHere s = Some (n, rest) ->
  findScoreMarker s before = Some (n, rev_string before "", rest).
Proof.
  intros s before n rest H. destruct s; cbn [findScoreMarker]; rewrite H;
    reflexivity.
Qed.

Lemma findScoreMarker_next : forall c s before,
  scoreMarkerHere (String c s) = None ->
  findScoreMarker (String c s) before = findScoreMarker s (String c before).
Proof.
  intros c s before H. cbn [findScoreMarker]. rewrite H. reflexivity.
Qed.

Lemma findScoreMarker_end : forall text n before,
  0 <= n <= 99 ->
  includes "SCORE|" text = false ->
  findScoreMarker (text ++ " SCORE|" ++ decimal n ++ "/10") before
  = Some (n, (rev_string before "" ++ text ++ " ")%string, "").
Proof.
  intros text n before Hn. revert before.
  induction text as [|c text IH]; intros before Hi.
  - change (("" ++ " SCORE|" ++ decimal n ++ "/10")%string)
      with (String " " ("SCORE|" ++ decimal n ++ "/10")).
    rewrite findScoreMarker_next by reflexivity.
    pose proof (marker_read n Hn) as M. unfold markerRead in M.
    destruct (scoreMarkerHere ("SCORE|" ++ decimal n ++ "/10"))
      as [[m rest]|] eqn:E; [|discriminate M].
    apply andb_true_iff in M. destruct M as [M1 M2].
    apply Z.eqb_eq in M1. apply String.eqb_eq in M2. subst m rest.
    rewrite (findScoreMarker_here _ _ _ _ E).
    cbn [rev_string]. rewrite (rev_string_acc before " "). reflexivity.
  - cbn [includes] in Hi. apply orb_false_iff in Hi. destruct Hi as [Hp Hi].
    change ((String c text ++ " SCORE|" ++ decimal n ++ "/10")%string)
      with (String c (text ++ " SCORE|" ++ decimal n ++ "/10")).
    assert (E : scoreMarkerHere
                  (String c (text ++ " SCORE|" ++ decimal n ++ "/10")) = None).
    { unfold scoreMarkerHere.
      destruct (prefix "SCORE|"
                  (String c (text ++ " SCORE|" ++ decimal n ++ "/10"))) eqn:P;
        [|reflexivity].
      change (String c (text ++ " SCORE|" ++ decimal n ++ "/10"))
        with ((String c text ++ String " " ("SCORE|" ++ decimal n ++ "/10"))%string)
        in P.
      apply prefix_before_space in P; [congruence|reflexivity]. }
    rewrite (findScoreMarker_next _ _ _ E), (IH (String c before) Hi).
    cbn [rev_string].
    rewrite (rev_string_acc before (String c "")), append_snoc. reflexivity.
Qed.

(** X24.  Reading back a score marker.  For a text without the word
    SCORE| and a number n from 0 to 99, the reply made of the text, a
    space and the marker for n is read as the AI score min(10, n); the
    marker is cut out and what is left is trimmed.  A score is never
    negative, so the lower clamp never acts. *)
Theorem extractScore_roundTrip : forall (text : string) (n : Z),
  0 <= n <= 99 ->
  includes "SCORE|" text = false ->
  let x := extractScore (text ++ " SCORE|" ++ decimal n ++ "/10") in
  scoreMatch x = true
  /\ aiScore x = Z.min 10 n
  /\ cleanedResponse x = trim (text ++ " ").
Proof.
  intros text n Hn Hi x. unfold x, extractScore.
  rewrite (findScoreMarker_end text n "" Hn Hi).
  cbn [scoreMatch aiScore cleanedResponse rev_string String.append].
  split; [reflexivity|]. split; [lia|].
  f_equal. generalize (text ++ " ")%string. intros t.
  induction t as [|c t IH]; [reflexivity|]. cbn [String.append]. rewrite IH.
  reflexivity.
Qed.

Lemma extractScore_roundTrip_witness :
  aiScore (extractScore ("Good answer." ++ " SCORE|" ++ decimal 12 ++ "/10"))
  = 10.
Proof.
  destruct (extractScore_roundTrip "Good answer." 12 ltac:(lia) eq_refl)
    as (_ & E & _).
  rewrite E. reflexivity.
Defined.

End ScoreMarker.
